(* ===== verification/_CoqProject ===== *)
-Q . S2P
Prelude.v
JsValue.v
JsString.v
Storage.v
Dom.v
Client.v
DoctorServices.v
Session.v
Footer.v
DoctorCard.v
AdminDashboard.v
AdminPage.v
DoctorDashboard.v
Browser.v
