(* ===== verification/Prelude.v ===== *)
(** * Verification of the hospital management web client

    The program is the browser side of a hospital management application
    (src/app/src/main/resources/static/js): scripts that render a header,
    doctor cards and two dashboards, and call a REST server for logins,
    doctor CRUD and appointments. Its parts and how they interact:

    - the session store: [localStorage] keys [userRole], [token],
      [doctorId], [patientId], shared by every script;
    - components/header.js: [renderHeader] reads role and token, detects
      an expired session, draws the navigation bar, and [logout] /
      [logoutPatient] clear the session; services/index.js: the role
      selection ([window.selectRole]) and the admin and doctor login
      handlers, which write role and token;
    - services/doctorServices.js: [getDoctors], [deleteDoctor],
      [saveDoctor], [filterDoctors], which call the server and fold every
      failure into a result value;
    - components/doctorCard.js: [createDoctorCard], which reads the role
      and attaches the delete and booking handlers, the delete handler
      calling [deleteDoctor];
    - adminDashboard.js and doctorDashboard.js: page controllers that
      call the services and render cards or rows;
    - components/footer.js: static markup.

    ** Files

    - [Prelude] (this file): notations, the [client] hint databases, the
      tactics and the generic lemmas on strings, lists and integer ranges.
    - [JsValue]: JavaScript values ([jsval]) with truthiness [truthy], the
      [||] operator [js_or], [String(v)] as [to_string] and property
      reads [get_prop] (a TypeError on null and undefined).
    - [JsString]: the string built-ins the scripts call: [ends_with],
      [trim], [split_on] (split), and [encodeURIComponent] with the
      decoder a server applies to a path segment.
    - [Storage]: [localStorage] as the class [WebStorage] with its laws
      [WebStorageLaws], the gmap instance, and store equivalence with
      [Proper] instances.
    - [Dom]: the document the scripts write: header items, doctor cards,
      content nodes, table rows, the footer.
    - [Client]: the browser [world] (store, path, header, content,
      table, trace of effects) and the monad [M] (state, JavaScript
      exceptions, [try_catch]) with its primitives [fetch], [json],
      [prop], [alert], [confirm], [navigate], [get_item], [set_item],
      [remove_item]; the server and the user's answers are oracles of
      the environment [env]; the properties of computations [nothrow],
      [only_traces], [appends], [preserves] and [keeps_inv] with their
      closure lemmas and tactics.
    - [DoctorServices]: the four services, one definition each, with the
      same names as in services/doctorServices.js.
    - [Session]: header.js and index.js: [renderHeader],
      [attachHeaderButtonListeners], [logout], [logoutPatient],
      [click_nav], [selectRole], [adminLoginHandler], [doctorLoginHandler]
      (both through [credential_login], the shape the two share).
    - [Footer]: footer.js: [renderFooter] and its template
      [footerContent].
    - [DoctorCard]: [createDoctorCard] and its handlers
      [deleteButtonHandler], [bookNowHandler], [bookAppointmentHandler].
    - [AdminDashboard]: adminDashboard.js: [loadDoctorCards],
      [filterDoctorsOnChange], [renderDoctorCards], [adminAddDoctor] (with
      [parse_times] and [doctor_object], the object it sends, and its
      halves around the [await], [adminAddDoctor_start] and
      [adminAddDoctor_saved]) and
      [adminDashboardOnload] ([window.onload]: [attachAddDocListener],
      then the load).
    - [AdminPage]: adminDashboard.js as a running page: the filter
      controls the module finds ([filter_controls]), the listeners
      [onload] attaches to them ([filter_listeners]), the listener's
      synchronous part ([read_filters], [on_filter_event]), the
      add-doctor form's submission, and the page machine [admin_step] on
      [admin_page] (world, controls, listeners, requests in flight:
      loads, filters and saves) with its reachability [admin_reach].
    - [DoctorDashboard]: doctorDashboard.js: the module's state as the
      record [dashboard] ([dashboard_init] for the module body),
      [loadAppointments] split at its [await] into [load_start] and
      [load_finish], the listeners [on_search_input], [on_today_click],
      [on_date_change], [on_dom_loaded], and the page machine [dash_step]
      on [page] (dashboard, world, queries in flight) with its
      reachability [dash_reach].
    - [Browser]: the specification's session machine ([SessionSpec]:
      roles, token, steps [astep], invariant [spec_inv]), the abstraction
      [abs] of a store to a session, and the page life cycle as a step
      relation [bstep] on worlds (load a URL with its header, follow the
      expiry redirect, click a header item, choose a role, log in, load
      the URL a handler assigned) with its reachability [breach].

    ** How the code is modelled

    Every handler is a computation of [M]: reading and writing the store
    goes through [WebStorage], each [fetch], [alert], [confirm],
    [console.error] and navigation is appended to the trace, and a thrown
    [Error] is a [Thrown] completion that [try_catch] handles as the
    code's [try]/[catch] does. Markup is kept as the structure it
    denotes; inline [onclick] handlers are the action they run.
    Numbers are integers, strings are sequences of Latin-1 code units
    (Rocq's [ascii]); [encodeURIComponent] is exact on that range
    (two-byte UTF-8 above 127). No definition uses fuel: every recursion
    is structural on a string or a list, and facts about all 256 code
    units are checked by evaluating them on the range ([range_check]).

    Asynchrony: within one handler an [await] runs to completion, except
    where a page calls an [async] function without [await] and several
    calls overlap: in [DoctorDashboard] ([loadAppointments]) and in
    [AdminPage] ([loadDoctorCards] from [onload] and after a save,
    [filterDoctorsOnChange] from the filter listeners, [saveDoctor]
    awaited by [adminAddDoctor]). There the answers are events ([Resolve
    i], [Answer k]) that the network delivers in any order, and the
    state the continuation reads is the state at delivery. An admin
    page request is kept as the call that issued it and runs whole on
    its answer; the server oracle is fixed, so the answer is the one
    the request had when sent.

    ** What the theorems show

    - Doctor card (C1, C2): a confirmed delete issues exactly one DELETE
      with the card's doctor and the stored token and removes exactly that
      card; and it does so, alerting success, even when the server refuses,
      because [deleteDoctor] never throws (C6) and the handler ignores its
      result.
    - Session (C3 to C5, C12 to C16): the header's expiry check, the
      session invariant it restores ([session_ok]), role controls only with
      a token, the effects of logout and of an accepted login; the
      "undefined" token that passes the check (C13), [selectRole] ignoring
      its role (C15), the token kept by the root page (C16).
    - Services (C6 to C11, C17, C18): the wrappers never throw,
      resolve to their documented values and issue exactly one request
      (C6 to C9); blank filter terms become "all" and the filter URL
      routes its terms verbatim, by the percent-encoding of
      [encodeURIComponent] (C10, C11, its round trip with the decoder);
      the error-body alert of [filterDoctors] (C17); delete paths
      unroutable when the token holds a slash (C18).
    - Admin dashboard (C19 to C23, C31): the panel is never left blank by
      a load and never shows its network-failure message (C19, C20); a
      doctor without times blanks the panel during a filter (C21); the
      save-then-reload sequence of [adminAddDoctor], which posts to
      [/doctor/save/{token}] (C22); the Add Doctor button that opens its
      modal twice (C23); every operation keeps [#content] well formed
      and showing one message or cards only ([content_ok], with
      [panel_ok]), because [renderDoctorCards] clears the panel before
      it draws and a message replaces the panel (C31).
    - Admin page (C32 to C37): over every reachable page, in any order of
      answers, [#content] shows one message or cards only (C32, rule
      induction over [admin_reach]); which event on which control sends
      a filter request and which sends nothing (C33); the [TypeError]
      every keystroke raises when a dropdown is missing (C34); a load's
      answer, whenever it arrives, shows every listed doctor whatever
      the filter controls hold (C35, so a late answer to the initial
      load replaces filtered cards); the reload an accepted save leaves
      in flight (C36), which, answered in order, ends with every listed
      doctor shown under an unchanged filter (C37).
    - Doctor dashboard (C24 to C27): the stale-response race the
      specification warns of, as a run of the page machine (C24); the
      table invariant over all reachable pages, by rule induction (C25);
      no query without a token (C26); the empty-answer message that names
      the date selected on arrival, not the date asked (C27); every load
      settles once the network has answered the queries in flight.
    - Browser and the session machine (C28 to C30): in every reachable
      state of the browser, role controls are backed by a stored token
      (C28, rule induction over [breach]); the session handlers refine
      the specification's machine under [abs] (C29); and the composed
      system reaches a session the specification forbids, a token under
      the unauthenticated patient role (C30).

    ** Not modelled

    The modules outside this repository (config.js, modals/util.js,
    loggedPatient.js, patientServices.js, appointmentServices.js,
    patientRowComponent.js, render.js) are parameters or events:
    [API_BASE_URL] is a field of [env], [openModal]/[closeModal] and
    [openBookingOverlay] are events, [fetchPatientDetails] and
    [getAllAppointments] are parameters. The HTML pages are not in the
    repository: which scripts a page loads and which role buttons the
    role page has are parameters of [Browser], which filter controls
    the admin page has is a parameter of [AdminPage], and a page load runs
    header.js only ([renderFooter] commutes with [renderHeader], so
    adding footer.js to a load changes nothing the theorems observe).
    Console messages are kept as their label; markup as the structure it
    denotes, not as HTML strings. *)

From stdpp Require Export base strings gmap list.
From Stdlib Require Export String Ascii ZArith Lia.

#[global] Open Scope string_scope.

Declare Scope client_scope.
Delimit Scope client_scope with client.

Create HintDb client discriminated.
Create Rewrite HintDb client_rw.

(** ** Booleans and strings *)

Lemma streqb_true (s t : string) : String.eqb s t = true <-> s = t.
Proof. apply String.eqb_eq. Qed.

Lemma streqb_refl (s : string) : String.eqb s s = true.
Proof. apply String.eqb_refl. Qed.

Lemma streqb_false (s t : string) : s <> t -> String.eqb s t = false.
Proof. apply String.eqb_neq. Qed.

#[export] Hint Rewrite streqb_refl : client_rw.

(** [destruct_streqb] cases on the first string comparison of the goal. *)
Ltac destruct_streqb :=
  match goal with
  | |- context [String.eqb ?a ?b] =>
      let E := fresh "E" in
      destruct (String.eqb_spec a b) as [E|E]; [subst|]
  end.

(** ** Finite range checks on integers

    A boolean property of every integer of a small range (a byte, a hex
    digit) is proved by evaluating it on the whole range. *)

Definition Z_range (lo : Z) (n : nat) : list Z := map (fun k => lo + Z.of_nat k)%Z (seq 0 n).

Lemma Z_range_forall (P : Z -> bool) (lo : Z) (n : nat) :
  forallb P (Z_range lo n) = true ->
  forall z, (lo <= z < lo + Z.of_nat n)%Z -> P z = true.
Proof.
  intros Hall z Hz. apply forallb_forall with (x := z) in Hall; [done|].
  apply in_map_iff. exists (Z.to_nat (z - lo)). split; [lia|].
  apply in_seq. lia.
Qed.

(** [range_check lo n] proves [P z = true] from [lo <= z < lo + n] by
    evaluating [P] on the range. *)
Ltac range_check lo n :=
  match goal with
  | |- ?P ?z = true =>
      apply (Z_range_forall P lo n); [vm_compute; reflexivity | lia]
  end.

Lemma str_length_app (s t : string) : String.length (s ++ t) = (String.length s + String.length t)%nat.
Proof. induction s; simpl; [done|]. by rewrite IHs. Qed.

#[export] Hint Rewrite str_length_app : client_rw.

(** Filtering an association list keeps a sublist of its keys. *)
Lemma map_fst_filter_sublist {K V} (f : K * V -> bool) (l : list (K * V)) :
  map fst (List.filter f l) `sublist_of` map fst l.
Proof. induction l as [|x l IH]; simpl; [done|]. destruct (f x); simpl; by constructor. Qed.

(** The last element of a list, at its index and removed from it. *)
Lemma lookup_snoc {A} (l : list A) x n : n = List.length l -> (l ++ [x])%list !! n = Some x.
Proof. intros ->. by apply list_lookup_middle. Qed.

Lemma delete_snoc {A} (l : list A) x n : n = List.length l -> delete n (l ++ [x])%list = l.
Proof. intros ->. by rewrite delete_middle, app_nil_r. Qed.

(** Removing one key from a list of distinct keys removes one entry. *)
Lemma filter_neq_key_length {A} (l : list (nat * A)) (k : nat) :
  NoDup (map fst l) -> k ∈ map fst l ->
  List.length (List.filter (fun p => negb (Nat.eqb p.1 k)) l) = pred (List.length l).
Proof.
  induction l as [|[k' v] l IH]; simpl; [by intros _ ?%elem_of_nil|].
  intros [Hnin Hnd]%NoDup_cons Hin.
  destruct (Nat.eqb_spec k' k) as [->|Hne]; simpl.
  - f_equal. clear IH Hnd Hin. induction l as [|[k'' v''] l IHl]; simpl; [done|].
    simpl in Hnin. rewrite not_elem_of_cons in Hnin. destruct Hnin as [Hk Hnin].
    destruct (Nat.eqb_spec k'' k); [congruence|]. simpl. by rewrite IHl.
  - apply elem_of_cons in Hin as [->|Hin]; [done|].
    rewrite IH by done. destruct l; [by apply elem_of_nil in Hin | done].
Qed.

(** A property every step of a left fold keeps holds of its result. *)
Lemma fold_left_invariant {A B} (P : A -> Prop) (f : A -> B -> A) (l : list B) (a : A) :
  (forall a b, P a -> P (f a b)) -> P a -> P (fold_left f l a).
Proof. intros Hf. revert a. induction l as [|b l IH]; simpl; auto. Qed.
