(* ===== verification/JsValue.v ===== *)
(** JavaScript values as the client code handles them: the JSON values
    that [response.json()] produces and the values the scripts build,
    with the language's truthiness, the [||] operator, [String(v)] and
    property access (which throws a TypeError on [null]/[undefined]). *)
From S2P Require Import Prelude.
From Stdlib Require Import DecimalString.

(** Numbers are integers: every number the scripts read or print
    (HTTP statuses, ids, lengths) is integral. *)
#[warnings="-register-all"]
Inductive jsval : Type :=
| JUndefined
| JNull
| JBool (b : bool)
| JNum (n : Z)
| JStr (s : string)
| JArr (elems : list jsval)
| JObj (props : list (string * jsval)).

(** Decimal rendering of an integer, as [Number.prototype.toString]. *)
Definition z_to_string (z : Z) : string :=
  match z with
  | Z0 => "0"
  | Zpos p => NilEmpty.string_of_uint (Pos.to_uint p)
  | Zneg p => "-" ++ NilEmpty.string_of_uint (Pos.to_uint p)
  end.

(** ToBoolean: [undefined], [null], [false], [0] and [""] are falsy. *)
Definition truthy (v : jsval) : bool :=
  match v with
  | JUndefined | JNull => false
  | JBool b => b
  | JNum n => negb (Z.eqb n 0)
  | JStr s => negb (String.eqb s "")
  | JArr _ | JObj _ => true
  end.

(** [a || b]. *)
Definition js_or (a b : jsval) : jsval := if truthy a then a else b.

(** ToString, as used by template literals, [new Error(m)] and
    [localStorage.setItem]. An array joins its elements with commas,
    [null] and [undefined] elements printing as the empty string. *)
Fixpoint to_string (v : jsval) : string :=
  match v with
  | JUndefined => "undefined"
  | JNull => "null"
  | JBool true => "true"
  | JBool false => "false"
  | JNum n => z_to_string n
  | JStr s => s
  | JArr vs =>
      String.concat ","
        (map (fun e => match e with JUndefined | JNull => "" | _ => to_string e end) vs)
  | JObj _ => "[object Object]"
  end.

(** The value bound to a key; the last binding wins, as in
    [JSON.parse] and object literals with a repeated key. *)
Fixpoint assoc_get (k : string) (ps : list (string * jsval)) : option jsval :=
  match ps with
  | [] => None
  | (k', v) :: ps' =>
      match assoc_get k ps' with
      | Some w => Some w
      | None => if String.eqb k' k then Some v else None
      end
  end.

(** [v.p]: [None] is the TypeError of reading a property of [null] or
    [undefined]; a missing property reads as [undefined]. *)
Definition get_prop (v : jsval) (p : string) : option jsval :=
  match v with
  | JUndefined | JNull => None
  | JObj ps => Some (default JUndefined (assoc_get p ps))
  | JArr vs => Some (if String.eqb p "length" then JNum (Z.of_nat (List.length vs)) else JUndefined)
  | JStr s => Some (if String.eqb p "length" then JNum (Z.of_nat (String.length s)) else JUndefined)
  | JBool _ | JNum _ => Some JUndefined
  end.

(** ** Lemmas *)

Lemma js_or_truthy a b : truthy a = true -> js_or a b = a.
Proof. unfold js_or. by intros ->. Qed.

Lemma js_or_falsy a b : truthy a = false -> js_or a b = b.
Proof. unfold js_or. by intros ->. Qed.

(** [a || b] with a truthy default is truthy. *)
Lemma js_or_truthy_default a b : truthy b = true -> truthy (js_or a b) = true.
Proof. unfold js_or. by destruct (truthy a) eqn:?. Qed.

Lemma js_or_str_nonempty s b : s <> "" -> js_or (JStr s) b = JStr s.
Proof. intros H. apply js_or_truthy. simpl. by rewrite streqb_false. Qed.

Lemma assoc_get_app k ps qs :
  assoc_get k (ps ++ qs) =
  match assoc_get k qs with Some v => Some v | None => assoc_get k ps end.
Proof.
  induction ps as [|[k' v'] ps IH]; simpl; [by destruct (assoc_get k qs)|].
  rewrite IH. by destruct (assoc_get k qs).
Qed.

Lemma assoc_get_single_eq k v : assoc_get k [(k, v)] = Some v.
Proof. simpl. by rewrite streqb_refl. Qed.

Lemma assoc_get_cons_ne k k' v ps :
  k' <> k -> assoc_get k ((k', v) :: ps) = assoc_get k ps.
Proof.
  intros Hne. simpl. rewrite streqb_false by done. by destruct (assoc_get k ps).
Qed.

#[export] Hint Rewrite assoc_get_single_eq : client_rw.
