(* ===== verification/JsString.v ===== *)
(** The string built-ins the scripts call: [String.prototype.endsWith],
    [trim], [split(",")] and the global [encodeURIComponent], on strings
    whose code units lie in the Latin-1 range (Rocq's [ascii]), together
    with the decoder a server applies to a path segment. *)
From S2P Require Import Prelude.

Local Open Scope Z_scope.

Definition code (c : ascii) : Z := Z.of_nat (nat_of_ascii c).
Definition ascii_of_Z (z : Z) : ascii := ascii_of_nat (Z.to_nat z).

(** [s.endsWith(suffix)]. *)
Definition ends_with (suffix s : string) : bool :=
  (String.length suffix <=? String.length s)%nat &&
  String.eqb (substring (String.length s - String.length suffix) (String.length suffix) s) suffix.

(** White space and line terminators of the Latin-1 range, as removed by
    [String.prototype.trim]: TAB, LF, VT, FF, CR, SPACE and NBSP. *)
Definition is_js_space (c : ascii) : bool :=
  existsb (Nat.eqb (nat_of_ascii c)) [9; 10; 11; 12; 13; 32; 160]%nat.

Fixpoint drop_spaces (cs : list ascii) : list ascii :=
  match cs with
  | c :: cs' => if is_js_space c then drop_spaces cs' else cs
  | [] => []
  end.

(** [s.trim()]. *)
Definition trim (s : string) : string :=
  string_of_list_ascii (rev (drop_spaces (rev (drop_spaces (list_ascii_of_string s))))).

(** [s.split(sep)] for a one-character separator: the empty string
    splits into [[""]], and adjacent separators give empty fields. *)
Fixpoint split_on (sep : ascii) (s : string) : list string :=
  match s with
  | EmptyString => [EmptyString]
  | String c rest =>
      let parts := split_on sep rest in
      if Ascii.eqb c sep then EmptyString :: parts
      else match parts with
           | p :: ps => String c p :: ps
           | [] => [String c EmptyString]
           end
  end.

Fixpoint str_count (c : ascii) (s : string) : nat :=
  match s with
  | EmptyString => 0
  | String c' s' => (if Ascii.eqb c' c then 1 else 0) + str_count c s'
  end.

Fixpoint str_contains (c : ascii) (s : string) : bool :=
  match s with
  | EmptyString => false
  | String c' s' => Ascii.eqb c' c || str_contains c s'
  end.

(** ** encodeURIComponent *)

(** The characters left as they are: letters, digits and [- _ . ! ~ * ' ( )]. *)
Definition is_unreserved (c : ascii) : bool :=
  let n := code c in
  ((65 <=? n) && (n <=? 90)) || ((97 <=? n) && (n <=? 122)) || ((48 <=? n) && (n <=? 57))
  || existsb (Z.eqb n) [45; 95; 46; 33; 126; 42; 39; 40; 41].

(** Upper-case hexadecimal digit of [0 <= d < 16]. *)
Definition hex_digit (d : Z) : ascii := ascii_of_Z (if d <? 10 then 48 + d else 55 + d).

Definition percent_byte (b : Z) : string :=
  String "%" (String (hex_digit (Z.shiftr b 4)) (String (hex_digit (Z.land b 15)) EmptyString)).

(** UTF-8 encoding of a code unit below 256: one byte below 128, two
    bytes [110xxxxx 10xxxxxx] above. *)
Definition utf8_bytes (n : Z) : list Z :=
  if n <? 128 then [n] else [Z.lor 192 (Z.shiftr n 6); Z.lor 128 (Z.land n 63)].

Definition encode_char (c : ascii) : string :=
  if is_unreserved c then String c EmptyString
  else String.concat "" (map percent_byte (utf8_bytes (code c))).

Fixpoint encodeURIComponent (s : string) : string :=
  match s with
  | EmptyString => EmptyString
  | String c s' => encode_char c ++ encodeURIComponent s'
  end.

(** ** The decoder of a percent-encoded path segment *)

Definition hex_val (h : ascii) : option Z :=
  let n := code h in
  if (48 <=? n) && (n <=? 57) then Some (n - 48)
  else if (65 <=? n) && (n <=? 70) then Some (n - 55)
  else if (97 <=? n) && (n <=? 102) then Some (n - 87)
  else None.

Definition hex_byte (h1 h2 : ascii) : option Z :=
  match hex_val h1, hex_val h2 with
  | Some a, Some b => Some (Z.lor (Z.shiftl a 4) b)
  | _, _ => None
  end.

Definition latin1_of_utf8 (b1 b2 : Z) : Z := Z.lor (Z.shiftl (Z.land b1 31) 6) (Z.land b2 63).

(** [decodeURIComponent] on the Latin-1 range: a sequence that denotes a
    code point above 255, or is not valid UTF-8, is an error ([None]). *)
Fixpoint decodeURIComponent (s : string) : option string :=
  match s with
  | EmptyString => Some EmptyString
  | String c s1 =>
      if Ascii.eqb c "%" then
        match s1 with
        | String h1 (String h2 s2) =>
            match hex_byte h1 h2 with
            | Some b1 =>
                if b1 <? 128 then option_map (String (ascii_of_Z b1)) (decodeURIComponent s2)
                else if (194 <=? b1) && (b1 <=? 195) then
                  match s2 with
                  | String c' (String h3 (String h4 s3)) =>
                      match hex_byte h3 h4 with
                      | Some b2 =>
                          if Ascii.eqb c' "%" && (128 <=? b2) && (b2 <=? 191)
                          then option_map (String (ascii_of_Z (latin1_of_utf8 b1 b2)))
                                 (decodeURIComponent s3)
                          else None
                      | None => None
                      end
                  | _ => None
                  end
                else None
            | None => None
            end
        | _ => None
        end
      else option_map (String c) (decodeURIComponent s1)
  end.

(** ** Lemmas on code units and bytes *)

Lemma code_range c : 0 <= code c < 256.
Proof. unfold code. pose proof (nat_ascii_bounded c). lia. Qed.

Lemma ascii_of_Z_code c : ascii_of_Z (code c) = c.
Proof. unfold ascii_of_Z, code. by rewrite Nat2Z.id, ascii_nat_embedding. Qed.

#[export] Hint Rewrite ascii_of_Z_code : client_rw.

(** Percent-decoding inverts percent-encoding on every byte. *)
Definition hex_ok (b : Z) : bool :=
  match hex_byte (hex_digit (Z.shiftr b 4)) (hex_digit (Z.land b 15)) with
  | Some b' => b' =? b
  | None => false
  end.

Lemma hex_byte_digits b :
  0 <= b < 256 -> hex_byte (hex_digit (Z.shiftr b 4)) (hex_digit (Z.land b 15)) = Some b.
Proof.
  intros Hb. assert (H : hex_ok b = true) by range_check 0 256%nat. unfold hex_ok in H.
  destruct (hex_byte _ _); [|done]. f_equal. by apply Z.eqb_eq.
Qed.

(** The two UTF-8 bytes of a code unit in [128, 256) are bytes, start
    with lead byte 0xC2 or 0xC3 and a continuation byte, and decode back. *)
Definition utf8_pair_ok (n : Z) : bool :=
  let b1 := Z.lor 192 (Z.shiftr n 6) in
  let b2 := Z.lor 128 (Z.land n 63) in
  (b1 <? 256) && (b2 <? 256) && (194 <=? b1) && (b1 <=? 195)
  && (128 <=? b2) && (b2 <=? 191) && (latin1_of_utf8 b1 b2 =? n).

Lemma utf8_pair_spec n :
  128 <= n < 256 ->
  let b1 := Z.lor 192 (Z.shiftr n 6) in
  let b2 := Z.lor 128 (Z.land n 63) in
  0 <= b1 < 256 /\ 0 <= b2 < 256 /\ 194 <= b1 <= 195 /\ 128 <= b2 <= 191
  /\ latin1_of_utf8 b1 b2 = n.
Proof.
  intros Hn b1 b2. assert (H : utf8_pair_ok n = true) by range_check 128 128%nat.
  unfold utf8_pair_ok in H. fold b1 b2 in H.
  repeat rewrite andb_true_iff in H. rewrite !Z.ltb_lt, !Z.leb_le, Z.eqb_eq in H. lia.
Qed.

Lemma unreserved_not_percent c : is_unreserved c = true -> Ascii.eqb c "%" = false.
Proof. intros U. destruct (Ascii.eqb_spec c "%"); [subst; discriminate | done]. Qed.

Lemma decode_percent h1 h2 s b :
  hex_byte h1 h2 = Some b -> b < 128 ->
  decodeURIComponent (String "%" (String h1 (String h2 s)))
  = option_map (String (ascii_of_Z b)) (decodeURIComponent s).
Proof. intros Hb Hlt. simpl. rewrite Hb. by replace (b <? 128) with true by lia. Qed.

Lemma decode_percent2 h1 h2 h3 h4 s b1 b2 :
  hex_byte h1 h2 = Some b1 -> hex_byte h3 h4 = Some b2 ->
  194 <= b1 <= 195 -> 128 <= b2 <= 191 ->
  decodeURIComponent (String "%" (String h1 (String h2 (String "%" (String h3 (String h4 s))))))
  = option_map (String (ascii_of_Z (latin1_of_utf8 b1 b2))) (decodeURIComponent s).
Proof.
  intros H1 H2 R1 R2. simpl. rewrite H1, H2.
  replace (b1 <? 128) with false by lia.
  replace ((194 <=? b1) && (b1 <=? 195)) with true by lia.
  by replace ((128 <=? b2) && (b2 <=? 191)) with true by lia.
Qed.

Lemma decode_percent_byte b t :
  0 <= b < 128 ->
  decodeURIComponent (percent_byte b ++ t) = option_map (String (ascii_of_Z b)) (decodeURIComponent t).
Proof.
  intros Hb. unfold percent_byte. cbn [String.append].
  apply decode_percent; [apply hex_byte_digits|]; lia.
Qed.

Lemma decode_percent_bytes2 b1 b2 t :
  0 <= b1 < 256 -> 0 <= b2 < 256 -> 194 <= b1 <= 195 -> 128 <= b2 <= 191 ->
  decodeURIComponent (String.concat "" [percent_byte b1; percent_byte b2] ++ t)
  = option_map (String (ascii_of_Z (latin1_of_utf8 b1 b2))) (decodeURIComponent t).
Proof.
  intros R1 R2 R3 R4. unfold percent_byte. cbn [String.concat String.append].
  apply decode_percent2; try apply hex_byte_digits; done.
Qed.

Lemma decode_encode_char c t :
  decodeURIComponent (encode_char c ++ t) = option_map (String c) (decodeURIComponent t).
Proof.
  pose proof (code_range c) as Hc. unfold encode_char.
  destruct (is_unreserved c) eqn:U.
  { simpl. by rewrite unreserved_not_percent. }
  unfold utf8_bytes. destruct (code c <? 128) eqn:L.
  - apply Z.ltb_lt in L. cbn [map String.concat].
    rewrite decode_percent_byte by lia. by rewrite ascii_of_Z_code.
  - apply Z.ltb_ge in L. destruct (utf8_pair_spec (code c)) as (R1 & R2 & R3 & R4 & E); [lia|].
    cbn [map]. rewrite decode_percent_bytes2 by done. by rewrite E, ascii_of_Z_code.
Qed.

(** ** Lemmas on splitting *)

Lemma str_contains_app c s t : str_contains c (s ++ t) = str_contains c s || str_contains c t.
Proof. induction s; simpl; [done|]. by rewrite IHs, orb_assoc. Qed.

Lemma split_on_no_sep sep s : str_contains sep s = false -> split_on sep s = [s].
Proof.
  induction s as [|c s IH]; simpl; [done|].
  intros [Hc Hs]%orb_false_iff. by rewrite Hc, IH.
Qed.

Lemma split_on_app_sep sep a b :
  str_contains sep a = false -> split_on sep (a ++ String sep b) = a :: split_on sep b.
Proof.
  induction a as [|c a IH]; simpl.
  - by rewrite Ascii.eqb_refl.
  - intros [Hc Ha]%orb_false_iff. by rewrite Hc, IH.
Qed.

Lemma split_on_nonempty sep s : split_on sep s <> [].
Proof.
  induction s as [|c s IH]; simpl; [done|].
  destruct (Ascii.eqb c sep); [done|]. by destruct (split_on sep s).
Qed.

(** [s.split(sep)] has one field more than [s] has separators. *)
Lemma split_on_length sep s : List.length (split_on sep s) = Datatypes.S (str_count sep s).
Proof.
  induction s as [|c s IH]; simpl; [done|].
  pose proof (split_on_nonempty sep s) as Hne.
  destruct (Ascii.eqb c sep); simpl; [by rewrite IH|].
  destruct (split_on sep s); [done|]. simpl in *. by rewrite IH.
Qed.

Lemma str_contains_count c s : str_contains c s = true -> (1 <= str_count c s)%nat.
Proof.
  induction s as [|c' s IH]; simpl; [done|].
  intros [Hc|Hs]%orb_true_iff; [rewrite Hc; lia|]. specialize (IH Hs). lia.
Qed.

Lemma split_on_sep_cons sep s : split_on sep (String sep s) = EmptyString :: split_on sep s.
Proof. simpl. by rewrite Ascii.eqb_refl. Qed.

(** A string without ['%'] decodes to itself. *)
Lemma decode_no_percent s : str_contains "%" s = false -> decodeURIComponent s = Some s.
Proof.
  induction s as [|c s IH]; simpl; [done|].
  intros [Hc Hs]%orb_false_iff. by rewrite Hc, IH.
Qed.

(** Every character satisfies [P] when every code unit does. *)
Lemma ascii_forall (P : ascii -> bool) :
  forallb (fun n => P (ascii_of_Z n)) (Z_range 0 256) = true -> forall c, P c = true.
Proof.
  intros H c. rewrite <- (ascii_of_Z_code c).
  apply (Z_range_forall (fun n => P (ascii_of_Z n)) 0 256 H). apply code_range.
Qed.

Fixpoint str_forall (p : ascii -> bool) (s : string) : bool :=
  match s with
  | EmptyString => true
  | String c s' => p c && str_forall p s'
  end.

Lemma str_forall_app p s t : str_forall p (s ++ t) = str_forall p s && str_forall p t.
Proof. induction s; simpl; [done|]. by rewrite IHs, andb_assoc. Qed.

(** The characters an encoded component may contain. *)
Definition uri_safe (c : ascii) : bool := is_unreserved c || Ascii.eqb c "%".

Lemma encode_char_safe c : str_forall uri_safe (encode_char c) = true.
Proof. revert c. apply ascii_forall. vm_compute. reflexivity. Qed.

Lemma encode_char_length c :
  (1 <= String.length (encode_char c) <= 6)%nat.
Proof.
  assert (H : forall c, ((1 <=? String.length (encode_char c)) && (String.length (encode_char c) <=? 6))%nat = true).
  { apply ascii_forall. vm_compute. reflexivity. }
  specialize (H c). apply andb_true_iff in H as [H1 H2].
  apply Nat.leb_le in H1, H2. lia.
Qed.

(** Decoding an encoded component gives the original string
    back: the server reads exactly the value the client meant. *)
Theorem decode_encodeURIComponent s :
  decodeURIComponent (encodeURIComponent s) = Some s.
Proof.
  induction s as [|c s IH]; [done|]. simpl. by rewrite decode_encode_char, IH.
Qed.

(** An encoded component consists of unreserved characters and ['%']. *)
Theorem encodeURIComponent_safe s : str_forall uri_safe (encodeURIComponent s) = true.
Proof.
  induction s as [|c s IH]; [done|]. simpl. by rewrite str_forall_app, encode_char_safe, IH.
Qed.

Lemma str_forall_not_contains p c s :
  p c = false -> str_forall p s = true -> str_contains c s = false.
Proof.
  intros Hc. induction s as [|c' s IH]; simpl; [done|].
  intros [Hp Hs]%andb_true_iff. rewrite IH by done.
  destruct (Ascii.eqb_spec c' c); [subst; congruence | done].
Qed.

(** an encoded component never contains a path separator. *)
Corollary encodeURIComponent_no_slash s : str_contains "/" (encodeURIComponent s) = false.
Proof. apply (str_forall_not_contains uri_safe); [done | apply encodeURIComponent_safe]. Qed.

(** Each code unit becomes one to six characters. *)
Theorem encodeURIComponent_length s :
  (String.length s <= String.length (encodeURIComponent s) <= 6 * String.length s)%nat.
Proof.
  induction s as [|c s IH]; simpl; [lia|].
  rewrite str_length_app. pose proof (encode_char_length c). lia.
Qed.



Lemma concat_cons_char sep c p ps :
  String.concat sep (String c p :: ps) = String c (String.concat sep (p :: ps)).
Proof. by destruct ps. Qed.

(** Joining the fields of a split with the separator gives the string back. *)
Theorem split_on_join sep s : String.concat (String sep EmptyString) (split_on sep s) = s.
Proof.
  induction s as [|c s IH]; simpl; [done|].
  pose proof (split_on_nonempty sep s) as Hne.
  destruct (split_on sep s) as [|p ps]; [done|].
  destruct (Ascii.eqb_spec c sep) as [->|Hc].
  - rewrite <- IH. by destruct ps.
  - by rewrite concat_cons_char, IH.
Qed.
