(* ===== verification/Storage.v ===== *)
(** [window.localStorage] as an interface: the three operations the
    scripts call, the laws the session logic relies on, the gmap
    implementation that discharges them, and the observational
    equivalence of stores (same [getItem] on every key) under which all
    operations are [Proper]. *)
From S2P Require Import Prelude.
From Stdlib Require Import Morphisms.

Class WebStorage (Store : Type) := {
  getItem : Store -> string -> option string;
  setItem : string -> string -> Store -> Store;
  removeItem : string -> Store -> Store
}.

Class WebStorageLaws (Store : Type) `{!WebStorage Store} := {
  getItem_setItem_eq k v s : getItem (setItem k v s) k = Some v;
  getItem_setItem_ne k k' v s : k <> k' -> getItem (setItem k v s) k' = getItem s k';
  getItem_removeItem_eq k s : getItem (removeItem k s) k = None;
  getItem_removeItem_ne k k' s : k <> k' -> getItem (removeItem k s) k' = getItem s k'
}.

#[export] Hint Rewrite @getItem_setItem_eq @getItem_removeItem_eq : client_rw.
#[export] Hint Rewrite @getItem_setItem_ne @getItem_removeItem_ne using discriminate : client_rw.

(** A stored value as JavaScript reads it: [!localStorage.getItem(k)]
    holds for a missing key and for the empty string. *)
Definition item_falsy (o : option string) : bool :=
  match o with None => true | Some s => String.eqb s "" end.

(** [store_rw] rewrites reads of updated stores, discharging key
    disequalities from the context. *)
Ltac store_rw :=
  repeat first
    [ rewrite getItem_setItem_eq | rewrite getItem_removeItem_eq
    | rewrite getItem_setItem_ne by congruence | rewrite getItem_removeItem_ne by congruence ].

(** ** The browser's store as a finite map *)

#[export] Instance gmap_web_storage : WebStorage (gmap string string) := {
  getItem s k := s !! k;
  setItem k v s := <[k:=v]> s;
  removeItem k s := delete k s
}.

#[export] Instance gmap_web_storage_laws : WebStorageLaws (gmap string string).
Proof.
  split; intros; simpl.
  - apply lookup_insert_eq.
  - by apply lookup_insert_ne.
  - apply lookup_delete_eq.
  - by apply lookup_delete_ne.
Qed.

(** ** Observational equivalence of stores *)

Section Equiv.
Context {Store : Type} `{WebStorageLaws Store}.

Definition store_equiv (s1 s2 : Store) : Prop := forall k, getItem s1 k = getItem s2 k.

#[export] Instance store_equiv_equivalence : Equivalence store_equiv.
Proof.
  split; unfold store_equiv.
  - done.
  - intros x y Hxy k. by rewrite Hxy.
  - intros x y z Hxy Hyz k. by rewrite Hxy, Hyz.
Qed.

#[export] Instance getItem_proper : Proper (store_equiv ==> eq ==> eq) getItem.
Proof. intros s1 s2 Hs k ? <-. apply Hs. Qed.

#[export] Instance setItem_proper : Proper (eq ==> eq ==> store_equiv ==> store_equiv) setItem.
Proof.
  intros k ? <- v ? <- s1 s2 Hs k'.
  destruct (String.eqb_spec k k') as [<-|?]; store_rw; [done | apply Hs].
Qed.

#[export] Instance removeItem_proper : Proper (eq ==> store_equiv ==> store_equiv) removeItem.
Proof.
  intros k ? <- s1 s2 Hs k'.
  destruct (String.eqb_spec k k') as [<-|?]; store_rw; [done | apply Hs].
Qed.

Lemma removeItem_removeItem k s : store_equiv (removeItem k (removeItem k s)) (removeItem k s).
Proof. intros k'. destruct (String.eqb_spec k k') as [<-|?]; by store_rw. Qed.

Lemma removeItem_comm k1 k2 s :
  store_equiv (removeItem k1 (removeItem k2 s)) (removeItem k2 (removeItem k1 s)).
Proof.
  intros k'. destruct (String.eqb_spec k1 k') as [->|?];
    destruct (String.eqb_spec k2 k') as [->|?]; by store_rw.
Qed.

Lemma setItem_removeItem k v s : store_equiv (setItem k v (removeItem k s)) (setItem k v s).
Proof. intros k'. destruct (String.eqb_spec k k') as [<-|?]; by store_rw. Qed.
End Equiv.
