(* ===== verification/Dom.v ===== *)
(** The parts of the document the scripts write: the header bar
    (header.js), the doctor cards and messages of the admin dashboard's
    [#content] (adminDashboard.js, doctorCard.js) and the rows of the
    doctor dashboard's [#patientTableBody] (doctorDashboard.js).
    Markup is kept as the structure it denotes; inline [onclick]
    attributes and attached listeners are kept as the action they run. *)
From S2P Require Import Prelude JsValue.

(** Items of the navigation bar built by [renderHeader]. *)
Inductive nav_item : Type :=
| NavAddDoctor            (** [#addDocBtn], [onclick="openModal('addDoctor')"] *)
| NavLogout               (** [<a onclick="logout()">] *)
| NavDoctorHome           (** [onclick="selectRole('doctor')"] *)
| NavPatientLogin         (** [#patientLogin], listener added by attachHeaderButtonListeners *)
| NavPatientSignup        (** [#patientSignup], likewise *)
| NavLoggedHome           (** [#home], goes to loggedPatientDashboard.html *)
| NavPatientAppointments  (** [#patientAppointments], goes to patientAppointments.html *)
| NavLogoutPatient.       (** [<a onclick="logoutPatient()">] *)

#[export] Instance nav_item_eq_dec : EqDecision nav_item.
Proof. solve_decision. Defined.

(** A click listener added with [addEventListener]: open a modal
    through the global [openModal] after checking [typeof openModal]
    (header.js), or through an imported [openModal] (adminDashboard.js). *)
Inductive listener : Type :=
| ModalIfDefined (name : string)
| ModalImported (name : string).

(** The content of [#header]: still empty, the logo-only header of the
    root page, or the logo with a navigation bar. *)
Inductive header_view : Type :=
| HeaderBlank
| HeaderLogoOnly
| HeaderNav (items : list nav_item).

(** Action buttons of a doctor card. *)
Inductive card_action : Type :=
| DeleteDoctorBtn         (** admin: "Delete Doctor" *)
| BookNowBtn              (** patient: "Book Now" *)
| BookAppointmentBtn.     (** loggedPatient: "Book Appointment" *)

#[export] Instance card_action_eq_dec : EqDecision card_action.
Proof. solve_decision. Defined.

(** A doctor card: the doctor object its click handlers capture, the
    texts it shows and its buttons. *)
Record doctor_card : Type := mkCard {
  card_doctor : jsval;
  card_dataset_id : string;
  card_name : string;
  card_specialization : string;
  card_email : string;
  card_times : list string;
  card_actions : list card_action
}.

(** Children of the admin dashboard's [#content]. *)
Inductive content_node : Type :=
| NMessage (cls text : string)
| NCard (c : doctor_card).

(** Rows of the doctor dashboard's [#patientTableBody]. *)
Inductive table_row : Type :=
| RowMessage (cls text : string)
| RowPatient (patient : jsval).

(** The footer footer.js writes into [#footer]: the logo with its
    caption, and three columns of links (every link's target is ["#"]). *)
Record footer_view : Type := mkFooter {
  footer_logo : string;                           (** the logo's [src] *)
  footer_logo_alt : string;
  footer_copyright : string;
  footer_columns : list (string * list string)    (** heading, link labels *)
}.

