(* ===== verification/Client.v ===== *)
(** The browser as the scripts see it, and a state and exception monad
    in which every handler is written: the store behind [localStorage],
    the page's path and document, a trace of the observable effects
    ([fetch] requests, [alert], [confirm], [console.error], navigation,
    modals), JavaScript exceptions, and [try]/[catch]. The server and the
    user's answers to [confirm] are oracles of the environment. *)
From S2P Require Import Prelude JsValue Storage Dom.

Inductive http_method : Type := GET | POST | DELETE.

Record request : Type := mkRequest {
  req_method : http_method;
  req_url : string;
  req_body : option jsval     (** the object given to [JSON.stringify] *)
}.

(** A response body is JSON, or text on which [response.json()] fails
    with the parser's message. *)
Inductive body : Type :=
| BodyJson (v : jsval)
| BodyMalformed (parse_error : string).

Record response : Type := mkResponse { status : Z; resp_body : body }.

(** [fetch] rejects with a TypeError when the network fails. *)
Inductive fetch_outcome : Type :=
| NetworkFailure (msg : string)
| Responded (r : response).

(** [response.ok]: a status in 200..299. *)
Definition ok (r : response) : bool := ((200 <=? status r) && (status r <=? 299))%Z.

Inductive exn_kind : Type := TypeError | SyntaxError | ReferenceError | PlainError.

(** A thrown [Error] object: its class and [error.message]. *)
Record exn : Type := mkExn { exn_kind_of : exn_kind; exn_message : string }.

Inductive event : Type :=
| EvFetch (r : request)
| EvAlert (msg : string)
| EvConfirm (msg : string) (answer : bool)
| EvConsoleError (label : string)
| EvNavigate (url : string)
| EvOpenModal (name : string)
| EvCloseModal
| EvBookingOverlay (doctor patient : jsval)
| EvRenderContent.

(** What the page cannot decide: the configured [API_BASE_URL]
    (config.js), the server's answer to each request, the user's answer
    to each [confirm] dialog, and the global functions the page's other
    scripts define ([openModal], [selectRole], ...). *)
Record env : Type := mkEnv {
  api_base : string;
  server : request -> fetch_outcome;
  confirm_answer : string -> bool;
  globals : list string
}.

Inductive completion (A : Type) : Type :=
| Normal (a : A)
| Thrown (e : exn).
Arguments Normal {A} a.
Arguments Thrown {A} e.

Section World.
Context {Store : Type} `{!WebStorage Store}.

Record world : Type := mkWorld {
  w_store : Store;                                (** localStorage *)
  w_path : string;                            (** window.location.pathname *)
  w_header : option header_view;              (** #header, if the page has one *)
  w_listeners : list (nav_item * listener);   (** click listeners of the header's buttons *)
  w_content : list (nat * content_node);      (** #content, nodes with their identity *)
  w_table : list table_row;                   (** #patientTableBody *)
  w_next_node : nat;                          (** next fresh node identity *)
  w_footer : option (option footer_view);     (** #footer, if the page has one, and what it shows *)
  w_trace : list event
}.

Definition with_store (s : Store) (w : world) : world :=
  mkWorld s (w_path w) (w_header w) (w_listeners w) (w_content w) (w_table w) (w_next_node w) (w_footer w) (w_trace w).
Definition with_header (h : option header_view) (ls : list (nav_item * listener)) (w : world) : world :=
  mkWorld (w_store w) (w_path w) h ls (w_content w) (w_table w) (w_next_node w) (w_footer w) (w_trace w).
Definition with_content (c : list (nat * content_node)) (w : world) : world :=
  mkWorld (w_store w) (w_path w) (w_header w) (w_listeners w) c (w_table w) (w_next_node w) (w_footer w) (w_trace w).
Definition with_table (t : list table_row) (w : world) : world :=
  mkWorld (w_store w) (w_path w) (w_header w) (w_listeners w) (w_content w) t (w_next_node w) (w_footer w) (w_trace w).
Definition with_next_node (n : nat) (w : world) : world :=
  mkWorld (w_store w) (w_path w) (w_header w) (w_listeners w) (w_content w) (w_table w) n (w_footer w) (w_trace w).
Definition with_footer (f : option (option footer_view)) (w : world) : world :=
  mkWorld (w_store w) (w_path w) (w_header w) (w_listeners w) (w_content w) (w_table w) (w_next_node w) f (w_trace w).
Definition with_event (ev : event) (w : world) : world :=
  mkWorld (w_store w) (w_path w) (w_header w) (w_listeners w) (w_content w) (w_table w) (w_next_node w)
    (w_footer w) (w_trace w ++ [ev]).

(** ** The monad *)

Definition M (A : Type) : Type := env -> world -> completion A * world.

Definition ret {A} (a : A) : M A := fun _ w => (Normal a, w).

Definition bind {A B} (m : M A) (k : A -> M B) : M B :=
  fun e w =>
    match m e w with
    | (Normal a, w') => k a e w'
    | (Thrown x, w') => (Thrown x, w')
    end.

Definition throw {A} (x : exn) : M A := fun _ w => (Thrown x, w).

(** [try { m } catch (error) { h(error) }]. *)
Definition try_catch {A} (m : M A) (h : exn -> M A) : M A :=
  fun e w =>
    match m e w with
    | (Thrown x, w') => h x e w'
    | r => r
    end.

Definition get_world : M world := fun _ w => (Normal w, w).
Definition modify (f : world -> world) : M unit := fun _ w => (Normal tt, f w).
Definition ask : M env := fun e w => (Normal e, w).
End World.

Arguments world Store : clear implicits.
Arguments M : clear implicits.

Notation "x <- m ;; k" := (bind m (fun x => k))
  (at level 100, m at next level, right associativity) : client_scope.
Notation "m ;; k" := (bind m (fun _ => k))
  (at level 100, right associativity) : client_scope.

Open Scope client_scope.

Section Primitives.
Context {Store : Type} `{!WebStorage Store}.

Definition emit (ev : event) : M Store unit := modify (with_event ev).
Definition alert (msg : string) : M Store unit := emit (EvAlert msg).
Definition console_error (label : string) : M Store unit := emit (EvConsoleError label).
(** [window.location.href = url]. *)
Definition navigate (url : string) : M Store unit := emit (EvNavigate url).

Definition confirm (msg : string) : M Store bool :=
  e <- ask ;;
  let b := confirm_answer e msg in
  emit (EvConfirm msg b) ;; ret b.

Definition get_item (k : string) : M Store (option string) :=
  w <- get_world ;; ret (getItem (w_store w) k).
Definition set_item (k v : string) : M Store unit :=
  modify (fun w => with_store (setItem k v (w_store w)) w).
Definition remove_item (k : string) : M Store unit :=
  modify (fun w => with_store (removeItem k (w_store w)) w).

Definition fetch (r : request) : M Store response :=
  e <- ask ;;
  emit (EvFetch r) ;;
  match server e r with
  | NetworkFailure m => throw (mkExn TypeError m)
  | Responded resp => ret resp
  end.

(** [await response.json()]. *)
Definition json (r : response) : M Store jsval :=
  match resp_body r with
  | BodyJson v => ret v
  | BodyMalformed m => throw (mkExn SyntaxError m)
  end.

(** [v.p], throwing on [null] and [undefined]. *)
Definition prop (v : jsval) (p : string) : M Store jsval :=
  match get_prop v p with
  | Some x => ret x
  | None => throw (mkExn TypeError ("Cannot read properties of " ++ to_string v ++ " (reading '" ++ p ++ "')"))
  end.

Definition api_base_url : M Store string := e <- ask ;; ret (api_base e).

(** A call of a global function from an inline handler: a
    ReferenceError when the page does not define it. *)
Definition call_global {A} (name : string) (m : M Store A) : M Store A :=
  e <- ask ;;
  if bool_decide (name ∈ globals e) then m
  else throw (mkExn ReferenceError (name ++ " is not defined")).

(** [typeof f === 'function' ? m : fallback]. *)
Definition if_global {A} (name : string) (m fallback : M Store A) : M Store A :=
  e <- ask ;; if bool_decide (name ∈ globals e) then m else fallback.

(** An event handler as the browser runs it: an exception it throws is
    reported on the console and does not reach the other handlers. *)
Definition dispatch (m : M Store unit) : M Store unit :=
  try_catch m (fun ex => console_error ("Uncaught " ++ exn_message ex)).

(** [list.forEach(f)]. *)
Fixpoint for_each {A} (f : A -> M Store unit) (l : list A) : M Store unit :=
  match l with
  | [] => ret tt
  | x :: l' => f x ;; for_each f l'
  end.

(** [node.remove()]: detach the node from [#content] if it is there. *)
Definition remove_node (id : nat) : M Store unit :=
  modify (fun w => with_content (List.filter (fun p => negb (Nat.eqb p.1 id)) (w_content w)) w).

(** A fresh node identity, as [document.createElement] makes one. *)
Definition fresh_node : M Store nat :=
  w <- get_world ;; modify (with_next_node (Datatypes.S (w_next_node w))) ;; ret (w_next_node w).
End Primitives.

(** ** Computations that never throw

    The services promise that no exception escapes them. [nothrow m]
    says that [m] completes normally from every state, whatever the
    server and the user answer; it is closed under [bind] and under
    [try_catch] with a handler that does not throw. *)
Section NoThrow.
Context {Store : Type} `{!WebStorage Store}.

Definition nothrow {A} (m : M Store A) : Prop :=
  forall e w, exists a w', m e w = (Normal a, w').

Lemma nothrow_ret {A} (a : A) : nothrow (ret a).
Proof. intros e w. by exists a, w. Qed.

Lemma nothrow_bind {A B} (m : M Store A) (k : A -> M Store B) :
  nothrow m -> (forall a, nothrow (k a)) -> nothrow (bind m k).
Proof.
  intros Hm Hk e w. destruct (Hm e w) as (a & w' & Ha).
  unfold bind. rewrite Ha. apply Hk.
Qed.

Lemma nothrow_try_catch {A} (m : M Store A) (h : exn -> M Store A) :
  (forall x, nothrow (h x)) -> nothrow (try_catch m h).
Proof.
  intros Hh e w. unfold try_catch.
  destruct (m e w) as [[a|x] w'] eqn:E; [by exists a, w' | apply Hh].
Qed.

Lemma nothrow_modify f : nothrow (modify f).
Proof. intros e w. by eexists _, _. Qed.

Lemma nothrow_get_world : nothrow get_world.
Proof. intros e w. by eexists _, _. Qed.

Lemma nothrow_ask : nothrow ask.
Proof. intros e w. by eexists _, _. Qed.

Lemma nothrow_if {A} (b : bool) (m1 m2 : M Store A) :
  nothrow m1 -> nothrow m2 -> nothrow (if b then m1 else m2).
Proof. by destruct b. Qed.

Lemma nothrow_emit ev : nothrow (emit ev).
Proof. apply nothrow_modify. Qed.

Lemma nothrow_alert msg : nothrow (alert msg).
Proof. apply nothrow_modify. Qed.

Lemma nothrow_console_error l : nothrow (console_error l).
Proof. apply nothrow_modify. Qed.

Lemma nothrow_navigate u : nothrow (navigate u).
Proof. apply nothrow_modify. Qed.

Lemma nothrow_get_item k : nothrow (get_item k).
Proof. apply nothrow_bind; [apply nothrow_get_world | intros; apply nothrow_ret]. Qed.

Lemma nothrow_set_item k v : nothrow (set_item k v).
Proof. apply nothrow_modify. Qed.

Lemma nothrow_remove_item k : nothrow (remove_item k).
Proof. apply nothrow_modify. Qed.

Lemma nothrow_api_base_url : nothrow api_base_url.
Proof. apply nothrow_bind; [apply nothrow_ask | intros; apply nothrow_ret]. Qed.

Lemma nothrow_confirm msg : nothrow (confirm msg).
Proof.
  apply nothrow_bind; [apply nothrow_ask|]. intros e.
  apply nothrow_bind; [apply nothrow_emit | intros; apply nothrow_ret].
Qed.

Lemma nothrow_for_each {A} (f : A -> M Store unit) l :
  (forall x, nothrow (f x)) -> nothrow (for_each f l).
Proof.
  intros Hf. induction l as [|x l IH]; simpl; [apply nothrow_ret|].
  by apply nothrow_bind.
Qed.
End NoThrow.

#[export] Hint Resolve nothrow_ret nothrow_modify nothrow_get_world nothrow_ask nothrow_emit
  nothrow_alert nothrow_console_error nothrow_navigate nothrow_get_item nothrow_set_item
  nothrow_remove_item nothrow_api_base_url nothrow_confirm : client.

(** [solve_nothrow] decomposes a computation along its binds, branches and
    handlers and closes the leaves with the [client] hints. *)
Ltac solve_nothrow :=
  repeat first
    [ solve [eauto with client]
    | apply nothrow_try_catch; intros
    | apply nothrow_bind; [|intros]
    | apply nothrow_if
    | apply nothrow_for_each; intros
    | progress cbv beta ].

(** [unfold_client] unfolds the monad and its primitives, leaving the
    oracles ([server], [confirm_answer]) and the store operations. *)
Ltac unfold_client :=
  cbv [try_catch bind ret throw ask get_world modify emit alert console_error navigate
       confirm get_item set_item remove_item fetch json prop api_base_url for_each fresh_node
       call_global if_global dispatch remove_node with_store with_header with_content with_table with_next_node with_footer with_event].

(** ** Observations on a trace *)

Definition requests (tr : list event) : list request :=
  omap (fun ev => match ev with EvFetch r => Some r | _ => None end) tr.

Definition alerts (tr : list event) : list string :=
  omap (fun ev => match ev with EvAlert m => Some m | _ => None end) tr.

Definition navigations (tr : list event) : list string :=
  omap (fun ev => match ev with EvNavigate u => Some u | _ => None end) tr.

Lemma requests_snoc tr ev :
  requests (tr ++ [ev]) = (requests tr ++ match ev with EvFetch r => [r] | _ => [] end)%list.
Proof. unfold requests. rewrite omap_app. by destruct ev. Qed.

Lemma alerts_snoc tr ev :
  alerts (tr ++ [ev]) = (alerts tr ++ match ev with EvAlert m => [m] | _ => [] end)%list.
Proof. unfold alerts. rewrite omap_app. by destruct ev. Qed.

Lemma navigations_snoc tr ev :
  navigations (tr ++ [ev]) = (navigations tr ++ match ev with EvNavigate u => [u] | _ => [] end)%list.
Proof. unfold navigations. rewrite omap_app. by destruct ev. Qed.

#[export] Hint Rewrite requests_snoc alerts_snoc navigations_snoc app_nil_r : client_rw.

(** [trace_simpl] computes the observations of an extended trace. *)
Ltac trace_simpl := repeat (autorewrite with client_rw; simpl); rewrite <-?app_assoc; try done.

(** The world of a freshly loaded page: an empty header, no content. *)
Definition page_world {Store} (s : Store) (path : string) : world Store :=
  mkWorld s path (Some HeaderBlank) [] [] [] 0 (Some None) [].

(** [run_cases] runs a computation through every branch of the oracles
    and of the values it inspects: the server's answer, the response's
    status and body, and the properties read. *)
Ltac run_step :=
  match goal with
  | |- context [server ?e ?r] => destruct (server e r) eqn:?
  | |- context [resp_body ?r] => destruct (resp_body r) eqn:?
  | |- context [ok ?r] => destruct (ok r) eqn:?
  | |- context [get_prop ?v ?p] => destruct (get_prop v p) eqn:?
  | |- context [confirm_answer ?e ?m] => destruct (confirm_answer e m) eqn:?
  end.

Ltac run_cases := unfold_client; repeat (simpl; run_step); simpl.

(** [split_vars] then cases on the values read, where the code branches
    on their shape. *)
Ltac split_vars :=
  repeat (match goal with |- context [match ?x with _ => _ end] => is_var x; destruct x end; simpl).

(** An environment for examples: the server at [base] answers with
    [answer], the user confirms every dialog, and the page defines
    [openModal]. *)
Definition example_env (base : string) (answer : request -> fetch_outcome) : env :=
  mkEnv base answer (fun _ => true) ["openModal"].

(** ** Computations that only append to the trace *)

Definition extend_trace {Store} (w : world Store) (evs : list event) : world Store :=
  mkWorld (w_store w) (w_path w) (w_header w) (w_listeners w) (w_content w) (w_table w)
    (w_next_node w) (w_footer w) (w_trace w ++ evs).

(** [m] touches neither the store nor the document. *)
Definition only_traces {Store} `{!WebStorage Store} {A} (m : M Store A) : Prop :=
  forall e w, exists evs, snd (m e w) = extend_trace w evs.

Lemma extend_trace_nil {Store} (w : world Store) : extend_trace w [] = w.
Proof. destruct w. unfold extend_trace. simpl. by rewrite app_nil_r. Qed.

(** [solve_only_traces] runs every branch and reads off the events. *)
Ltac solve_only_traces :=
  intros ??; run_cases;
  match goal with
  | |- exists evs, ?w' = extend_trace ?w evs =>
      destruct w; unfold extend_trace; simpl;
      eexists; f_equal; rewrite <-?app_assoc; reflexivity
  end.

(** ** The trace only grows

    Effects are never undone: every computation extends the trace, and
    [appends_with P m] says that every event [m] adds satisfies [P];
    [silent m] says that [m] sends no request. *)
Definition is_fetch (ev : event) : bool := match ev with EvFetch _ => true | _ => false end.

Section Appends.
Context {Store : Type} `{!WebStorage Store}.

Definition appends_with (P : event -> Prop) {A} (m : M Store A) : Prop :=
  forall e w, exists evs, Forall P evs /\ w_trace (snd (m e w)) = (w_trace w ++ evs)%list.

Definition appends {A} (m : M Store A) : Prop := appends_with (fun _ => True) m.
Definition silent {A} (m : M Store A) : Prop := appends_with (fun ev => is_fetch ev = false) m.

Context (P : event -> Prop).

Lemma appends_ret {A} (a : A) : appends_with P (ret a).
Proof. intros e w. exists []. by rewrite app_nil_r. Qed.

Lemma appends_throw {A} x : appends_with P (A := A) (throw x).
Proof. intros e w. exists []. by rewrite app_nil_r. Qed.

Lemma appends_get_world : appends_with P get_world.
Proof. intros e w. exists []. by rewrite app_nil_r. Qed.

Lemma appends_ask : appends_with P ask.
Proof. intros e w. exists []. by rewrite app_nil_r. Qed.

Lemma appends_modify f :
  (forall w, exists evs, Forall P evs /\ w_trace (f w) = (w_trace w ++ evs)%list) -> appends_with P (modify f).
Proof. intros Hf e w. apply Hf. Qed.

Lemma appends_bind {A B} (m : M Store A) (k : A -> M Store B) :
  appends_with P m -> (forall a, appends_with P (k a)) -> appends_with P (bind m k).
Proof.
  intros Hm Hk e w. unfold bind. destruct (Hm e w) as (evs1 & F1 & H1).
  destruct (m e w) as [[a|x] w1]; simpl in *; [|by exists evs1].
  destruct (Hk a e w1) as (evs2 & F2 & H2). exists (evs1 ++ evs2)%list.
  split; [by apply Forall_app|]. by rewrite H2, H1, app_assoc.
Qed.

Lemma appends_try_catch {A} (m : M Store A) (h : exn -> M Store A) :
  appends_with P m -> (forall x, appends_with P (h x)) -> appends_with P (try_catch m h).
Proof.
  intros Hm Hh e w. unfold try_catch. destruct (Hm e w) as (evs1 & F1 & H1).
  destruct (m e w) as [[a|x] w1]; simpl in *; [by exists evs1|].
  destruct (Hh x e w1) as (evs2 & F2 & H2). exists (evs1 ++ evs2)%list.
  split; [by apply Forall_app|]. by rewrite H2, H1, app_assoc.
Qed.

Lemma appends_for_each {A} (f : A -> M Store unit) l :
  (forall x, appends_with P (f x)) -> appends_with P (for_each f l).
Proof.
  intros Hf. induction l as [|x l IH]; simpl; [apply appends_ret|].
  by apply appends_bind.
Qed.

Lemma appends_with_event ev (w : world Store) :
  P ev -> exists evs, Forall P evs /\ w_trace (with_event ev w) = (w_trace w ++ evs)%list.
Proof. intros Hp. exists [ev]. by split; [constructor|]. Qed.

Lemma appends_same_trace (f : world Store -> world Store) :
  (forall w, w_trace (f w) = w_trace w) ->
  forall w, exists evs, Forall P evs /\ w_trace (f w) = (w_trace w ++ evs)%list.
Proof. intros Hf w. exists []. by rewrite Hf, app_nil_r. Qed.
End Appends.

#[export] Hint Resolve appends_ret appends_throw appends_get_world appends_ask : client.

(** [solve_appends] decomposes along binds, handlers, loops and branches;
    a [modify] leaf is closed by computing the trace of the new world. *)
Ltac solve_appends :=
  repeat first
    [ solve [eauto with client]
    | apply appends_try_catch; intros
    | apply appends_bind; [|intros]
    | apply appends_for_each; intros
    | apply appends_modify; intros;
      first [ apply appends_with_event; solve [done | reflexivity]
            | apply appends_same_trace; intros; reflexivity ]
    | progress cbv beta
    | match goal with |- appends_with _ (match ?x with _ => _ end) => destruct x end
    | match goal with |- appends_with _ (if ?b then _ else _) => destruct b end
    | progress unfold appends, silent, emit, alert, console_error, navigate, confirm, get_item, set_item,
        remove_item, fetch, json, prop, api_base_url, call_global, if_global, dispatch,
        remove_node, fresh_node ].

Section RunLemmas.
Context {Store : Type} `{!WebStorage Store}.

Lemma silent_requests {A} (m : M Store A) e w :
  silent m -> requests (w_trace (snd (m e w))) = requests (w_trace w).
Proof.
  intros Hs. destruct (Hs e w) as (evs & F & ->). unfold requests. rewrite omap_app.
  enough (omap (fun ev => match ev with EvFetch r => Some r | _ => None end) evs = []) as -> by apply app_nil_r.
  induction F as [|ev evs Hev F IH]; [done|]. destruct ev; simpl in *; done.
Qed.

Lemma try_catch_bind_normal {A B} (m : M Store A) (k : A -> M Store B) h e w a w1 :
  m e w = (Normal a, w1) -> try_catch (bind m k) h e w = try_catch (k a) h e w1.
Proof. intros Hm. unfold try_catch, bind. by rewrite Hm. Qed.

Lemma bind_normal {A B} (m : M Store A) (k : A -> M Store B) e w a w1 :
  m e w = (Normal a, w1) -> bind m k e w = k a e w1.
Proof. intros Hm. unfold bind. by rewrite Hm. Qed.
Lemma get_item_run k e (w : world Store) : get_item k e w = (Normal (getItem (w_store w) k), w).
Proof. reflexivity. Qed.
End RunLemmas.

(** ** Frame: a computation that leaves part of the world alone *)
Section Preserves.
Context {Store : Type} `{!WebStorage Store}.
Context {X : Type} (f : world Store -> X).

Definition preserves {A} (m : M Store A) : Prop := forall e w, f (snd (m e w)) = f w.

Lemma preserves_ret {A} (a : A) : preserves (ret a).
Proof. done. Qed.

Lemma preserves_throw {A} x : preserves (A := A) (throw x).
Proof. done. Qed.

Lemma preserves_get_world : preserves get_world.
Proof. done. Qed.

Lemma preserves_ask : preserves ask.
Proof. done. Qed.

Lemma preserves_modify g : (forall w, f (g w) = f w) -> preserves (modify g).
Proof. intros Hg e w. apply Hg. Qed.

Lemma preserves_bind {A B} (m : M Store A) (k : A -> M Store B) :
  preserves m -> (forall a, preserves (k a)) -> preserves (bind m k).
Proof.
  intros Hm Hk e w. unfold bind. specialize (Hm e w).
  destruct (m e w) as [[a|x] w1]; simpl in *; [by rewrite Hk|done].
Qed.

Lemma preserves_try_catch {A} (m : M Store A) (h : exn -> M Store A) :
  preserves m -> (forall x, preserves (h x)) -> preserves (try_catch m h).
Proof.
  intros Hm Hh e w. unfold try_catch. specialize (Hm e w).
  destruct (m e w) as [[a|x] w1]; simpl in *; [done|by rewrite Hh].
Qed.

Lemma preserves_for_each {A} (g : A -> M Store unit) l :
  (forall x, preserves (g x)) -> preserves (for_each g l).
Proof.
  intros Hg. induction l as [|x l IH]; simpl; [apply preserves_ret|].
  by apply preserves_bind.
Qed.
End Preserves.

#[export] Hint Resolve preserves_ret preserves_throw preserves_get_world preserves_ask : client.

(** [solve_preserves] is [solve_appends] for a frame. *)
Ltac solve_preserves :=
  repeat first
    [ solve [eauto with client]
    | apply preserves_try_catch; intros
    | apply preserves_bind; [|intros]
    | apply preserves_for_each; intros
    | apply preserves_modify; intros; reflexivity
    | progress intros
    | progress cbv beta
    | match goal with |- preserves _ (match ?x with _ => _ end) => destruct x end
    | match goal with |- preserves _ (if ?b then _ else _) => destruct b end
    | progress unfold emit, alert, console_error, navigate, confirm, get_item, set_item,
        remove_item, fetch, json, prop, api_base_url, call_global, if_global, dispatch,
        remove_node, fresh_node ].

(** ** Invariants of the world

    [keeps_inv P m]: from a world satisfying [P], [m] ends in one that
    satisfies [P], whether it completes or throws. It is closed under
    the monad's combinators; [solve_keeps_inv] reduces a handler to the
    world updates it makes, which [P] must survive. *)

Section Keeps.
Context {Store : Type} `{!WebStorage Store}.
Context (P : world Store -> Prop).

Definition keeps_inv {A} (m : M Store A) : Prop := forall e w, P w -> P (snd (m e w)).

Lemma keeps_ret {A} (a : A) : keeps_inv (ret a).
Proof. by intros ???. Qed.

Lemma keeps_throw {A} x : keeps_inv (A := A) (throw x).
Proof. by intros ???. Qed.

Lemma keeps_get_world : keeps_inv get_world.
Proof. by intros ???. Qed.

Lemma keeps_ask : keeps_inv ask.
Proof. by intros ???. Qed.

Lemma keeps_modify g : (forall w, P w -> P (g w)) -> keeps_inv (modify g).
Proof. intros Hg e w. apply Hg. Qed.

Lemma keeps_bind {A B} (m : M Store A) (k : A -> M Store B) :
  keeps_inv m -> (forall a, keeps_inv (k a)) -> keeps_inv (bind m k).
Proof.
  intros Hm Hk e w Hw. unfold bind. specialize (Hm e w Hw).
  destruct (m e w) as [[a|x] w1]; simpl in *; [by apply Hk|done].
Qed.

Lemma keeps_try_catch {A} (m : M Store A) (h : exn -> M Store A) :
  keeps_inv m -> (forall x, keeps_inv (h x)) -> keeps_inv (try_catch m h).
Proof.
  intros Hm Hh e w Hw. unfold try_catch. specialize (Hm e w Hw).
  destruct (m e w) as [[a|x] w1]; simpl in *; [done|by apply Hh].
Qed.

Lemma keeps_for_each {A} (g : A -> M Store unit) l :
  (forall x, keeps_inv (g x)) -> keeps_inv (for_each g l).
Proof.
  intros Hg. induction l as [|x l IH]; simpl; [apply keeps_ret|].
  by apply keeps_bind.
Qed.

(** A computation that only adds events keeps every [P] blind to the trace. *)
Lemma keeps_only_traces {A} (m : M Store A) :
  only_traces m -> (forall w evs, P w -> P (extend_trace w evs)) -> keeps_inv m.
Proof. intros Hm HP e w Hw. destruct (Hm e w) as [evs ->]. by apply HP. Qed.
End Keeps.

#[export] Hint Resolve keeps_ret keeps_throw keeps_get_world keeps_ask : client.

Ltac solve_keeps_inv :=
  repeat first
    [ solve [eauto with client]
    | progress cbv beta
    | match goal with |- keeps_inv _ (try_catch _ _) => apply keeps_try_catch; intros end
    | match goal with |- keeps_inv _ (bind _ _) => apply keeps_bind; [|intros] end
    | match goal with |- keeps_inv _ (for_each _ _) => apply keeps_for_each; intros end
    | match goal with |- keeps_inv _ (modify _) => apply keeps_modify; intros ?? ?HP; exact HP end
    | progress intros
    | match goal with |- keeps_inv _ (match ?x with _ => _ end) => destruct x end
    | match goal with |- keeps_inv _ (if ?b then _ else _) => destruct b end
    | progress unfold emit, alert, console_error, navigate, confirm, get_item, set_item,
        remove_item, fetch, json, prop, api_base_url, call_global, if_global, dispatch ].
