(* ===== verification/DoctorServices.v ===== *)
(** The REST wrappers of services/doctorServices.js: [getDoctors],
    [deleteDoctor], [saveDoctor] and [filterDoctors], each a computation
    of the client monad that issues one request and folds every failure
    into a result value. *)
From S2P Require Import Prelude JsValue JsString Storage Client.

(** The [{success, message}] envelope of [deleteDoctor] and [saveDoctor]. *)
Record envelope : Type := mkEnvelope { success : bool; message : jsval }.

(** The [{doctors, success, message}] result of [filterDoctors];
    [JUndefined] stands for an absent [message]. *)
Record filter_result : Type := mkFilterResult {
  fr_doctors : jsval;
  fr_success : bool;
  fr_message : jsval
}.

Section Operations.
Context {Store : Type} `{!WebStorage Store}.

(** [const DOCTOR_API = `${API_BASE_URL}/doctor`]. *)
Definition DOCTOR_API (base : string) : string := base ++ "/doctor".

Definition getDoctors : M Store jsval :=
  try_catch
    (base <- api_base_url ;;
     response <- fetch (mkRequest GET (DOCTOR_API base) None) ;;
     if negb (ok response) then
       console_error ("HTTP error! status: " ++ z_to_string (status response)) ;;
       ret (JArr [])
     else
       data <- json response ;;
       doctors <- prop data "doctors" ;;
       ret (js_or doctors (JArr [])))
    (fun _ =>
       console_error "Error fetching doctors:" ;;
       ret (JArr [])).

Definition delete_url (base : string) (doctorId token : jsval) : string :=
  DOCTOR_API base ++ "/" ++ to_string doctorId ++ "/" ++ to_string token.

Definition deleteDoctor (doctorId token : jsval) : M Store envelope :=
  try_catch
    (base <- api_base_url ;;
     response <- fetch (mkRequest DELETE (delete_url base doctorId token) None) ;;
     data <- json response ;;
     if negb (ok response) then
       m <- prop data "message" ;;
       throw (mkExn PlainError (to_string (js_or m (JStr "Failed to delete doctor on the server."))))
     else
       m <- prop data "message" ;;
       ret (mkEnvelope true
              (js_or m (JStr ("Doctor " ++ to_string doctorId ++ " successfully deleted.")))))
    (fun error =>
       console_error "Error deleting doctor:" ;;
       ret (mkEnvelope false
              (js_or (JStr (exn_message error))
                 (JStr "Network error or failed to connect to the server.")))).

Definition save_url (base : string) (token : jsval) : string :=
  DOCTOR_API base ++ "/save/" ++ to_string token.

Definition saveDoctor (doctorData token : jsval) : M Store envelope :=
  try_catch
    (base <- api_base_url ;;
     response <- fetch (mkRequest POST (save_url base token) (Some doctorData)) ;;
     data <- json response ;;
     if negb (ok response) then
       m <- prop data "message" ;;
       throw (mkExn PlainError (to_string (js_or m (JStr "Failed to save doctor."))))
     else
       m <- prop data "message" ;;
       ret (mkEnvelope true (js_or m (JStr "Doctor successfully created."))))
    (fun error =>
       console_error "Error saving doctor:" ;;
       ret (mkEnvelope false
              (js_or (JStr (exn_message error)) (JStr "Network error or failed to save doctor.")))).

(** [encodeURIComponent(v || 'all')]: a blank filter becomes the
    sentinel "all". *)
Definition filter_param (v : jsval) : string :=
  encodeURIComponent (to_string (js_or v (JStr "all"))).

Definition filter_url (base : string) (name time specialty : jsval) : string :=
  DOCTOR_API base ++ "/filter/" ++ filter_param name ++ "/" ++ filter_param time
    ++ "/" ++ filter_param specialty.

Definition filterDoctors (name time specialty : jsval) : M Store filter_result :=
  try_catch
    (base <- api_base_url ;;
     response <- fetch (mkRequest GET (filter_url base name time specialty) None) ;;
     if ok response then
       data <- json response ;;
       doctors <- prop data "doctors" ;;
       ret (mkFilterResult (js_or doctors (JArr [])) true JUndefined)
     else
       errorData <- json response ;;
       m <- prop errorData "message" ;;
       console_error ("Error filtering doctors. Status: " ++ z_to_string (status response)) ;;
       ret (mkFilterResult (JArr []) false m))
    (fun _ =>
       console_error "Network error during doctor filtering:" ;;
       alert "A network error occurred while trying to filter doctors." ;;
       ret (mkFilterResult (JArr []) false (JStr "Failed to connect to the server."))).
End Operations.

(** ** Properties *)

(** How the server reads the path after [DOCTOR_API] of a filter
    request: the route [/filter/{name}/{time}/{specialty}] with its path
    variables percent-decoded. *)
Definition filter_route (path : string) : option (string * string * string) :=
  match split_on "/" path with
  | [""; "filter"; a; b; c] =>
      match decodeURIComponent a, decodeURIComponent b, decodeURIComponent c with
      | Some a', Some b', Some c' => Some (a', b', c')
      | _, _, _ => None
      end
  | _ => None
  end.

(** The route [/{doctorId}/{token}] of a delete request. *)
Definition delete_route (path : string) : option (string * string) :=
  match split_on "/" path with
  | [""; a; b] =>
      match decodeURIComponent a, decodeURIComponent b with
      | Some a', Some b' => Some (a', b')
      | _, _ => None
      end
  | _ => None
  end.

Lemma split_filter_path a b c :
  str_contains "/" a = false -> str_contains "/" b = false -> str_contains "/" c = false ->
  split_on "/" ("/filter/" ++ a ++ "/" ++ b ++ "/" ++ c) = [""; "filter"; a; b; c].
Proof.
  intros Ha Hb Hc.
  change ("/filter/" ++ a ++ "/" ++ b ++ "/" ++ c)
    with (String "/" ("filter" ++ String "/" (a ++ String "/" (b ++ String "/" c)))).
  by rewrite split_on_sep_cons, !split_on_app_sep, split_on_no_sep.
Qed.

Section Properties.
Context {Store : Type} `{!WebStorage Store}.

Definition doctors_request (base : string) : request := mkRequest GET (DOCTOR_API base) None.

(** [getDoctors] completes normally with one [GET /doctor] and the
    store unchanged. *)
Lemma getDoctors_run (e : env) (w : world Store) :
  exists doctors w', getDoctors e w = (Normal doctors, w')
    /\ requests (w_trace w') = (requests (w_trace w) ++ [doctors_request (api_base e)])%list
    /\ w_store w' = w_store w.
Proof.
  unfold getDoctors. run_cases; (eexists _, _; split; [done | split; trace_simpl]).
Qed.

(** C7: [getDoctors] never lets an exception escape, resolves to a
    truthy value (the [doctors] field or [[]], never [undefined], so the
    caller's [doctors.length] cannot throw), issues exactly one
    [GET /doctor] and leaves the store as it was. *)
Theorem getDoctors_contract (e : env) (w : world Store) :
  exists doctors w', getDoctors e w = (Normal doctors, w') /\ truthy doctors = true
    /\ requests (w_trace w') = (requests (w_trace w) ++ [doctors_request (api_base e)])%list
    /\ w_store w' = w_store w.
Proof.
  unfold getDoctors. run_cases;
    (eexists _, _; split; [done | split; [try apply js_or_truthy_default; done | split; trace_simpl]]).
Qed.

(** C8: with the network unreachable, [getDoctors] resolves to the
    empty list after logging the error. *)
Theorem getDoctors_unreachable (e : env) (w : world Store) m :
  server e (doctors_request (api_base e)) = NetworkFailure m ->
  getDoctors e w
  = (Normal (JArr []),
     with_event (EvConsoleError "Error fetching doctors:")
       (with_event (EvFetch (doctors_request (api_base e))) w)).
Proof. intros H. unfold getDoctors, doctors_request in *. unfold_client. by rewrite H. Qed.

(** on a 2xx answer whose JSON body has a truthy [doctors] field,
    [getDoctors] returns that field. *)
Theorem getDoctors_ok (e : env) (w : world Store) r ps d :
  server e (doctors_request (api_base e)) = Responded r ->
  ok r = true -> resp_body r = BodyJson (JObj ps) ->
  assoc_get "doctors" ps = Some d -> truthy d = true ->
  fst (getDoctors e w) = Normal d.
Proof.
  intros Hs Hok Hb Hd Ht. unfold getDoctors, doctors_request in *. unfold_client.
  rewrite Hs, Hok, Hb. simpl. by rewrite Hd, js_or_truthy.
Qed.

(** [deleteDoctor] completes normally. *)
Lemma deleteDoctor_normal doctorId token :
  nothrow (Store := Store) (deleteDoctor doctorId token).
Proof.
  intros e w. unfold deleteDoctor. run_cases; by eexists _, _.
Qed.

Lemma getDoctors_only_traces : only_traces (Store := Store) getDoctors.
Proof. unfold getDoctors. solve_only_traces. Qed.

Lemma deleteDoctor_only_traces doctorId token : only_traces (Store := Store) (deleteDoctor doctorId token).
Proof. unfold deleteDoctor. solve_only_traces. Qed.

Lemma saveDoctor_only_traces doctorData token : only_traces (Store := Store) (saveDoctor doctorData token).
Proof. unfold saveDoctor. solve_only_traces. Qed.

Lemma filterDoctors_only_traces n t s : only_traces (Store := Store) (filterDoctors n t s).
Proof. unfold filterDoctors. solve_only_traces. Qed.

(** [deleteDoctor] issues exactly one [DELETE] to
    [/doctor/{doctorId}/{token}] and leaves the store as it was. *)
Theorem deleteDoctor_one_request doctorId token (e : env) (w : world Store) :
  let w' := snd (deleteDoctor doctorId token e w) in
  requests (w_trace w')
    = (requests (w_trace w) ++ [mkRequest DELETE (delete_url (api_base e) doctorId token) None])%list
  /\ w_store w' = w_store w.
Proof.
  unfold deleteDoctor. run_cases; split; trace_simpl.
Qed.

(** C6: [deleteDoctor] never throws: every failure (network, non-2xx,
    malformed body) comes back as a [{success: false}] envelope; it
    issues exactly one [DELETE /doctor/{doctorId}/{token}] and leaves the
    store as it was. *)
Theorem deleteDoctor_contract doctorId token (e : env) (w : world Store) :
  exists res w', deleteDoctor doctorId token e w = (Normal res, w')
    /\ requests (w_trace w')
       = (requests (w_trace w) ++ [mkRequest DELETE (delete_url (api_base e) doctorId token) None])%list
    /\ w_store w' = w_store w.
Proof.
  destruct (deleteDoctor_normal doctorId token e w) as (res & w' & Hd).
  pose proof (deleteDoctor_one_request doctorId token e w) as Hr. rewrite Hd in Hr.
  by exists res, w'.
Qed.

Lemma saveDoctor_one_request doctorData token (e : env) (w : world Store) :
  requests (w_trace (snd (saveDoctor doctorData token e w)))
  = (requests (w_trace w) ++ [mkRequest POST (save_url (api_base e) token) (Some doctorData)])%list.
Proof. unfold saveDoctor. run_cases; trace_simpl. Qed.

Lemma saveDoctor_accepted doctorData token (e : env) (w : world Store) r ps m :
  let req := mkRequest POST (save_url (api_base e) token) (Some doctorData) in
  server e req = Responded r -> ok r = true -> resp_body r = BodyJson (JObj ps) ->
  assoc_get "message" ps = Some (JStr m) -> m <> "" ->
  saveDoctor doctorData token e w = (Normal (mkEnvelope true (JStr m)), with_event (EvFetch req) w).
Proof.
  intros req Hs Hok Hb Hm Hne. unfold saveDoctor. unfold_client. fold req.
  rewrite Hs, Hb, Hok. simpl. rewrite Hm. simpl. by rewrite js_or_str_nonempty.
Qed.

Lemma filterDoctors_ok name time specialty (e : env) (w : world Store) r ps d :
  let req := mkRequest GET (filter_url (api_base e) name time specialty) None in
  server e req = Responded r -> ok r = true -> resp_body r = BodyJson (JObj ps) ->
  assoc_get "doctors" ps = Some d -> truthy d = true ->
  filterDoctors name time specialty e w = (Normal (mkFilterResult d true JUndefined), with_event (EvFetch req) w).
Proof.
  intros req Hs Hok Hb Hd Ht. unfold filterDoctors. unfold_client. fold req.
  rewrite Hs, Hok, Hb. simpl. by rewrite Hd, js_or_truthy.
Qed.

(** C9: a non-2xx answer carrying [{message: m}] gives
    [{success: false, message: m}] (the scenario of a 400 "email exists"
    on [saveDoctor]). *)
Theorem saveDoctor_server_error doctorData token (e : env) (w : world Store) r ps m :
  server e (mkRequest POST (save_url (api_base e) token) (Some doctorData)) = Responded r ->
  ok r = false -> resp_body r = BodyJson (JObj ps) ->
  assoc_get "message" ps = Some (JStr m) -> m <> "" ->
  fst (saveDoctor doctorData token e w) = Normal (mkEnvelope false (JStr m)).
Proof.
  intros Hs Hok Hb Hm Hne. unfold saveDoctor. unfold_client.
  rewrite Hs, Hb, Hok. simpl. rewrite Hm. simpl.
  rewrite (js_or_str_nonempty m) by done. simpl. by rewrite js_or_str_nonempty.
Qed.

(** C10: blank filters are the sentinel: any falsy name, time and
    specialty give the same computation as ["all"], ["all"], ["all"]. *)
Theorem filterDoctors_blank_is_all name time specialty :
  truthy name = false -> truthy time = false -> truthy specialty = false ->
  filterDoctors (Store := Store) name time specialty
  = filterDoctors (JStr "all") (JStr "all") (JStr "all").
Proof.
  intros Hn Ht Hs. unfold filterDoctors, filter_url, filter_param.
  by rewrite (js_or_falsy name), (js_or_falsy time), (js_or_falsy specialty).
Qed.
(** C11: the three filter terms reach the server intact: the request
    path after [DOCTOR_API] is [/filter/{name}/{time}/{specialty}] with
    exactly three path variables, which decode to the terms the code
    meant (blank terms replaced by "all"), whatever characters they hold. *)
Theorem filter_url_route base name time specialty :
  exists path, filter_url base name time specialty = DOCTOR_API base ++ path
    /\ filter_route path
       = Some (to_string (js_or name (JStr "all")), to_string (js_or time (JStr "all")),
               to_string (js_or specialty (JStr "all"))).
Proof.
  eexists. split; [reflexivity|]. unfold filter_route, filter_param.
  rewrite split_filter_path by apply encodeURIComponent_no_slash.
  by rewrite !decode_encodeURIComponent.
Qed.

(** C17: [filterDoctors] shows the "network error" alert and reports
    "Failed to connect to the server." when the server does answer, with
    an error status and a body that is not JSON (an HTML error page). *)
Theorem filterDoctors_malformed_error_alerts name time specialty (e : env) (w : world Store) r err :
  let req := mkRequest GET (filter_url (api_base e) name time specialty) None in
  server e req = Responded r -> ok r = false -> resp_body r = BodyMalformed err ->
  filterDoctors name time specialty e w
  = (Normal (mkFilterResult (JArr []) false (JStr "Failed to connect to the server.")),
     with_event (EvAlert "A network error occurred while trying to filter doctors.")
       (with_event (EvConsoleError "Network error during doctor filtering:")
          (with_event (EvFetch req) w))).
Proof.
  intros req Hs Hok Hb. unfold filterDoctors. unfold_client.
  fold req. rewrite Hs, Hok. simpl. by rewrite Hb.
Qed.

(** the delete path [/{doctorId}/{token}] is read back correctly when
    neither value holds ['/'] or ['%']. *)
Theorem delete_route_plain doctorId token :
  str_contains "/" doctorId = false -> str_contains "%" doctorId = false ->
  str_contains "/" token = false -> str_contains "%" token = false ->
  delete_route ("/" ++ doctorId ++ "/" ++ token) = Some (doctorId, token).
Proof.
  intros H1 H2 H3 H4. unfold delete_route.
  change ("/" ++ doctorId ++ "/" ++ token) with (String "/" (doctorId ++ String "/" token)).
  rewrite split_on_sep_cons, split_on_app_sep, split_on_no_sep by done.
  by rewrite !decode_no_percent.
Qed.
End Properties.

(** C18: the delete path's values are not encoded: when the token holds
    a ['/'] (and the doctor id does not), the path after [DOCTOR_API]
    has more than two segments and matches no route. *)
Theorem delete_url_unencoded_token base doctorId token :
  str_contains "/" (to_string doctorId) = false -> str_contains "/" (to_string token) = true ->
  exists path, delete_url base doctorId token = (DOCTOR_API base ++ path)%string /\ delete_route path = None.
Proof.
  intros Hd Ht. exists ("/" ++ to_string doctorId ++ "/" ++ to_string token). split; [done|].
  unfold delete_route.
  change ("/" ++ to_string doctorId ++ "/" ++ to_string token)
    with (String "/" (to_string doctorId ++ String "/" (to_string token))).
  rewrite split_on_sep_cons, split_on_app_sep by done.
  pose proof (split_on_length "/" (to_string token)) as Hl. pose proof (str_contains_count _ _ Ht).
  destruct (split_on "/" (to_string token)) as [|a [|b l]]; simpl in Hl; [lia|lia|done].
Qed.

(** ** Witnesses *)

Definition example_base : string := "http://localhost:8080".

Lemma delete_url_unencoded_token_witness :
  exists path, delete_url example_base (JNum 7) (JStr "a/b") = (DOCTOR_API example_base ++ path)%string
    /\ delete_route path = None.
Proof. apply delete_url_unencoded_token; reflexivity. Defined.

Lemma getDoctors_unreachable_witness :
  let e := example_env example_base (fun _ => NetworkFailure "Failed to fetch") in
  let w := page_world (∅ : gmap string string) "/pages/adminDashboard.html" in
  getDoctors e w
  = (Normal (JArr []),
     with_event (EvConsoleError "Error fetching doctors:")
       (with_event (EvFetch (doctors_request (api_base e))) w)).
Proof. intros e w. apply (getDoctors_unreachable e w "Failed to fetch"). reflexivity. Defined.

Definition doctors_answer : response :=
  mkResponse 200 (BodyJson (JObj [("doctors", JArr [JObj [("name", JStr "A")]])])).

Lemma getDoctors_ok_witness :
  fst (getDoctors (example_env example_base (fun _ => Responded doctors_answer))
         (page_world (∅ : gmap string string) "/pages/adminDashboard.html"))
  = Normal (JArr [JObj [("name", JStr "A")]]).
Proof.
  apply (getDoctors_ok _ _ doctors_answer [("doctors", JArr [JObj [("name", JStr "A")]])]);
    reflexivity.
Defined.

Definition email_exists : response := mkResponse 400 (BodyJson (JObj [("message", JStr "email exists")])).

Lemma saveDoctor_server_error_witness :
  fst (saveDoctor (JObj [("name", JStr "A")]) (JStr "tok123")
         (example_env example_base (fun _ => Responded email_exists))
         (page_world (∅ : gmap string string) "/pages/adminDashboard.html"))
  = Normal (mkEnvelope false (JStr "email exists")).
Proof.
  apply (saveDoctor_server_error _ _ _ _ email_exists [("message", JStr "email exists")]);
    [reflexivity | reflexivity | reflexivity | reflexivity | discriminate].
Defined.

Lemma filterDoctors_blank_is_all_witness :
  filterDoctors (Store := gmap string string) (JStr "") JNull JUndefined
  = filterDoctors (JStr "all") (JStr "all") (JStr "all").
Proof. apply filterDoctors_blank_is_all; reflexivity. Defined.

Definition html_502 : response := mkResponse 502 (BodyMalformed "Unexpected token '<'").

Lemma filterDoctors_malformed_error_alerts_witness :
  let e := example_env example_base (fun _ => Responded html_502) in
  let w := page_world (∅ : gmap string string) "/pages/adminDashboard.html" in
  filterDoctors (JStr "Smith") (JStr "AM") (JStr "") e w
  = (Normal (mkFilterResult (JArr []) false (JStr "Failed to connect to the server.")),
     with_event (EvAlert "A network error occurred while trying to filter doctors.")
       (with_event (EvConsoleError "Network error during doctor filtering:")
          (with_event (EvFetch (mkRequest GET (filter_url (api_base e) (JStr "Smith") (JStr "AM") (JStr "")) None)) w))).
Proof.
  intros e w. apply (filterDoctors_malformed_error_alerts _ _ _ _ _ html_502 "Unexpected token '<'");
    reflexivity.
Defined.

Lemma delete_route_plain_witness : delete_route ("/" ++ "12" ++ "/" ++ "eyJhbGciOi.x-y_z") = Some ("12", "eyJhbGciOi.x-y_z").
Proof. apply delete_route_plain; reflexivity. Defined.
