(* ===== verification/Session.v ===== *)
(** The session: the role and token kept in [localStorage] and the code
    that reads and writes them - components/header.js ([renderHeader],
    [attachHeaderButtonListeners], [logout], [logoutPatient], and the
    inline handlers of the navigation bar) and services/index.js (the
    role selection and the admin and doctor login handlers). *)
From S2P Require Import Prelude JsValue JsString Storage Dom Client.

(** Which role buttons the role-selection page had when its [onload]
    handler ran: [selectRole] closes over them. *)
Record role_buttons : Type := mkRoleButtons {
  admin_btn : bool;
  patient_btn : bool;
  doctor_btn : bool
}.

(** [role === r] for a value read from the store ([null] when absent). *)
Definition role_is (role : option string) (r : string) : bool :=
  match role with Some s => String.eqb s r | None => false end.

(** The roles that require a token (header.js, step 6). *)
Definition privileged (role : option string) : bool :=
  role_is role "loggedPatient" || role_is role "admin" || role_is role "doctor".

(** The navigation items of each role (header.js, step 7). *)
Definition nav_items (role : option string) : list nav_item :=
  if role_is role "admin" then [NavAddDoctor; NavLogout]
  else if role_is role "doctor" then [NavDoctorHome; NavLogout]
  else if role_is role "patient" then [NavPatientLogin; NavPatientSignup]
  else if role_is role "loggedPatient" then [NavLoggedHome; NavPatientAppointments; NavLogoutPatient]
  else [].

Section Operations.
Context {Store : Type} `{!WebStorage Store}.

(** [attachHeaderButtonListeners]: the login and sign-up buttons, when
    the header has them, get a listener opening the matching modal. *)
Definition attachHeaderButtonListeners : M Store unit :=
  w <- get_world ;;
  match w_header w with
  | Some (HeaderNav items) =>
      let login := if bool_decide (NavPatientLogin ∈ items)
                   then [(NavPatientLogin, ModalIfDefined "patientLogin")] else [] in
      let signup := if bool_decide (NavPatientSignup ∈ items)
                    then [(NavPatientSignup, ModalIfDefined "patientSignup")] else [] in
      modify (with_header (w_header w) (w_listeners w ++ login ++ signup))
  | _ => ret tt
  end.

Definition renderHeader : M Store unit :=
  w <- get_world ;;
  match w_header w with
  | None => ret tt
  | Some _ =>
      if ends_with "/" (w_path w) then
        remove_item "userRole" ;;
        modify (with_header (Some HeaderLogoOnly) [])
      else
        role <- get_item "userRole" ;;
        token <- get_item "token" ;;
        if privileged role && item_falsy token then
          remove_item "userRole" ;;
          alert "Session expired or invalid login. Please log in again." ;;
          navigate "/"
        else
          modify (with_header (Some (HeaderNav (nav_items role))) []) ;;
          attachHeaderButtonListeners
  end.

Definition logout : M Store unit :=
  remove_item "userRole" ;;
  remove_item "token" ;;
  alert "Logged out successfully." ;;
  navigate "/".

Definition logoutPatient : M Store unit :=
  remove_item "token" ;;
  set_item "userRole" "patient" ;;
  alert "Logged out successfully." ;;
  navigate "/pages/patientDashboard.html".

(** [window.selectRole], defined by the role page's [onload]: it stores
    the role, then branches on which buttons exist, not on the role. *)
Definition selectRole (btns : role_buttons) (role : string) : M Store unit :=
  set_item "userRole" role ;;
  if admin_btn btns then ret tt
  else if doctor_btn btns then ret tt
  else if patient_btn btns then navigate "/pages/patientDashboard.html"
  else ret tt.

(** [const ADMIN_API = `${API_BASE_URL}/admin`] and
    [const DOCTOR_API = `${API_BASE_URL}/doctor/login`] of index.js, as
    the paths the handlers append to the base. *)
Definition ADMIN_API : string := "/admin".
Definition DOCTOR_LOGIN_API : string := "/doctor/login".

(** The two login handlers of index.js have one shape: POST the
    credentials, store the token and the role and go to the dashboard
    on success, alert the server's message otherwise. *)
Definition credential_login (endpoint : string) (k1 v1 k2 v2 : string)
    (role dashboard default_msg log_label failure_msg : string) : M Store unit :=
  try_catch
    (base <- api_base_url ;;
     response <- fetch (mkRequest POST (base ++ endpoint) (Some (JObj [(k1, JStr v1); (k2, JStr v2)]))) ;;
     if ok response then
       data <- json response ;;
       token <- prop data "token" ;;
       set_item "token" (to_string token) ;;
       set_item "userRole" role ;;
       navigate dashboard
     else
       errorData <- json response ;;
       m <- prop errorData "message" ;;
       alert ("Login failed: " ++ to_string (js_or m (JStr default_msg))))
    (fun _ =>
       console_error log_label ;;
       alert failure_msg).

Definition adminLoginHandler (username password : string) : M Store unit :=
  credential_login ADMIN_API "username" username "password" password
    "admin" "/pages/adminDashboard.html" "Invalid username or password."
    "Admin login error:" "An error occurred during login. Please try again later.".

Definition doctorLoginHandler (email password : string) : M Store unit :=
  credential_login DOCTOR_LOGIN_API "email" email "password" password
    "doctor" "/pages/doctorDashboard.html" "Invalid email or password."
    "Doctor login error:" "An error occurred during login. Please check your network connection.".

(** The listeners attached to a button, each run as its own handler. *)
Definition run_listeners (item : nav_item) : M Store unit :=
  w <- get_world ;;
  for_each (fun l : nav_item * listener =>
              if bool_decide (l.1 = item) then
                dispatch
                  match l.2 with
                  | ModalIfDefined name =>
                      if_global "openModal" (emit (EvOpenModal name))
                        (console_error "openModal function not found.")
                  | ModalImported name => emit (EvOpenModal name)
                  end
              else ret tt)
    (w_listeners w).

(** The inline [onclick] attribute of each item of the navigation bar. *)
Definition inline_onclick (btns : role_buttons) (item : nav_item) : M Store unit :=
  match item with
  | NavAddDoctor => call_global "openModal" (emit (EvOpenModal "addDoctor"))
  | NavLogout => logout
  | NavDoctorHome => call_global "selectRole" (selectRole btns "doctor")
  | NavPatientLogin | NavPatientSignup => ret tt
  | NavLoggedHome => navigate "/pages/loggedPatientDashboard.html"
  | NavPatientAppointments => navigate "/pages/patientAppointments.html"
  | NavLogoutPatient => logoutPatient
  end.

(** A click on an item: its inline handler, then its listeners. *)
Definition click_nav (btns : role_buttons) (item : nav_item) : M Store unit :=
  dispatch (inline_onclick btns item) ;;
  run_listeners item.
End Operations.

(** ** Properties *)

(** The session invariant the header enforces: a role that requires a
    token has one. *)
Definition session_ok {Store} `{!WebStorage Store} (s : Store) : bool :=
  negb (privileged (getItem s "userRole")) || negb (item_falsy (getItem s "token")).

(** Items that only a signed-in role may see. *)
Definition role_control (i : nav_item) : bool :=
  match i with
  | NavPatientLogin | NavPatientSignup => false
  | _ => true
  end.

Lemma nav_items_role_control role :
  existsb role_control (nav_items role) = true -> privileged role = true.
Proof.
  unfold nav_items, privileged.
  destruct (role_is role "admin"), (role_is role "doctor"), (role_is role "patient"),
    (role_is role "loggedPatient"); simpl; by rewrite ?orb_true_r.
Qed.

Section Properties.
Context {Store : Type} `{WebStorageLaws Store}.

(** C3: on a page other than the root, a role that needs a token but
    has none is treated as an expired session: the role is removed, the
    user is alerted and sent to "/", and no navigation item is rendered. *)
Theorem renderHeader_expired (e : env) (w : world Store) h :
  w_header w = Some h -> ends_with "/" (w_path w) = false ->
  privileged (getItem (w_store w) "userRole") = true ->
  item_falsy (getItem (w_store w) "token") = true ->
  renderHeader e w
  = (Normal tt,
     with_event (EvNavigate "/")
       (with_event (EvAlert "Session expired or invalid login. Please log in again.")
          (with_store (removeItem "userRole" (w_store w)) w))).
Proof.
  intros Hh Hp Hr Ht. unfold renderHeader. unfold_client.
  rewrite Hh, Hp, Hr, Ht. simpl. by rewrite Hh.
Qed.

(** C4: rendering the header re-establishes the session invariant,
    whatever the store held before (a cleared token included). *)
Theorem renderHeader_session_ok (e : env) (w : world Store) h :
  w_header w = Some h -> session_ok (w_store (snd (renderHeader e w))) = true.
Proof.
  intros Hh. unfold renderHeader, session_ok. unfold_client. rewrite Hh.
  destruct (ends_with "/" (w_path w)).
  { simpl. by rewrite getItem_removeItem_eq. }
  destruct (privileged (getItem (w_store w) "userRole")) eqn:Hr,
    (item_falsy (getItem (w_store w) "token")) eqn:Ht; simpl.
  { by rewrite getItem_removeItem_eq. }
  all: repeat case_match; simpl; by rewrite ?Hr, ?Ht.
Qed.

(** C5: on a freshly loaded page, every role-specific control the
    header shows is backed by a token in the store. *)
Theorem renderHeader_controls_need_token (e : env) (w : world Store) items :
  w_header w = Some HeaderBlank ->
  w_header (snd (renderHeader e w)) = Some (HeaderNav items) ->
  existsb role_control items = true ->
  item_falsy (getItem (w_store (snd (renderHeader e w))) "token") = false.
Proof.
  intros Hh. unfold renderHeader. unfold_client. rewrite Hh.
  destruct (ends_with "/" (w_path w)); simpl; [done|].
  destruct (privileged (getItem (w_store w) "userRole") && item_falsy (getItem (w_store w) "token"))
    eqn:Hpt; simpl; [by rewrite Hh|].
  intros Hv Hc. assert (Hi : items = nav_items (getItem (w_store w) "userRole")).
  { revert Hv. by repeat case_match; simpl; intros [= ->]. }
  subst items. apply nav_items_role_control in Hc. rewrite Hc in Hpt.
  revert Hpt. by repeat case_match; simpl.
Qed.

(** The shared shape of the two login handlers, on each answer. *)
Lemma credential_login_accepted endpoint k1 v1 k2 v2 role dashboard dm ll fm (e : env) (w : world Store) r data t :
  let req := mkRequest POST (api_base e ++ endpoint) (Some (JObj [(k1, JStr v1); (k2, JStr v2)])) in
  server e req = Responded r -> ok r = true -> resp_body r = BodyJson data ->
  get_prop data "token" = Some t ->
  credential_login endpoint k1 v1 k2 v2 role dashboard dm ll fm e w
  = (Normal tt,
     with_event (EvNavigate dashboard)
       (with_store (setItem "userRole" role (setItem "token" (to_string t) (w_store w)))
          (with_event (EvFetch req) w))).
Proof.
  intros req Hs Hok Hb Ht. unfold credential_login. unfold_client. fold req.
  rewrite Hs. simpl. rewrite Hok, Hb. simpl. by rewrite Ht.
Qed.

Lemma credential_login_rejected endpoint k1 v1 k2 v2 role dashboard dm ll fm (e : env) (w : world Store) r data m :
  let req := mkRequest POST (api_base e ++ endpoint) (Some (JObj [(k1, JStr v1); (k2, JStr v2)])) in
  server e req = Responded r -> ok r = false -> resp_body r = BodyJson data ->
  get_prop data "message" = Some m ->
  credential_login endpoint k1 v1 k2 v2 role dashboard dm ll fm e w
  = (Normal tt,
     with_event (EvAlert ("Login failed: " ++ to_string (js_or m (JStr dm))))
       (with_event (EvFetch req) w)).
Proof.
  intros req Hs Hok Hb Hm. unfold credential_login. unfold_client. fold req.
  rewrite Hs. simpl. rewrite Hok, Hb. simpl. by rewrite Hm.
Qed.

Definition admin_login_request (base username password : string) : request :=
  mkRequest POST (base ++ "/admin") (Some (JObj [("username", JStr username); ("password", JStr password)])).

(** C12: an accepted admin login stores the token the server sent and
    the role "admin", and navigates exactly once, to the admin dashboard. *)
Theorem adminLoginHandler_success username password (e : env) (w : world Store) r ps t :
  server e (admin_login_request (api_base e) username password) = Responded r ->
  ok r = true -> resp_body r = BodyJson (JObj ps) -> assoc_get "token" ps = Some (JStr t) ->
  let w' := snd (adminLoginHandler username password e w) in
  getItem (w_store w') "token" = Some t /\ getItem (w_store w') "userRole" = Some "admin"
  /\ navigations (w_trace w') = (navigations (w_trace w) ++ ["/pages/adminDashboard.html"])%list.
Proof.
  intros Hs Hok Hb Ht. unfold adminLoginHandler.
  rewrite (credential_login_accepted _ _ _ _ _ _ _ _ _ _ _ _ r (JObj ps) (JStr t)) by (simpl; rewrite ?Ht; done).
  simpl. split; [|split]; [by store_rw .. | trace_simpl].
Qed.

(** a rejected admin login leaves the store as it was, does not
    navigate, and alerts the server's message. *)
Theorem adminLoginHandler_rejected username password (e : env) (w : world Store) r ps m :
  server e (admin_login_request (api_base e) username password) = Responded r ->
  ok r = false -> resp_body r = BodyJson (JObj ps) -> assoc_get "message" ps = Some (JStr m) -> m <> "" ->
  let w' := snd (adminLoginHandler username password e w) in
  w_store w' = w_store w /\ navigations (w_trace w') = navigations (w_trace w)
  /\ alerts (w_trace w') = (alerts (w_trace w) ++ [("Login failed: " ++ m)%string])%list.
Proof.
  intros Hs Hok Hb Hm Hne. unfold adminLoginHandler.
  rewrite (credential_login_rejected _ _ _ _ _ _ _ _ _ _ _ _ r (JObj ps) (JStr m)) by (simpl; rewrite ?Hm; done).
  simpl. rewrite js_or_str_nonempty by done. split; [done | split; trace_simpl].
Qed.

(** C13: an accepted login whose answer has no [token] field stores the
    string "undefined" as the token ([String(undefined)]), and the
    dashboard's header then shows the admin controls as for a valid
    session: the expiry check does not catch it. *)
Theorem adminLoginHandler_missing_token username password (e : env) (w : world Store) r ps :
  server e (admin_login_request (api_base e) username password) = Responded r ->
  ok r = true -> resp_body r = BodyJson (JObj ps) -> assoc_get "token" ps = None ->
  let s' := w_store (snd (adminLoginHandler username password e w)) in
  getItem s' "token" = Some "undefined"
  /\ w_header (snd (renderHeader e (page_world s' "/pages/adminDashboard.html")))
     = Some (HeaderNav [NavAddDoctor; NavLogout]).
Proof.
  intros Hs Hok Hb Ht. unfold adminLoginHandler.
  rewrite (credential_login_accepted _ _ _ _ _ _ _ _ _ _ _ _ r (JObj ps) JUndefined) by (simpl; rewrite ?Ht; done).
  simpl. split; [by store_rw|].
  unfold renderHeader, page_world. unfold_client. simpl. by store_rw.
Qed.

(** C15: [selectRole] decides on the buttons present, not on the role:
    on a page with the admin button it only stores the role, so
    choosing "patient" never reaches the patient dashboard. *)
Theorem selectRole_ignores_role btns role (e : env) (w : world Store) :
  admin_btn btns = true ->
  selectRole btns role e w = (Normal tt, with_store (setItem "userRole" role (w_store w)) w).
Proof. intros Ha. unfold selectRole. unfold_client. by rewrite Ha. Qed.

(** C16: the root page's header drops the role but keeps the token, so
    a token outlives its session: after visiting "/" and choosing the
    unauthenticated "patient" role, the old token is still stored. *)
Theorem root_header_keeps_token (e : env) (s : Store) t btns :
  getItem s "token" = Some t ->
  let w1 := snd (renderHeader e (page_world s "/")) in
  let w2 := snd (selectRole btns "patient" e w1) in
  getItem (w_store w1) "userRole" = None
  /\ getItem (w_store w2) "userRole" = Some "patient" /\ getItem (w_store w2) "token" = Some t.
Proof.
  intros Ht. unfold renderHeader, selectRole, page_world. unfold_client. simpl.
  split; [by store_rw|]. repeat case_match; simpl; split; store_rw; done.
Qed.

(** C14: [logout] removes the role and the token, keeps every other
    key, and navigates once, to "/". *)
Theorem logout_clears (e : env) (w : world Store) :
  let w' := snd (logout e w) in
  getItem (w_store w') "userRole" = None /\ getItem (w_store w') "token" = None
  /\ (forall k, k <> "userRole" -> k <> "token" -> getItem (w_store w') k = getItem (w_store w) k)
  /\ navigations (w_trace w') = (navigations (w_trace w) ++ ["/"])%list.
Proof.
  unfold logout. unfold_client. simpl.
  split; [|split; [|split]]; [by store_rw .. | |].
  - intros k H1 H2. by store_rw.
  - trace_simpl.
Qed.

(** [logoutPatient] demotes a signed-in patient: the token goes,
    the role becomes "patient", and the patient landing page is shown. *)
Theorem logoutPatient_demotes (e : env) (w : world Store) :
  let w' := snd (logoutPatient e w) in
  getItem (w_store w') "userRole" = Some "patient" /\ getItem (w_store w') "token" = None
  /\ navigations (w_trace w') = (navigations (w_trace w) ++ ["/pages/patientDashboard.html"])%list.
Proof.
  unfold logoutPatient. unfold_client. simpl.
  split; [|split]; [by store_rw .. | trace_simpl].
Qed.
End Properties.

(** ** Witnesses *)

Definition example_env0 : env := example_env "http://localhost:8080" (fun _ => NetworkFailure "Failed to fetch").

Definition expired_store : gmap string string := <["userRole" := "loggedPatient"]> ∅.

Lemma renderHeader_expired_witness :
  let w := page_world expired_store "/pages/loggedPatientDashboard.html" in
  renderHeader example_env0 w
  = (Normal tt,
     with_event (EvNavigate "/")
       (with_event (EvAlert "Session expired or invalid login. Please log in again.")
          (with_store (removeItem "userRole" (w_store w)) w))).
Proof. intros w. apply (renderHeader_expired _ _ HeaderBlank); reflexivity. Defined.

Lemma renderHeader_session_ok_witness :
  session_ok (w_store (snd (renderHeader example_env0 (page_world expired_store "/pages/doctorDashboard.html"))))
  = true.
Proof. apply (renderHeader_session_ok _ _ HeaderBlank). reflexivity. Defined.

Definition admin_store : gmap string string := <["token" := "jwt"]> (<["userRole" := "admin"]> ∅).

Lemma renderHeader_controls_need_token_witness :
  item_falsy (getItem (w_store (snd (renderHeader example_env0 (page_world admin_store "/pages/adminDashboard.html"))))
                "token") = false.
Proof. apply (renderHeader_controls_need_token _ _ [NavAddDoctor; NavLogout]); reflexivity. Defined.

Definition token_answer (t : string) : response := mkResponse 200 (BodyJson (JObj [("token", JStr t)])).

Lemma adminLoginHandler_success_witness :
  let e := example_env "http://localhost:8080" (fun _ => Responded (token_answer "jwt")) in
  let w := page_world (∅ : gmap string string) "/" in
  let w' := snd (adminLoginHandler "admin" "secret" e w) in
  getItem (w_store w') "token" = Some "jwt" /\ getItem (w_store w') "userRole" = Some "admin"
  /\ navigations (w_trace w') = (navigations (w_trace w) ++ ["/pages/adminDashboard.html"])%list.
Proof.
  intros e w. apply (adminLoginHandler_success _ _ _ _ (token_answer "jwt") [("token", JStr "jwt")]);
    reflexivity.
Defined.

Definition bad_credentials : response := mkResponse 401 (BodyJson (JObj [("message", JStr "Invalid credentials")])).

Lemma adminLoginHandler_rejected_witness :
  let e := example_env "http://localhost:8080" (fun _ => Responded bad_credentials) in
  let w := page_world (∅ : gmap string string) "/" in
  let w' := snd (adminLoginHandler "admin" "wrong" e w) in
  w_store w' = w_store w /\ navigations (w_trace w') = navigations (w_trace w)
  /\ alerts (w_trace w') = (alerts (w_trace w) ++ ["Login failed: Invalid credentials"])%list.
Proof.
  intros e w. apply (adminLoginHandler_rejected _ _ _ _ bad_credentials [("message", JStr "Invalid credentials")]);
    [reflexivity .. | discriminate].
Defined.

Definition tokenless_answer : response := mkResponse 200 (BodyJson (JObj [("admin", JStr "root")])).

Lemma adminLoginHandler_missing_token_witness :
  let e := example_env "http://localhost:8080" (fun _ => Responded tokenless_answer) in
  let s' := w_store (snd (adminLoginHandler "admin" "secret" e (page_world (∅ : gmap string string) "/"))) in
  getItem s' "token" = Some "undefined"
  /\ w_header (snd (renderHeader e (page_world s' "/pages/adminDashboard.html")))
     = Some (HeaderNav [NavAddDoctor; NavLogout]).
Proof.
  intros e s'. apply (adminLoginHandler_missing_token _ _ _ _ tokenless_answer [("admin", JStr "root")]);
    reflexivity.
Defined.

Lemma selectRole_ignores_role_witness :
  let w := page_world (∅ : gmap string string) "/" in
  selectRole (mkRoleButtons true true true) "patient" example_env0 w
  = (Normal tt, with_store (setItem "userRole" "patient" (w_store w)) w).
Proof. intros w. apply selectRole_ignores_role. reflexivity. Defined.

Lemma root_header_keeps_token_witness :
  let w1 := snd (renderHeader example_env0 (page_world admin_store "/")) in
  let w2 := snd (selectRole (mkRoleButtons true true true) "patient" example_env0 w1) in
  getItem (w_store w1) "userRole" = None
  /\ getItem (w_store w2) "userRole" = Some "patient" /\ getItem (w_store w2) "token" = Some "jwt".
Proof. apply root_header_keeps_token. reflexivity. Defined.

Lemma logout_clears_witness :
  let w := page_world admin_store "/pages/adminDashboard.html" in
  let w' := snd (logout example_env0 w) in
  getItem (w_store w') "userRole" = None /\ getItem (w_store w') "token" = None
  /\ (forall k, k <> "userRole" -> k <> "token" -> getItem (w_store w') k = getItem (w_store w) k)
  /\ navigations (w_trace w') = (navigations (w_trace w) ++ ["/"])%list.
Proof. intros w. apply logout_clears. Defined.

Definition patient_store : gmap string string := <["token" := "jwt"]> (<["userRole" := "loggedPatient"]> ∅).

Lemma logoutPatient_demotes_witness :
  let w := page_world patient_store "/pages/loggedPatientDashboard.html" in
  let w' := snd (logoutPatient example_env0 w) in
  getItem (w_store w') "userRole" = Some "patient" /\ getItem (w_store w') "token" = None
  /\ navigations (w_trace w') = (navigations (w_trace w) ++ ["/pages/patientDashboard.html"])%list.
Proof. intros w. apply logoutPatient_demotes. Defined.
