(* ===== verification/Footer.v ===== *)
(** components/footer.js: [renderFooter] writes the footer into
    [#footer], or logs an error when the page has no such element; the
    script calls it once when it loads. The markup is kept as the
    structure it denotes ([footer_view]). The footer touches nothing the
    other scripts read, so its place among the page's scripts does not
    matter ([renderFooter_renderHeader_comm]). *)
From S2P Require Import Prelude Storage Dom Client Session.

(** The caption: the copyright sign is the Latin-1 code unit 169. *)
Definition copyright : string :=
  String (ascii_of_nat 169) " Copyright 2025. All Rights Reserved by Hospital CMS.".

(** [footerContent], the template of lines 15-48. *)
Definition footerContent : footer_view :=
  mkFooter "../assets/images/logo/logo.png" "Hospital CMS Logo" copyright
    [("Company", ["About"; "Careers"; "Press"]);
     ("Support", ["Account"; "Help Center"; "Contact Us"]);
     ("Legals", ["Terms & Conditions"; "Privacy Policy"; "Licensing"])].

Section Operations.
Context {Store : Type} `{!WebStorage Store}.

Definition renderFooter : M Store unit :=
  w <- get_world ;;
  match w_footer w with
  | None => console_error "Footer element with ID 'footer' not found."
  | Some _ => modify (with_footer (Some (Some footerContent)))
  end.
End Operations.

(** ** Properties *)

Section Properties.
Context {Store : Type} `{!WebStorage Store}.

Lemma renderFooter_run (e : env) (w : world Store) :
  renderFooter e w
  = (Normal tt, match w_footer w with
                | None => with_event (EvConsoleError "Footer element with ID 'footer' not found.") w
                | Some _ => with_footer (Some (Some footerContent)) w
                end).
Proof. unfold renderFooter. unfold_client. simpl. destruct w as [? ? ? ? ? ? ? [f|] ?]; reflexivity. Qed.

(** Rendering twice shows the same footer as rendering once. *)
Lemma renderFooter_idempotent (e : env) (w : world Store) :
  w_footer w <> None -> snd (renderFooter e (snd (renderFooter e w))) = snd (renderFooter e w).
Proof.
  intros Hf. rewrite (renderFooter_run e w). destruct (w_footer w) as [f|]; [|done].
  reflexivity.
Qed.

(** The footer is all it changes, besides its error on a page without one. *)
Lemma renderFooter_frame :
  preserves (fun w : world Store => (w_store w, w_path w, w_header w, w_listeners w, w_content w,
                                     w_table w, w_next_node w)) renderFooter.
Proof. unfold renderFooter. solve_preserves. Qed.

Lemma renderHeader_footer : preserves (fun w : world Store => w_footer w) renderHeader.
Proof. unfold renderHeader, attachHeaderButtonListeners. solve_preserves. Qed.

(** On a page with a footer, header.js and footer.js commute. *)
Lemma renderFooter_renderHeader_comm (e : env) (w : world Store) :
  w_footer w <> None ->
  snd (renderFooter e (snd (renderHeader e w))) = snd (renderHeader e (snd (renderFooter e w))).
Proof.
  intros Hf. rewrite !renderFooter_run, (renderHeader_footer e w).
  destruct (w_footer w) as [f|] eqn:Hw; [|done].
  unfold renderHeader, attachHeaderButtonListeners. unfold_client. simpl.
  repeat (case_match; simpl); congruence.
Qed.
End Properties.
