(* ===== verification/DoctorCard.v ===== *)
(** components/doctorCard.js: [createDoctorCard] builds the card of a
    doctor with the action its viewer's role allows, and the card's click
    handlers delete the doctor (admin), ask to log in (patient) or open
    the booking overlay (signed-in patient). *)
From S2P Require Import Prelude JsValue Storage Dom Client DoctorServices Session.

(** [el.textContent = v]: [null] gives the empty string. *)
Definition text_content (v : jsval) : string :=
  match v with JNull => "" | _ => to_string v end.

(** The action buttons of a role (doctorCard.js, the three role branches). *)
Definition card_actions_for (userRole : option string) : list card_action :=
  if role_is userRole "admin" then [DeleteDoctorBtn]
  else if role_is userRole "patient" then [BookNowBtn]
  else if role_is userRole "loggedPatient" then [BookAppointmentBtn]
  else [].

Section Operations.
Context {Store : Type} `{!WebStorage Store}.

(** [doctor.availableTimes.map(time => `<li>${time}</li>`)]: a TypeError
    unless the field is an array. *)
Definition available_slots (times : jsval) : M Store (list string) :=
  match times with
  | JArr vs => ret (map to_string vs)
  | JUndefined | JNull =>
      throw (mkExn TypeError ("Cannot read properties of " ++ to_string times ++ " (reading 'map')"))
  | _ => throw (mkExn TypeError "doctor.availableTimes.map is not a function")
  end.

Definition createDoctorCard (doctor : jsval) : M Store (nat * doctor_card) :=
  card <- fresh_node ;;
  doctorId <- prop doctor "doctorId" ;;
  userRole <- get_item "userRole" ;;
  name <- prop doctor "name" ;;
  specialization <- prop doctor "specialization" ;;
  email <- prop doctor "email" ;;
  times <- prop doctor "availableTimes" ;;
  slots <- available_slots times ;;
  ret (card, mkCard doctor (to_string doctorId) (text_content name) (text_content specialization)
               ("Email: " ++ to_string email) slots (card_actions_for userRole)).

(** The admin's delete button. [deleteDoctor] reports failures in its
    result and never throws, and the handler ignores the result: the
    [catch] branch is unreachable from the call. *)
Definition deleteButtonHandler (card : nat) (doctor : jsval) : M Store unit :=
  name <- prop doctor "name" ;;
  confirmed <- confirm ("Are you sure you want to delete Doctor " ++ to_string name ++ "?") ;;
  if confirmed then
    adminToken <- get_item "token" ;;
    match adminToken with
    | Some t =>
        if String.eqb t "" then alert "Authentication token missing. Please log in again."
        else
          try_catch
            (doctorId <- prop doctor "doctorId" ;;
             _ <- deleteDoctor doctorId (JStr t) ;;
             name' <- prop doctor "name" ;;
             alert ("Doctor " ++ to_string name' ++ " successfully deleted.") ;;
             remove_node card)
            (fun error => alert ("Failed to delete doctor: " ++ exn_message error))
    | None => alert "Authentication token missing. Please log in again."
    end
  else ret tt.

(** The patient's book button. *)
Definition bookNowHandler : M Store unit :=
  alert "Please log in or sign up to book an appointment.".

(** The signed-in patient's book button, with the patient-details
    service of patientServices.js (not in this repository) as a
    parameter; the booking overlay is an event. *)
Variable fetchPatientDetails : string -> string -> M Store jsval.

Definition bookAppointmentHandler (doctor : jsval) : M Store unit :=
  patientToken <- get_item "token" ;;
  patientId <- get_item "patientId" ;;
  match patientToken, patientId with
  | Some t, Some p =>
      if String.eqb t "" || String.eqb p "" then
        alert "Session expired. Please log in again." ;; navigate "/"
      else
        try_catch
          (patientData <- fetchPatientDetails p t ;;
           emit (EvBookingOverlay doctor patientData))
          (fun error => alert ("Error preparing booking: " ++ exn_message error))
  | _, _ => alert "Session expired. Please log in again." ;; navigate "/"
  end.

Definition click_card_action (card : nat) (c : doctor_card) (a : card_action) : M Store unit :=
  match a with
  | DeleteDoctorBtn => deleteButtonHandler card (card_doctor c)
  | BookNowBtn => bookNowHandler
  | BookAppointmentBtn => bookAppointmentHandler (card_doctor c)
  end.
End Operations.

(** ** Properties *)

Definition delete_prompt (name : jsval) : string :=
  "Are you sure you want to delete Doctor " ++ to_string name ++ "?".

Section Properties.
Context {Store : Type} `{WebStorageLaws Store}.

(** A confirmed delete with a token runs [deleteDoctor], alerts
    success and removes the card, whatever [deleteDoctor] returned. *)
Lemma deleteButtonHandler_confirmed card doctor (e : env) (w : world Store) name doctorId t :
  get_prop doctor "name" = Some name -> get_prop doctor "doctorId" = Some doctorId ->
  confirm_answer e (delete_prompt name) = true ->
  getItem (w_store w) "token" = Some t -> t <> "" ->
  let w1 := snd (deleteDoctor doctorId (JStr t) e (with_event (EvConfirm (delete_prompt name) true) w)) in
  deleteButtonHandler card doctor e w
  = (Normal tt,
     with_content (List.filter (fun p => negb (Nat.eqb p.1 card)) (w_content w1))
       (with_event (EvAlert ("Doctor " ++ to_string name ++ " successfully deleted.")) w1)).
Proof.
  intros Hn Hi Hc Ht Hne w1.
  destruct (deleteDoctor_normal doctorId (JStr t) e (with_event (EvConfirm (delete_prompt name) true) w))
    as (res & w1' & Hd).
  unfold w1. rewrite Hd. unfold deleteButtonHandler. unfold_client.
  rewrite Hn. simpl. unfold delete_prompt in Hc. rewrite Hc. simpl.
  rewrite Ht, streqb_false by done. simpl. rewrite Hi.
  unfold with_event, delete_prompt in Hd. by rewrite Hd.
Qed.

(** C2: a confirmed delete by an admin with a token issues exactly one
    [DELETE /doctor/{doctorId}/{token}] with the card's doctor and the
    stored token, and removes exactly that card from the list. *)
Theorem deleteButtonHandler_one_delete card doctor (e : env) (w : world Store) name doctorId t :
  get_prop doctor "name" = Some name -> get_prop doctor "doctorId" = Some doctorId ->
  confirm_answer e (delete_prompt name) = true ->
  getItem (w_store w) "token" = Some t -> t <> "" ->
  NoDup (map fst (w_content w)) -> card ∈ map fst (w_content w) ->
  let w' := snd (deleteButtonHandler card doctor e w) in
  requests (w_trace w')
    = (requests (w_trace w) ++ [mkRequest DELETE (delete_url (api_base e) doctorId (JStr t)) None])%list
  /\ w_content w' = List.filter (fun p => negb (Nat.eqb p.1 card)) (w_content w)
  /\ List.length (w_content w') = pred (List.length (w_content w)).
Proof.
  intros Hn Hi Hc Ht Hne Hnd Hin. rewrite (deleteButtonHandler_confirmed card doctor e w name doctorId t) by done.
  destruct (deleteDoctor_only_traces doctorId (JStr t) e (with_event (EvConfirm (delete_prompt name) true) w))
    as [evs Hevs].
  pose proof (deleteDoctor_one_request doctorId (JStr t) e (with_event (EvConfirm (delete_prompt name) true) w))
    as [Hreq _].
  cbn zeta in Hreq. simpl. rewrite Hevs in Hreq |- *. simpl in *.
  split; [|split].
  - rewrite requests_snoc, Hreq, requests_snoc. simpl. by rewrite !app_nil_r.
  - done.
  - by apply filter_neq_key_length.
Qed.

(** C1: the card is removed and "successfully deleted" is alerted even
    when the server refuses the deletion: [deleteDoctor] returns
    [{success: false}] instead of throwing, and the handler never looks
    at the result. *)
Theorem deleteButtonHandler_ignores_refusal card doctor (e : env) (w : world Store) name doctorId t r :
  get_prop doctor "name" = Some name -> get_prop doctor "doctorId" = Some doctorId ->
  confirm_answer e (delete_prompt name) = true ->
  getItem (w_store w) "token" = Some t -> t <> "" ->
  server e (mkRequest DELETE (delete_url (api_base e) doctorId (JStr t)) None) = Responded r ->
  ok r = false ->
  let w' := snd (deleteButtonHandler card doctor e w) in
  (exists m, fst (deleteDoctor (Store := Store) doctorId (JStr t) e w) = Normal (mkEnvelope false m))
  /\ (card ∉ map fst (w_content w'))
  /\ last (alerts (w_trace w')) = Some ("Doctor " ++ to_string name ++ " successfully deleted.").
Proof.
  intros Hn Hi Hc Ht Hne Hs Hok. rewrite (deleteButtonHandler_confirmed card doctor e w name doctorId t) by done.
  simpl. split; [|split].
  - unfold deleteDoctor. run_cases; try congruence; by eexists.
  - intros ([k v] & Hk & Hx)%list_elem_of_In%in_map_iff. simpl in Hk. subst k.
    apply filter_In in Hx as [_ Hx]. simpl in Hx. by rewrite Nat.eqb_refl in Hx.
  - by rewrite alerts_snoc, last_snoc.
Qed.
End Properties.

(** ** Witnesses *)

Definition doctor_ann : jsval :=
  JObj [("doctorId", JNum 7); ("name", JStr "Ann"); ("specialization", JStr "Cardiology");
        ("email", JStr "ann@example.com"); ("availableTimes", JArr [JStr "09:00-10:00"])].

Definition forbidden : response := mkResponse 403 (BodyJson (JObj [("message", JStr "Unauthorized")])).

Definition refusing_env : env := example_env "http://localhost:8080" (fun _ => Responded forbidden).

Definition card_of (d : jsval) : doctor_card :=
  mkCard d "7" "Ann" "Cardiology" "Email: ann@example.com" ["09:00-10:00"] [DeleteDoctorBtn].

Definition card_admin_world : world (gmap string string) :=
  mkWorld (<["token" := "jwt"]> (<["userRole" := "admin"]> ∅)) "/pages/adminDashboard.html"
    (Some (HeaderNav [NavAddDoctor; NavLogout])) [] [(0, NCard (card_of doctor_ann)); (1, NMessage "x" "y")] [] 2 (Some None) [].

Lemma deleteButtonHandler_one_delete_witness :
  let w' := snd (deleteButtonHandler 0 doctor_ann refusing_env card_admin_world) in
  requests (w_trace w')
    = (requests (w_trace card_admin_world)
       ++ [mkRequest DELETE (delete_url (api_base refusing_env) (JNum 7) (JStr "jwt")) None])%list
  /\ w_content w' = List.filter (fun p => negb (Nat.eqb p.1 0)) (w_content card_admin_world)
  /\ List.length (w_content w') = pred (List.length (w_content card_admin_world)).
Proof.
  apply (deleteButtonHandler_one_delete _ _ _ _ (JStr "Ann")); try reflexivity.
  - discriminate.
  - apply (bool_decide_unpack _). vm_compute. reflexivity.
  - apply (bool_decide_unpack _). vm_compute. reflexivity.
Defined.

Lemma deleteButtonHandler_ignores_refusal_witness :
  let w' := snd (deleteButtonHandler 0 doctor_ann refusing_env card_admin_world) in
  (exists m, fst (deleteDoctor (Store := gmap string string) (JNum 7) (JStr "jwt") refusing_env card_admin_world)
             = Normal (mkEnvelope false m))
  /\ (0 ∉ map fst (w_content w'))
  /\ last (alerts (w_trace w')) = Some ("Doctor " ++ to_string (JStr "Ann") ++ " successfully deleted.").
Proof.
  apply (deleteButtonHandler_ignores_refusal _ _ _ _ _ _ _ forbidden); try reflexivity. discriminate.
Defined.
