(* ===== verification/AdminDashboard.v ===== *)
(** adminDashboard.js: the admin's page controller. [loadDoctorCards]
    fills [#content] with the doctors' cards or a message,
    [filterDoctorsOnChange] re-queries on every filter event,
    [renderDoctorCards] draws a list, and [adminAddDoctor] saves a new
    doctor from the modal form. The panel invariant [content_ok] (well
    formed, one message or cards only) and its preservation close the file. *)
From S2P Require Import Prelude JsValue JsString Storage Dom Client DoctorServices Session DoctorCard.

(** [v.length === 0] and [v.length > 0] on the value of a [length] read. *)
Definition length_is_zero (len : jsval) : bool :=
  match len with JNum n => Z.eqb n 0 | _ => false end.
Definition length_positive (len : jsval) : bool :=
  match len with JNum n => Z.ltb 0 n | _ => false end.

Section Operations.
Context {Store : Type} `{!WebStorage Store}.

(** [contentDiv.innerHTML = '<p class="cls">text</p>']. *)
Definition show_message (cls text : string) : M Store unit :=
  id <- fresh_node ;;
  modify (with_content [(id, NMessage cls text)]).

(** [contentDiv.appendChild(card)]. *)
Definition append_card (card : nat * doctor_card) : M Store unit :=
  modify (fun w => with_content (w_content w ++ [(card.1, NCard card.2)]) w).

Definition renderDoctorCards (doctors : jsval) : M Store unit :=
  modify (with_content []) ;;
  match doctors with
  | JArr ds => for_each (fun doctor => card <- createDoctorCard doctor ;; append_card card) ds
  | JUndefined | JNull =>
      throw (mkExn TypeError ("Cannot read properties of " ++ to_string doctors ++ " (reading 'forEach')"))
  | _ => throw (mkExn TypeError "doctors.forEach is not a function")
  end.

Definition loadDoctorCards : M Store unit :=
  try_catch
    (doctors <- getDoctors ;;
     len <- prop doctors "length" ;;
     if length_is_zero len then show_message "noPatientRecord" "No doctors currently registered."
     else renderDoctorCards doctors)
    (fun _ =>
       console_error "Error loading doctor cards:" ;;
       show_message "noPatientRecord error"
         "Failed to load doctor data. Please check the network connection.").

(** The three filter inputs' values are the parameters. *)
Definition filterDoctorsOnChange (searchValue timeValue specialtyValue : string) : M Store unit :=
  let name := trim searchValue in
  let filterName := js_or (JStr name) (JStr "") in
  let filterTime := js_or (JStr timeValue) (JStr "") in
  let filterSpecialty := js_or (JStr specialtyValue) (JStr "") in
  try_catch
    (result <- filterDoctors filterName filterTime filterSpecialty ;;
     if fr_success result then
       let doctors := fr_doctors result in
       len <- prop doctors "length" ;;
       if length_positive len then renderDoctorCards doctors
       else show_message "noPatientRecord" "No doctors found with the given filters."
     else
       alert ("Error filtering doctors: " ++ to_string (fr_message result)) ;;
       show_message "noPatientRecord error" ("Error: " ++ to_string (fr_message result)))
    (fun _ =>
       console_error "Error during filtering:" ;;
       alert "An unexpected error occurred while filtering. Please try again.").

(** [availableTimesStr.split(',').map(t => t.trim())]. *)
Definition parse_times (availableTimesStr : string) : list string :=
  map trim (split_on "," availableTimesStr).

(** The doctor object built from the form (note the key [specialty]). *)
Definition doctor_object (name email phone password specialty : string) (availableTimes : list string) : jsval :=
  JObj [("name", JStr name); ("email", JStr email); ("phone", JStr phone);
        ("password", JStr password); ("specialty", JStr specialty);
        ("availableTimes", JArr (map JStr availableTimes))].

(** [window.adminAddDoctor] up to its [await] (lines 136-165), with the
    form fields' values as parameters: the doctor object and the token
    when the save goes ahead, after an alert when there is no token. *)
Definition adminAddDoctor_start (name email phone password specialty availableTimesStr : string)
    : M Store (option (jsval * string)) :=
  let availableTimes := parse_times availableTimesStr in
  token <- get_item "token" ;;
  match token with
  | Some t =>
      if String.eqb t "" then alert "Authorization failed. Please log in as an administrator." ;; ret None
      else ret (Some (doctor_object name email phone password specialty availableTimes, t))
  | None => alert "Authorization failed. Please log in as an administrator." ;; ret None
  end.

(** The rest (lines 166-184): [true] when the save succeeded and the
    handler calls [loadDoctorCards()]. That call is not awaited, so the
    [catch] does not cover it; [closeModal] (util.js) is an event. *)
Definition adminAddDoctor_saved (doctor : jsval) (t : string) : M Store bool :=
  try_catch
    (result <- saveDoctor doctor (JStr t) ;;
     if success result then
       alert ("Success! " ++ to_string (message result)) ;;
       emit EvCloseModal ;;
       ret true
     else alert ("Failed to add doctor: " ++ to_string (message result)) ;; ret false)
    (fun _ =>
       console_error "Error adding new doctor:" ;;
       alert "An unexpected error occurred while adding the doctor." ;;
       ret false).

(** [window.adminAddDoctor] run to completion: the reload it starts runs
    right after the save (AdminPage.v leaves it in flight). *)
Definition adminAddDoctor (name email phone password specialty availableTimesStr : string) : M Store unit :=
  start <- adminAddDoctor_start name email phone password specialty availableTimesStr ;;
  match start with
  | Some (doctor, t) =>
      reload <- adminAddDoctor_saved doctor t ;;
      if reload then loadDoctorCards else ret tt
  | None => ret tt
  end.

(** The first statement of [window.onload]: a click listener on
    [#addDocBtn] (the header's button, which also has an inline
    [onclick]) opens the modal through the imported [openModal]. *)
Definition attachAddDocListener : M Store unit :=
  w <- get_world ;;
  match w_header w with
  | Some (HeaderNav items) =>
      if bool_decide (NavAddDoctor ∈ items)
      then modify (with_header (w_header w) (w_listeners w ++ [(NavAddDoctor, ModalImported "addDoctor")]))
      else ret tt
  | _ => ret tt
  end.

(** [window.onload] run to completion: the listener, then the cards.
    The filter listeners it attaches last matter only to later events;
    AdminPage.v models them with the page's event loop. *)
Definition adminDashboardOnload : M Store unit :=
  attachAddDocListener ;;
  loadDoctorCards.
End Operations.

(** ** Properties *)

(** [#content] is well formed: its nodes have distinct identities, all
    below the next fresh one. *)
Definition content_wf {Store} (w : world Store) : Prop :=
  NoDup (map fst (w_content w)) /\ Forall (fun id => (id < w_next_node w)%nat) (map fst (w_content w)).

(** What [#content] can show: one message, or cards only (none at
    all included). A message next to cards, or two messages, would mean
    a render that did not clear the panel first. *)
Definition is_card (n : content_node) : bool :=
  match n with NCard _ => true | NMessage _ _ => false end.

Definition panel_ok (c : list (nat * content_node)) : bool :=
  match c with
  | [(_, NMessage _ _)] => true
  | _ => forallb (fun p => is_card p.2) c
  end.

(** The invariant of the admin page's [#content]. *)
Definition content_ok {Store} (w : world Store) : Prop :=
  content_wf w /\ panel_ok (w_content w) = true.

(** The names on the cards [#content] shows, in order. *)
Definition shown_names {Store} (w : world Store) : list string :=
  omap (fun n => match n.2 with NCard c => Some (card_name c) | NMessage _ _ => None end) (w_content w).

(** A doctor object the card code draws without throwing: an object
    whose [availableTimes] is an array; and the name its card shows. *)
Definition listable (d : jsval) : bool :=
  match d with
  | JObj fs => match assoc_get "availableTimes" fs with Some (JArr _) => true | _ => false end
  | _ => false
  end.

Definition card_title (d : jsval) : string :=
  match get_prop d "name" with Some v => text_content v | None => "" end.

Section Properties.
Context {Store : Type} `{WebStorageLaws Store}.

(** Creating a card reads the store and allocates a node; it does not
    touch [#content]. *)
Lemma createDoctorCard_content doctor (e : env) (w w1 : world Store) c :
  createDoctorCard doctor e w = (Normal c, w1) -> w_content w1 = w_content w.
Proof.
  unfold createDoctorCard, available_slots. run_cases; split_vars; by intros [= <- <-].
Qed.

(** The loop of [renderDoctorCards], when it completes, appends one node
    per doctor. *)
Lemma render_loop_length ds (e : env) (w w' : world Store) :
  for_each (fun doctor => card <- createDoctorCard doctor ;; append_card card) ds e w = (Normal tt, w') ->
  List.length (w_content w') = (List.length (w_content w) + List.length ds)%nat.
Proof.
  revert w. induction ds as [|d ds IH]; intros w; simpl.
  - intros [= <-]. lia.
  - unfold bind at 1. unfold bind at 1.
    destruct (createDoctorCard d e w) as [[c|x] w1] eqn:Hc; [|by intros [=]].
    unfold append_card, modify. simpl. intros Hrest.
    apply IH in Hrest. simpl in Hrest. rewrite length_app in Hrest. simpl in Hrest.
    rewrite (createDoctorCard_content _ _ _ _ _ Hc) in Hrest. lia.
Qed.

Lemma renderDoctorCards_silent doctors : silent (Store := Store) (renderDoctorCards doctors).
Proof. unfold renderDoctorCards, append_card, createDoctorCard, available_slots. solve_appends. Qed.

Lemma loadDoctorCards_appends : appends (Store := Store) loadDoctorCards.
Proof.
  unfold loadDoctorCards, getDoctors, renderDoctorCards, createDoctorCard, available_slots,
    show_message, append_card.
  solve_appends.
Qed.

(** Loading the cards sends exactly one request, [GET /doctor]. *)
Lemma loadDoctorCards_one_request (e : env) (w : world Store) :
  requests (w_trace (snd (loadDoctorCards e w)))
  = (requests (w_trace w) ++ [doctors_request (api_base e)])%list.
Proof.
  destruct (getDoctors_run e w) as (d & w1 & Hg & Hreq & _).
  unfold loadDoctorCards. rewrite (try_catch_bind_normal _ _ _ _ _ _ _ Hg), <- Hreq.
  apply silent_requests.
  unfold renderDoctorCards, append_card, createDoctorCard, available_slots, show_message.
  solve_appends.
Qed.

Lemma show_message_run cls text (e : env) (w : world Store) :
  show_message cls text e w
  = (Normal tt, with_content [(w_next_node w, NMessage cls text)] (with_next_node (Datatypes.S (w_next_node w)) w)).
Proof. reflexivity. Qed.

(** A completed [renderDoctorCards] had an array and drew one node per doctor. *)
Lemma renderDoctorCards_done doctors (e : env) (w w' : world Store) :
  renderDoctorCards doctors e w = (Normal tt, w') ->
  exists ds, doctors = JArr ds /\ List.length (w_content w') = List.length ds.
Proof.
  unfold renderDoctorCards, bind at 1, modify. simpl.
  destruct doctors as [| | | | |ds|]; try by intros [=].
  intros Hl. exists ds. split; [done|]. apply render_loop_length in Hl. simpl in Hl. lia.
Qed.

(** ** Well-formed content *)

Lemma content_wf_grow (w w1 : world Store) :
  content_wf w -> w_content w1 = w_content w -> (w_next_node w <= w_next_node w1)%nat -> content_wf w1.
Proof.
  intros [Hn Hf] Hc Hle. unfold content_wf. rewrite Hc. split; [done|].
  eapply Forall_impl; [done|]. simpl. lia.
Qed.

(** A card has the next fresh identity, and allocates it. *)
Lemma createDoctorCard_fresh doctor (e : env) (w : world Store) :
  match createDoctorCard doctor e w with
  | (Normal (id, _), w1) => id = w_next_node w /\ w_next_node w1 = Datatypes.S id /\ w_content w1 = w_content w
  | (Thrown _, w1) => (w_next_node w <= w_next_node w1)%nat /\ w_content w1 = w_content w
  end.
Proof. unfold createDoctorCard, available_slots. run_cases; split_vars; simpl; auto with lia. Qed.

Lemma render_card_wf doctor :
  keeps_inv content_wf (Store := Store) (card <- createDoctorCard doctor ;; append_card card).
Proof.
  intros e w [Hnd Hlt]. unfold bind at 1. pose proof (createDoctorCard_fresh doctor e w) as Hf.
  destruct (createDoctorCard doctor e w) as [[[id c]|x] w1]; simpl.
  - destruct Hf as (-> & Hn & Hc). unfold content_wf. simpl. rewrite Hc, map_app, Hn. simpl. split.
    + apply NoDup_app. split; [done|]. split; [|by apply NoDup_singleton].
      intros k Hk ->%list_elem_of_singleton. apply (Forall_forall _ _) with (x := w_next_node w) in Hlt; [lia|done].
    + apply Forall_app. split; [|constructor; [lia|done]]. eapply Forall_impl; [done|]. simpl. lia.
  - destruct Hf as [Hle Hc]. by apply (content_wf_grow w).
Qed.

Lemma show_message_wf cls text : keeps_inv content_wf (Store := Store) (show_message cls text).
Proof.
  intros e w _. rewrite show_message_run. unfold content_wf. simpl.
  split; [by apply NoDup_singleton | constructor; [lia|done]].
Qed.

Lemma remove_node_wf id : keeps_inv content_wf (Store := Store) (remove_node id).
Proof.
  intros e w [Hnd Hlt]. unfold content_wf. simpl. pose proof (map_fst_filter_sublist
    (fun p : nat * content_node => negb (Nat.eqb p.1 id)) (w_content w)) as Hs.
  split; [by eapply sublist_NoDup|].
  apply Forall_forall. intros k Hk. apply (Forall_forall _ _) with (x := k) in Hlt; [done|].
  by eapply elem_of_sublist.
Qed.

Lemma only_traces_wf {A} (m : M Store A) : only_traces m -> keeps_inv content_wf m.
Proof. intros Hm. by apply keeps_only_traces. Qed.

Lemma renderDoctorCards_wf doctors : keeps_inv content_wf (Store := Store) (renderDoctorCards doctors).
Proof.
  unfold renderDoctorCards. apply keeps_bind.
  - apply keeps_modify. intros w _. split; [constructor | done].
  - intros _. destruct doctors; try apply keeps_throw. apply keeps_for_each. intros d. apply render_card_wf.
Qed.

#[local] Hint Resolve show_message_wf remove_node_wf renderDoctorCards_wf : client.
#[local] Hint Extern 1 (keeps_inv content_wf _) => apply only_traces_wf; solve [eauto with client] : client.
#[local] Hint Resolve getDoctors_only_traces deleteDoctor_only_traces saveDoctor_only_traces
  filterDoctors_only_traces : client.

Lemma panel_ok_cards c : forallb (fun p => is_card p.2) c = true -> panel_ok c = true.
Proof. intros Hc. destruct c as [|[? []] [|]]; done. Qed.

Lemma panel_ok_filter f c : panel_ok c = true -> panel_ok (List.filter f c) = true.
Proof.
  intros Hc. destruct c as [|[i n] [|q c]]; [done| |].
  - cbn [List.filter]. by destruct (f (i, n)).
  - apply panel_ok_cards, forallb_forall. intros x [Hx _]%filter_In. revert x Hx.
    apply forallb_forall. destruct n; [done | exact Hc].
Qed.

Lemma render_card_cards doctor :
  keeps_inv (fun w : world Store => forallb (fun p => is_card p.2) (w_content w) = true)
    (card <- createDoctorCard doctor ;; append_card card).
Proof.
  intros e w Hw. unfold bind at 1. pose proof (createDoctorCard_fresh doctor e w) as Hf.
  destruct (createDoctorCard doctor e w) as [[[id c]|x] w1]; simpl.
  - destruct Hf as (_ & _ & Hcw). rewrite forallb_app, Hcw, Hw. done.
  - destruct Hf as [_ Hcw]. by rewrite Hcw.
Qed.

Lemma renderDoctorCards_ok doctors : keeps_inv content_ok (Store := Store) (renderDoctorCards doctors).
Proof.
  intros e w [Hwf _]. split; [by apply renderDoctorCards_wf|].
  apply panel_ok_cards. unfold renderDoctorCards, bind at 1, modify. simpl.
  destruct doctors; try done.
  apply (keeps_for_each (fun w : world Store => forallb (fun p => is_card p.2) (w_content w) = true));
    [apply render_card_cards | done].
Qed.

Lemma show_message_ok cls text : keeps_inv content_ok (Store := Store) (show_message cls text).
Proof. intros e w Hw. split; [by apply show_message_wf, Hw|]. by rewrite show_message_run. Qed.

Lemma remove_node_ok id : keeps_inv content_ok (Store := Store) (remove_node id).
Proof. intros e w [Hwf Hp]. split; [by apply remove_node_wf|]. by apply panel_ok_filter. Qed.

Lemma only_traces_ok {A} (m : M Store A) : only_traces m -> keeps_inv content_ok m.
Proof. intros Hm. by apply keeps_only_traces. Qed.

#[local] Hint Resolve show_message_ok remove_node_ok renderDoctorCards_ok : client.
#[local] Hint Extern 1 (keeps_inv content_ok _) => apply only_traces_ok; solve [eauto with client] : client.

Lemma loadDoctorCards_wf : keeps_inv content_wf (Store := Store) loadDoctorCards.
Proof. unfold loadDoctorCards. solve_keeps_inv. Qed.

(** Loading completes normally and leaves cards or a message. *)
Lemma loadDoctorCards_fills (e : env) (w : world Store) :
  exists w', loadDoctorCards e w = (Normal tt, w') /\ w_content w' <> [].
Proof.
  destruct (getDoctors_run e w) as (doctors & w1 & Hg & _).
  cbv [loadDoctorCards try_catch bind prop ret throw]. rewrite Hg.
  destruct (get_prop doctors "length") as [len|] eqn:Hlen; cbn -[renderDoctorCards show_message].
  2: { eexists; split; [reflexivity|]. simpl. done. }
  destruct (length_is_zero len) eqn:Hz; cbn -[renderDoctorCards show_message].
  { eexists; split; [rewrite show_message_run; reflexivity|]. simpl. done. }
  destruct (renderDoctorCards doctors e w1) as [[[]|x] w2] eqn:Hr.
  - eexists; split; [reflexivity|].
    destruct (renderDoctorCards_done _ _ _ _ Hr) as (ds & -> & Hn).
    simpl in Hlen. injection Hlen as <-. simpl in Hz.
    intros Hc. rewrite Hc in Hn. simpl in Hn. destruct ds; [done|]. simpl in Hn. lia.
  - eexists; split; [reflexivity|]. simpl. done.
Qed.

(** C19: loading the admin dashboard never throws and never leaves the
    panel blank (it shows the cards, or a message), after exactly one
    [GET /doctor]. *)
Theorem loadDoctorCards_never_blank (e : env) (w : world Store) :
  exists w', loadDoctorCards e w = (Normal tt, w') /\ w_content w' <> []
    /\ requests (w_trace w') = (requests (w_trace w) ++ [doctors_request (api_base e)])%list.
Proof.
  destruct (loadDoctorCards_fills e w) as (w' & Hl & Hc).
  pose proof (loadDoctorCards_one_request e w) as Hr. rewrite Hl in Hr.
  by exists w'.
Qed.

(** C20: with the server unreachable the admin is told that no doctor is
    registered: [getDoctors] turns the failure into an empty list, so the
    network-error message of [loadDoctorCards] is never shown for it. *)
Theorem loadDoctorCards_unreachable (e : env) (w : world Store) m :
  server e (doctors_request (api_base e)) = NetworkFailure m ->
  w_content (snd (loadDoctorCards e w))
  = [(w_next_node w, NMessage "noPatientRecord" "No doctors currently registered.")].
Proof.
  intros Hs. unfold loadDoctorCards, getDoctors, doctors_request in *. unfold_client.
  by rewrite Hs.
Qed.

(** A doctor object without [availableTimes] makes [createDoctorCard] throw. *)
Lemma createDoctorCard_missing_slots ps (e : env) (w : world Store) :
  assoc_get "availableTimes" ps = None ->
  exists x w', createDoctorCard (JObj ps) e w = (Thrown x, w') /\ w_content w' = w_content w.
Proof.
  intros Hs. unfold createDoctorCard, available_slots. unfold_client. simpl.
  rewrite Hs. simpl. by eexists _, _.
Qed.

Definition filter_request (base sv tv spv : string) : request :=
  mkRequest GET (filter_url base (js_or (JStr (trim sv)) (JStr "")) (js_or (JStr tv) (JStr ""))
                   (js_or (JStr spv) (JStr ""))) None.

(** C21: a filter answer whose first doctor has no [availableTimes]
    leaves the panel blank: [renderDoctorCards] clears [#content], the
    first card throws, and the handler only alerts. *)
Theorem filterDoctorsOnChange_blank_panel sv tv spv (e : env) (w : world Store) r ps d ds :
  server e (filter_request (api_base e) sv tv spv) = Responded r ->
  ok r = true -> resp_body r = BodyJson (JObj ps) ->
  assoc_get "doctors" ps = Some (JArr (JObj d :: ds)) -> assoc_get "availableTimes" d = None ->
  let w' := snd (filterDoctorsOnChange sv tv spv e w) in
  w_content w' = []
  /\ last (alerts (w_trace w')) = Some "An unexpected error occurred while filtering. Please try again.".
Proof.
  intros Hs Hok Hb Hd Hslots.
  unfold filterDoctorsOnChange. rewrite (try_catch_bind_normal _ _ _ _ _ _ _ (filterDoctors_ok _ _ _ _ _ _ _ _ Hs Hok Hb Hd eq_refl)).
  destruct (createDoctorCard_missing_slots d e (with_content [] (with_event (EvFetch (filter_request (api_base e) sv tv spv)) w)) Hslots)
    as (x & w2 & Hc & Hw2).
  cbv [try_catch bind prop ret throw renderDoctorCards for_each modify]. simpl.
  unfold filter_request in Hc. rewrite Hc. simpl. split; [done|]. by rewrite alerts_snoc, last_snoc.
Qed.

(** without a token, adding a doctor only alerts: no request is
    sent and nothing else changes. *)
Theorem adminAddDoctor_requires_token name email phone password specialty times (e : env) (w : world Store) :
  item_falsy (getItem (w_store w) "token") = true ->
  adminAddDoctor name email phone password specialty times e w
  = (Normal tt, with_event (EvAlert "Authorization failed. Please log in as an administrator.") w).
Proof.
  intros Ht. unfold adminAddDoctor, adminAddDoctor_start. unfold_client. simpl.
  destruct (getItem (w_store w) "token") as [t|]; simpl in *; [by rewrite Ht | done].
Qed.

(** The form goes on to the save when a token is stored. *)
Lemma adminAddDoctor_start_token name email phone password specialty times (e : env) (w : world Store) t :
  getItem (w_store w) "token" = Some t -> t <> "" ->
  adminAddDoctor_start name email phone password specialty times e w
  = (Normal (Some (doctor_object name email phone password specialty (parse_times times), t)), w).
Proof. intros Ht Hne. unfold adminAddDoctor_start. unfold_client. simpl. by rewrite Ht, streqb_false. Qed.

(** An accepted save alerts, closes the modal and asks for the reload. *)
Lemma adminAddDoctor_saved_accepted doctor t (e : env) (w : world Store) r ps m :
  let req := mkRequest POST (save_url (api_base e) (JStr t)) (Some doctor) in
  server e req = Responded r -> ok r = true -> resp_body r = BodyJson (JObj ps) ->
  assoc_get "message" ps = Some (JStr m) -> m <> "" ->
  adminAddDoctor_saved doctor t e w
  = (Normal true, with_event EvCloseModal (with_event (EvAlert ("Success! " ++ m)) (with_event (EvFetch req) w))).
Proof.
  intros req Hs Hok Hb Hm Hne. unfold adminAddDoctor_saved.
  by rewrite (try_catch_bind_normal _ _ _ _ _ _ _ (saveDoctor_accepted _ _ _ _ _ _ _ Hs Hok Hb Hm Hne)).
Qed.

(** C22: with a token, adding a doctor posts the form as a doctor object
    (the times field split at commas and trimmed) to
    [/doctor/save/{token}]; when the server accepts it, the modal is
    closed and the list reloaded by one [GET /doctor], which leaves the
    panel non-blank. *)
Theorem adminAddDoctor_saves_and_reloads name email phone password specialty times (e : env) (w : world Store) t r ps m :
  getItem (w_store w) "token" = Some t -> t <> "" ->
  let req := mkRequest POST (save_url (api_base e) (JStr t))
               (Some (doctor_object name email phone password specialty (parse_times times))) in
  server e req = Responded r -> ok r = true -> resp_body r = BodyJson (JObj ps) ->
  assoc_get "message" ps = Some (JStr m) -> m <> "" ->
  let w' := snd (adminAddDoctor name email phone password specialty times e w) in
  requests (w_trace w') = (requests (w_trace w) ++ [req; doctors_request (api_base e)])%list
  /\ EvCloseModal ∈ w_trace w' /\ w_content w' <> [].
Proof.
  intros Ht Hne req Hs Hok Hb Hm Hmne. cbv zeta.
  unfold adminAddDoctor. rewrite (bind_normal _ _ _ _ _ _ (adminAddDoctor_start_token _ _ _ _ _ _ e w t Ht Hne)).
  cbn iota beta. rewrite (bind_normal _ _ _ _ _ _ (adminAddDoctor_saved_accepted _ _ e w r ps m Hs Hok Hb Hm Hmne)).
  fold req. set (w2 := with_event EvCloseModal (with_event (EvAlert ("Success! " ++ m)) (with_event (EvFetch req) w))).
  cbn iota beta.
  destruct (loadDoctorCards_fills e w2) as (w3 & Hl & Hc).
  pose proof (loadDoctorCards_one_request e w2) as Hr. rewrite Hl in Hr. simpl in Hr.
  destruct (loadDoctorCards_appends e w2) as (evs & _ & Ht3). rewrite Hl in Ht3. simpl in Ht3.
  rewrite Hl. simpl. split; [|split; [|done]].
  - rewrite Hr. unfold w2. trace_simpl.
  - rewrite Ht3. unfold w2. simpl. apply elem_of_app. left.
    apply elem_of_app. right. by left.
Qed.

(** the times field gives one slot per comma plus one, so an empty
    field is saved as one empty slot, [[""]]. *)
Theorem parse_times_length availableTimesStr :
  List.length (parse_times availableTimesStr) = Datatypes.S (str_count "," availableTimesStr)
  /\ (str_contains "," availableTimesStr = false -> parse_times availableTimesStr = [trim availableTimesStr]).
Proof.
  unfold parse_times. split.
  - by rewrite length_map, split_on_length.
  - intros Hc. by rewrite split_on_no_sep.
Qed.

(** the object [adminAddDoctor] builds names the field [specialty],
    while [createDoctorCard] reads [specialization]: rendered as a card,
    a doctor added this way shows the specialization "undefined". *)
Theorem added_doctor_card_specialization name email phone password specialty times (e : env) (w : world Store) :
  exists card c w', createDoctorCard (doctor_object name email phone password specialty times) e w
                    = (Normal (card, c), w')
    /\ card_specialization c = "undefined" /\ card_name c = name.
Proof. unfold createDoctorCard, available_slots. unfold_client. simpl. by eexists _, _, _. Qed.

Lemma loadDoctorCards_header (e : env) (w : world Store) :
  (w_header (snd (loadDoctorCards e w)), w_listeners (snd (loadDoctorCards e w))) = (w_header w, w_listeners w).
Proof.
  apply (preserves_try_catch (fun w => (w_header w, w_listeners w))).
  all: unfold getDoctors, renderDoctorCards, createDoctorCard, available_slots, show_message, append_card.
  all: solve_preserves.
Qed.

(** C23: on the admin dashboard the header's Add Doctor button has both
    its inline [onclick] and the listener [window.onload] adds, so one
    click opens the add-doctor modal twice. *)
Theorem addDoctor_click_opens_twice btns (e : env) (w : world Store) :
  "openModal" ∈ globals e ->
  w_header w = Some (HeaderNav [NavAddDoctor; NavLogout]) -> w_listeners w = [] ->
  let w1 := snd (adminDashboardOnload e w) in
  w_trace (snd (click_nav btns NavAddDoctor e w1))
  = (w_trace w1 ++ [EvOpenModal "addDoctor"; EvOpenModal "addDoctor"])%list.
Proof.
  intros Hg Hh Hl w1.
  set (w0 := with_header (w_header w) (w_listeners w ++ [(NavAddDoctor, ModalImported "addDoctor")]) w).
  assert (Hw1 : w1 = snd (loadDoctorCards e w0)).
  { unfold w1, adminDashboardOnload, attachAddDocListener, w0, bind, get_world, modify. simpl. rewrite Hh. reflexivity. }
  pose proof (loadDoctorCards_header e w0) as Hf. rewrite <- Hw1 in Hf. injection Hf as Hh1 Hl1.
  unfold click_nav, inline_onclick, run_listeners. unfold_client.
  rewrite bool_decide_eq_true_2 by done. simpl. rewrite Hl1. unfold w0. simpl. rewrite Hl. simpl.
  by rewrite <- app_assoc.
Qed.
#[local] Hint Extern 0 (keeps_inv content_wf loadDoctorCards) => exact loadDoctorCards_wf : client.

Lemma filterDoctorsOnChange_wf sv tv spv :
  keeps_inv content_wf (Store := Store) (filterDoctorsOnChange sv tv spv).
Proof. unfold filterDoctorsOnChange. cbv zeta. solve_keeps_inv. Qed.

Lemma attachAddDocListener_wf : keeps_inv content_wf (Store := Store) attachAddDocListener.
Proof. unfold attachAddDocListener. solve_keeps_inv. Qed.
Lemma adminAddDoctor_start_wf name email phone password specialty times :
  keeps_inv content_wf (Store := Store) (adminAddDoctor_start name email phone password specialty times).
Proof. unfold adminAddDoctor_start. cbv zeta. solve_keeps_inv. Qed.

Lemma adminAddDoctor_saved_wf doctor t : keeps_inv content_wf (Store := Store) (adminAddDoctor_saved doctor t).
Proof. unfold adminAddDoctor_saved. solve_keeps_inv. Qed.
#[local] Hint Resolve filterDoctorsOnChange_wf attachAddDocListener_wf adminAddDoctor_start_wf
  adminAddDoctor_saved_wf : client.

(** A listable doctor always gets its card, named after it. *)
Lemma createDoctorCard_listable d (e : env) (w : world Store) :
  listable d = true -> exists c w1, createDoctorCard d e w = (Normal (w_next_node w, c), w1)
    /\ card_name c = card_title d /\ w_content w1 = w_content w.
Proof.
  intros Hd. destruct d as [| | | | | |fs]; try discriminate. simpl in Hd.
  destruct (assoc_get "availableTimes" fs) as [[| | | | |ts|]|] eqn:Hts; try discriminate.
  unfold createDoctorCard, available_slots. unfold_client. simpl. rewrite Hts.
  by eexists _, _.
Qed.

Lemma render_loop_names ds (e : env) (w : world Store) :
  forallb listable ds = true ->
  exists w', for_each (fun doctor => card <- createDoctorCard doctor ;; append_card card) ds e w = (Normal tt, w')
    /\ shown_names w' = (shown_names w ++ map card_title ds)%list.
Proof.
  revert w. induction ds as [|d ds IH]; intros w Hall; simpl.
  - exists w. by rewrite app_nil_r.
  - apply andb_prop in Hall as [Hd Hds].
    destruct (createDoctorCard_listable d e w Hd) as (c & w1 & Hc & Hn & Hw1).
    unfold bind at 1. unfold bind at 1. rewrite Hc. simpl.
    destruct (IH (with_content (w_content w1 ++ [(w_next_node w, NCard c)]) w1) Hds) as (w' & Hr & Hs).
    exists w'. split; [exact Hr|]. rewrite Hs. unfold shown_names. simpl.
    rewrite omap_app, Hw1. simpl. by rewrite Hn, <- app_assoc.
Qed.

(** A load whose answer lists [ds] shows exactly their cards, whatever
    [#content] held before. *)
Lemma loadDoctorCards_lists (e : env) (w : world Store) r ps ds :
  server e (doctors_request (api_base e)) = Responded r -> ok r = true -> resp_body r = BodyJson (JObj ps) ->
  assoc_get "doctors" ps = Some (JArr ds) -> ds <> [] -> forallb listable ds = true ->
  exists w', loadDoctorCards e w = (Normal tt, w') /\ shown_names w' = map card_title ds.
Proof.
  intros Hs Hok Hb Hd Hne Hall.
  destruct (getDoctors_run e w) as (doctors & w1 & Hg & _).
  pose proof (getDoctors_ok e w r ps (JArr ds) Hs Hok Hb Hd eq_refl) as Hv.
  rewrite Hg in Hv. simpl in Hv. injection Hv as ->.
  destruct (render_loop_names ds e (with_content [] w1) Hall) as (w' & Hr & Hn).
  exists w'. split; [|done].
  assert (Hz : length_is_zero (JNum (Z.of_nat (List.length ds))) = false) by (destruct ds; [done|reflexivity]).
  cbv [loadDoctorCards try_catch bind prop ret throw]. rewrite Hg. cbn -[for_each length_is_zero renderDoctorCards].
  rewrite Hz. unfold renderDoctorCards, bind at 1, modify. cbn -[for_each]. by rewrite Hr.
Qed.

Lemma loadDoctorCards_ok : keeps_inv content_ok (Store := Store) loadDoctorCards.
Proof. unfold loadDoctorCards. solve_keeps_inv. Qed.
#[local] Hint Extern 0 (keeps_inv content_ok loadDoctorCards) => exact loadDoctorCards_ok : client.

Lemma filterDoctorsOnChange_ok sv tv spv :
  keeps_inv content_ok (Store := Store) (filterDoctorsOnChange sv tv spv).
Proof. unfold filterDoctorsOnChange. cbv zeta. solve_keeps_inv. Qed.

Lemma attachAddDocListener_ok : keeps_inv content_ok (Store := Store) attachAddDocListener.
Proof. unfold attachAddDocListener. solve_keeps_inv. Qed.

Lemma adminAddDoctor_start_ok name email phone password specialty times :
  keeps_inv content_ok (Store := Store) (adminAddDoctor_start name email phone password specialty times).
Proof. unfold adminAddDoctor_start. cbv zeta. solve_keeps_inv. Qed.

Lemma adminAddDoctor_saved_ok doctor t : keeps_inv content_ok (Store := Store) (adminAddDoctor_saved doctor t).
Proof. unfold adminAddDoctor_saved. solve_keeps_inv. Qed.
#[local] Hint Resolve filterDoctorsOnChange_ok attachAddDocListener_ok adminAddDoctor_start_ok
  adminAddDoctor_saved_ok : client.

(** C31: every operation of the admin dashboard leaves [#content]
    showing one message or cards only, never a message beside cards or
    cards of two renders, with distinct node identities below the next
    fresh one: loading, filtering, adding a doctor, deleting a card, and
    the page's [onload]. It holds because each render clears the panel
    before it draws. *)
Theorem admin_operations_keep_panel sv tv spv name email phone password specialty times card doctor :
  keeps_inv content_ok (Store := Store) loadDoctorCards
  /\ keeps_inv content_ok (Store := Store) (filterDoctorsOnChange sv tv spv)
  /\ keeps_inv content_ok (Store := Store) (adminAddDoctor name email phone password specialty times)
  /\ keeps_inv content_ok (Store := Store) (deleteButtonHandler card doctor)
  /\ keeps_inv content_ok (Store := Store) adminDashboardOnload.
Proof.
  unfold adminAddDoctor, deleteButtonHandler, adminDashboardOnload.
  cbv zeta. split; [|split; [|split; [|split]]]; solve_keeps_inv.
Qed.
End Properties.

(** ** Witnesses *)

Definition admin_dashboard_page : world (gmap string string) :=
  mkWorld (<["token" := "jwt"]> (<["userRole" := "admin"]> ∅)) "/pages/adminDashboard.html"
    (Some (HeaderNav [NavAddDoctor; NavLogout])) [] [] [] 0 (Some None) [].

Definition offline_env : env := example_env "http://localhost:8080" (fun _ => NetworkFailure "Failed to fetch").

Lemma loadDoctorCards_never_blank_witness :
  exists w', loadDoctorCards offline_env admin_dashboard_page = (Normal tt, w') /\ w_content w' <> []
    /\ requests (w_trace w')
       = (requests (w_trace admin_dashboard_page) ++ [doctors_request (api_base offline_env)])%list.
Proof. apply loadDoctorCards_never_blank. Defined.

Lemma loadDoctorCards_unreachable_witness :
  w_content (snd (loadDoctorCards offline_env admin_dashboard_page))
  = [(w_next_node admin_dashboard_page, NMessage "noPatientRecord" "No doctors currently registered.")].
Proof. apply (loadDoctorCards_unreachable _ _ "Failed to fetch"). reflexivity. Defined.

Definition slotless_answer : response :=
  mkResponse 200 (BodyJson (JObj [("doctors", JArr [JObj [("doctorId", JNum 3); ("name", JStr "Bo")]])])).

Lemma filterDoctorsOnChange_blank_panel_witness :
  let e := example_env "http://localhost:8080" (fun _ => Responded slotless_answer) in
  let w' := snd (filterDoctorsOnChange " Bo " "" "" e admin_dashboard_page) in
  w_content w' = []
  /\ last (alerts (w_trace w')) = Some "An unexpected error occurred while filtering. Please try again.".
Proof.
  apply (filterDoctorsOnChange_blank_panel _ _ _ _ _ slotless_answer
           [("doctors", JArr [JObj [("doctorId", JNum 3); ("name", JStr "Bo")]])] [("doctorId", JNum 3); ("name", JStr "Bo")] []);
    reflexivity.
Defined.

Lemma adminAddDoctor_requires_token_witness :
  adminAddDoctor "Ann" "ann@example.com" "555" "pw" "Cardiology" "09:00, 10:00" offline_env
    (page_world (∅ : gmap string string) "/pages/adminDashboard.html")
  = (Normal tt, with_event (EvAlert "Authorization failed. Please log in as an administrator.")
                  (page_world ∅ "/pages/adminDashboard.html")).
Proof. apply adminAddDoctor_requires_token. reflexivity. Defined.

Definition saving_server (r : request) : fetch_outcome :=
  match req_method r with
  | POST => Responded (mkResponse 201 (BodyJson (JObj [("message", JStr "Doctor added")])))
  | _ => Responded (mkResponse 200 (BodyJson (JObj [("doctors", JArr [])])))
  end.

Lemma adminAddDoctor_saves_and_reloads_witness :
  let e := example_env "http://localhost:8080" saving_server in
  let req := mkRequest POST (save_url (api_base e) (JStr "jwt"))
               (Some (doctor_object "Ann" "ann@example.com" "555" "pw" "Cardiology" (parse_times "09:00, 10:00"))) in
  let w' := snd (adminAddDoctor "Ann" "ann@example.com" "555" "pw" "Cardiology" "09:00, 10:00" e admin_dashboard_page) in
  requests (w_trace w') = (requests (w_trace admin_dashboard_page) ++ [req; doctors_request (api_base e)])%list
  /\ EvCloseModal ∈ w_trace w' /\ w_content w' <> [].
Proof.
  apply (adminAddDoctor_saves_and_reloads _ _ _ _ _ _ _ _ "jwt"
           (mkResponse 201 (BodyJson (JObj [("message", JStr "Doctor added")])))
           [("message", JStr "Doctor added")] "Doctor added");
    first [reflexivity | discriminate].
Defined.

Lemma parse_times_length_witness :
  List.length (parse_times "") = Datatypes.S (str_count "," "")
  /\ (str_contains "," "" = false -> parse_times "" = [trim ""]).
Proof. apply parse_times_length. Defined.

Lemma added_doctor_card_specialization_witness :
  exists card c w', createDoctorCard (doctor_object "Ann" "a@b.c" "555" "pw" "Cardiology" ["09:00"]) offline_env
                      admin_dashboard_page = (Normal (card, c), w')
    /\ card_specialization c = "undefined" /\ card_name c = "Ann".
Proof. apply added_doctor_card_specialization. Defined.

Lemma addDoctor_click_opens_twice_witness :
  let w1 := snd (adminDashboardOnload offline_env admin_dashboard_page) in
  w_trace (snd (click_nav (mkRoleButtons false false false) NavAddDoctor offline_env w1))
  = (w_trace w1 ++ [EvOpenModal "addDoctor"; EvOpenModal "addDoctor"])%list.
Proof.
  apply addDoctor_click_opens_twice; [apply (bool_decide_unpack _); vm_compute; reflexivity | reflexivity ..].
Defined.

Lemma admin_operations_keep_panel_witness :
  keeps_inv content_ok (Store := gmap string string) loadDoctorCards
  /\ keeps_inv content_ok (Store := gmap string string) (filterDoctorsOnChange " Bo " "" "")
  /\ keeps_inv content_ok (Store := gmap string string)
       (adminAddDoctor "Ann" "ann@example.com" "555" "pw" "Cardiology" "09:00, 10:00")
  /\ keeps_inv content_ok (Store := gmap string string) (deleteButtonHandler 0 doctor_ann)
  /\ keeps_inv content_ok (Store := gmap string string) adminDashboardOnload.
Proof. apply admin_operations_keep_panel. Defined.
