(* ===== verification/AdminPage.v ===== *)
(** adminDashboard.js as a running page. The module keeps the filter
    controls it finds when it loads ([searchBar], [timeFilter],
    [specialtyFilter], lines 15-17, each an element or [null]);
    [window.onload] adds the Add Doctor listener, starts
    [loadDoctorCards()] without awaiting it, and attaches
    [filterDoctorsOnChange] to the controls that exist (lines 34-43).
    The two handlers are [async]: each issues its request and returns,
    and its continuation runs when the answer arrives. A page is the
    browser world, the controls, their listeners and the requests in
    flight; [admin_step] runs one event, and [Answer k] lets the k-th
    request in flight complete, so every order of answers is a run.
    Submitting the add-doctor form ([SubmitAddDoctor]) runs
    [window.adminAddDoctor] up to its [await]; the save's continuation
    leaves the [loadDoctorCards()] it starts in flight as well.

    A request is kept as the handler call that issued it (with the
    values it read) and runs when its answer arrives. The server oracle
    of [env] is fixed, so the answer is the one it had when sent; what
    the continuation does to [#content] and the store happens at that
    point, as in the browser. Only the position of the handler's
    [EvFetch] in the trace moves to the answer. *)
From S2P Require Import Prelude JsValue JsString Storage Dom Client DoctorServices Session DoctorCard AdminDashboard.

(** The three filter controls. *)
Inductive filter_input : Type := SearchBar | TimeFilter | SpecialtyFilter.

#[export] Instance filter_input_eq_dec : EqDecision filter_input.
Proof. solve_decision. Defined.

(** Each control: [None] when [getElementById] found nothing, else the
    element's current [value]. *)
Record filter_controls : Type := mkControls {
  fc_search : option string;
  fc_time : option string;
  fc_specialty : option string
}.

Definition control (c : filter_controls) (i : filter_input) : option string :=
  match i with
  | SearchBar => fc_search c
  | TimeFilter => fc_time c
  | SpecialtyFilter => fc_specialty c
  end.

(** The user edits a control: its [value] changes if it exists. *)
Definition set_control (i : filter_input) (v : string) (c : filter_controls) : filter_controls :=
  let upd o := match o with Some _ => Some v | None => None end in
  match i with
  | SearchBar => mkControls (upd (fc_search c)) (fc_time c) (fc_specialty c)
  | TimeFilter => mkControls (fc_search c) (upd (fc_time c)) (fc_specialty c)
  | SpecialtyFilter => mkControls (fc_search c) (fc_time c) (upd (fc_specialty c))
  end.

(** Lines 34-43: [input] on the search bar, [change] on the two
    dropdowns, each only if the control exists. *)
Definition filter_listeners (c : filter_controls) : list (filter_input * string) :=
  match fc_search c with Some _ => [(SearchBar, "input")] | None => [] end
  ++ match fc_time c with Some _ => [(TimeFilter, "change")] | None => [] end
  ++ match fc_specialty c with Some _ => [(SpecialtyFilter, "change")] | None => [] end.

(** Lines 77-79: [searchBar.value], [timeFilter.value] and
    [specialtyFilter.value], read before the [try]; a missing control
    is [null] and the read throws. *)
Definition read_filters (c : filter_controls) : option (string * string * string) :=
  match fc_search c, fc_time c, fc_specialty c with
  | Some n, Some t, Some s => Some (n, t, s)
  | _, _, _ => None
  end.

Definition null_value_error : exn :=
  mkExn TypeError "Cannot read properties of null (reading 'value')".

(** A call in flight: [loadDoctorCards()],
    [filterDoctorsOnChange()] with the values it read, or
    [window.adminAddDoctor()] waiting for [saveDoctor(doctor, token)]. *)
Inductive admin_request : Type :=
| ReqLoad
| ReqFilter (name time specialty : string)
| ReqSave (doctor : jsval) (token : string).

(** What runs when the answer arrives, and the calls it makes without
    [await]: a successful save starts [loadDoctorCards()]. *)
Definition request_handler {Store} `{!WebStorage Store} (r : admin_request) : M Store (list admin_request) :=
  match r with
  | ReqLoad => loadDoctorCards ;; ret []
  | ReqFilter n t s => filterDoctorsOnChange n t s ;; ret []
  | ReqSave d t => reload <- adminAddDoctor_saved d t ;; ret (if reload then [ReqLoad] else [])
  end.

Inductive admin_event : Type :=
| InputEvent (i : filter_input) (v : string)   (** the value changes, [input] fires *)
| ChangeEvent (i : filter_input)               (** [change] fires *)
| Answer (k : nat)                             (** the k-th request in flight completes *)
| SubmitAddDoctor (name email phone password specialty times : string).
                                               (** the add-doctor form calls [adminAddDoctor] *)

Section Page.
Context {Store : Type} `{!WebStorage Store}.
Variable e : env.

Record admin_page : Type := mkAdminPage {
  ap_world : world Store;
  ap_controls : filter_controls;
  ap_listeners : list (filter_input * string);
  ap_pending : list admin_request
}.

(** An [async] function run by the event loop: its rejection is
    reported as uncaught; the calls it left in flight are returned. *)
Definition settle (m : M Store (list admin_request)) : M Store (list admin_request) :=
  try_catch m (fun ex => console_error ("Uncaught " ++ exn_message ex) ;; ret []).

Definition run_async (m : M Store (list admin_request)) (w : world Store) : world Store * list admin_request :=
  match settle m e w with
  | (Normal rs, w') => (w', rs)
  | (Thrown _, w') => (w', [])
  end.

(** [filterDoctorsOnChange()] called by a listener: it reads the three
    values and sends its request, or rejects at once. *)
Definition on_filter_event (p : admin_page) : admin_page :=
  match read_filters (ap_controls p) with
  | Some (n, t, s) => mkAdminPage (ap_world p) (ap_controls p) (ap_listeners p) (ap_pending p ++ [ReqFilter n t s])
  | None => mkAdminPage (fst (run_async (throw null_value_error) (ap_world p))) (ap_controls p) (ap_listeners p) (ap_pending p)
  end.

(** Dispatch of an event of [type] on control [i]: every listener
    registered for it runs, in order. *)
Definition fire (i : filter_input) (type : string) (p : admin_page) : admin_page :=
  fold_left (fun p l => if bool_decide (l = (i, type)) then on_filter_event p else p) (ap_listeners p) p.

(** [window.onload] (lines 21-44) on the world [w] with controls [c]. *)
Definition admin_onload (w : world Store) (c : filter_controls) : admin_page :=
  mkAdminPage (snd (attachAddDocListener e w)) c (filter_listeners c) [ReqLoad].

Definition admin_step (p : admin_page) (ev : admin_event) : option admin_page :=
  match ev with
  | InputEvent i v =>
      match control (ap_controls p) i with
      | Some _ => Some (fire i "input" (mkAdminPage (ap_world p) (set_control i v (ap_controls p))
                                          (ap_listeners p) (ap_pending p)))
      | None => None
      end
  | ChangeEvent i =>
      match control (ap_controls p) i with
      | Some _ => Some (fire i "change" p)
      | None => None
      end
  | Answer k =>
      match ap_pending p !! k with
      | Some r =>
          let (w', started) := run_async (request_handler r) (ap_world p) in
          Some (mkAdminPage w' (ap_controls p) (ap_listeners p) (delete k (ap_pending p) ++ started))
      | None => None
      end
  | SubmitAddDoctor name email phone password specialty times =>
      match adminAddDoctor_start name email phone password specialty times e (ap_world p) with
      | (Normal (Some (doctor, t)), w') =>
          Some (mkAdminPage w' (ap_controls p) (ap_listeners p) (ap_pending p ++ [ReqSave doctor t]))
      | (_, w') => Some (mkAdminPage w' (ap_controls p) (ap_listeners p) (ap_pending p))
      end
  end.

Fixpoint run_admin (p : admin_page) (evs : list admin_event) : option admin_page :=
  match evs with
  | [] => Some p
  | ev :: evs' => match admin_step p ev with Some p' => run_admin p' evs' | None => None end
  end.

(** The pages a session can reach from [onload] on a [#content] that
    is well formed and shows one message or cards only. *)
Inductive admin_reach : admin_page -> Prop :=
| areach_init w c : content_ok w -> admin_reach (admin_onload w c)
| areach_step p ev p' : admin_reach p -> admin_step p ev = Some p' -> admin_reach p'.
End Page.

(** ** Properties *)

Lemma filter_listeners_set i v c : filter_listeners (set_control i v c) = filter_listeners c.
Proof. destruct i, c as [[?|] [?|] [?|]]; reflexivity. Qed.

Section Properties.
Context {Store : Type} `{WebStorageLaws Store}.
Variable e : env.

Lemma fire_ind (P : admin_page (Store := Store) -> Prop) i type p :
  (forall p, P p -> P (on_filter_event e p)) -> P p -> P (fire e i type p).
Proof.
  intros Hf. unfold fire. apply fold_left_invariant. intros p' l. by case_bool_decide; auto.
Qed.

Lemma on_filter_event_frame (p : admin_page (Store := Store)) :
  ap_controls (on_filter_event e p) = ap_controls p /\ ap_listeners (on_filter_event e p) = ap_listeners p.
Proof. unfold on_filter_event. by destruct (read_filters _) as [[[]]|]. Qed.

Lemma run_async_ok (m : M Store (list admin_request)) (w w' : world Store) rs :
  keeps_inv content_ok m -> content_ok w -> run_async e m w = (w', rs) -> content_ok w'.
Proof.
  intros Hm Hw Hr. assert (Hd : keeps_inv content_ok (settle m)) by (unfold settle; solve_keeps_inv).
  specialize (Hd e w Hw). unfold run_async in Hr. destruct (settle m e w) as [[]] eqn:?; by simplify_eq.
Qed.

Lemma run_async_normal (m : M Store (list admin_request)) (w w' : world Store) rs :
  m e w = (Normal rs, w') -> run_async e m w = (w', rs).
Proof. intros Hm. unfold run_async, settle, try_catch. by rewrite Hm. Qed.

#[local] Hint Resolve loadDoctorCards_ok filterDoctorsOnChange_ok adminAddDoctor_saved_ok : client.

Lemma request_handler_ok r : keeps_inv content_ok (Store := Store) (request_handler r).
Proof. destruct r; simpl; solve_keeps_inv. Qed.

(** One step of a session: the event's handler, or an answer's
    continuation, keeps [#content] to one message or cards only. *)
Lemma admin_step_ok (p p' : admin_page (Store := Store)) ev :
  content_ok (ap_world p) -> admin_step e p ev = Some p' -> content_ok (ap_world p').
Proof.
  intros Hw Hs. destruct ev; simpl in Hs; repeat case_match; simplify_eq/=.
  1,2: apply (fire_ind (fun q => content_ok (ap_world q))); [|done];
       intros q Hq; unfold on_filter_event; destruct (read_filters _) as [[[]]|]; [done|];
       destruct (run_async e (throw null_value_error) (ap_world q)) as [w' rs] eqn:Hr;
       exact (run_async_ok _ _ _ _ (keeps_throw _ _) Hq Hr).
  1: by eapply run_async_ok; [apply request_handler_ok | | eassumption].
  all: match goal with Hst : adminAddDoctor_start ?a ?b ?c ?d ?f ?g _ _ = _ |- _ =>
         pose proof (adminAddDoctor_start_ok a b c d f g e _ Hw) as Hw'; by rewrite Hst in Hw' end.
Qed.

Lemma admin_reach_listeners (p : admin_page (Store := Store)) :
  admin_reach e p -> ap_listeners p = filter_listeners (ap_controls p).
Proof.
  induction 1 as [w c Hw|p ev p' _ IH Hs]; [done|].
  destruct ev; simpl in Hs; repeat case_match; simplify_eq/=; try done.
  all: apply fire_ind; [intros q; by rewrite (proj1 (on_filter_event_frame q)), (proj2 (on_filter_event_frame q))|].
  all: simpl; by rewrite ?filter_listeners_set.
Qed.

(** When the list of doctors arrives, the reload's continuation shows
    exactly the listed doctors and starts nothing more. *)
Lemma run_async_load (w : world Store) r ps ds :
  server e (doctors_request (api_base e)) = Responded r -> ok r = true -> resp_body r = BodyJson (JObj ps) ->
  assoc_get "doctors" ps = Some (JArr ds) -> ds <> [] -> forallb listable ds = true ->
  exists w', run_async e (request_handler ReqLoad) w = (w', []) /\ shown_names w' = map card_title ds.
Proof.
  intros Hs Hok Hb Hd Hne Hall.
  destruct (loadDoctorCards_lists e w r ps ds Hs Hok Hb Hd Hne Hall) as (w' & Hl & Hn).
  exists w'. split; [|done]. apply run_async_normal. simpl. by rewrite (bind_normal _ _ _ _ _ _ Hl).
Qed.

(** C32: every page a session reaches, whatever the user types, submits
    or deletes and in whatever order the server answers, keeps
    [#content] well formed and showing one message or cards only:
    never a message beside cards, never the cards of two renders. *)
Theorem admin_reach_inv (p : admin_page (Store := Store)) : admin_reach e p -> content_ok (ap_world p).
Proof.
  induction 1 as [w c Hw|p ev p' _ IH Hs]; [by apply attachAddDocListener_ok|].
  by eapply admin_step_ok.
Qed.

(** C33: with all three controls on the page, [input] on the search bar
    sends one filter request with the new text and the dropdowns'
    current values; [input] on a dropdown only changes its value and
    sends nothing; [change] on a dropdown sends one request with the
    current values; [change] on the search bar does nothing. *)
Theorem filter_events_query (p : admin_page (Store := Store)) n t s v :
  admin_reach e p -> ap_controls p = mkControls (Some n) (Some t) (Some s) ->
  admin_step e p (InputEvent SearchBar v)
  = Some (mkAdminPage (ap_world p) (mkControls (Some v) (Some t) (Some s)) (ap_listeners p)
            (ap_pending p ++ [ReqFilter v t s]))
  /\ admin_step e p (InputEvent TimeFilter v)
     = Some (mkAdminPage (ap_world p) (mkControls (Some n) (Some v) (Some s)) (ap_listeners p) (ap_pending p))
  /\ admin_step e p (InputEvent SpecialtyFilter v)
     = Some (mkAdminPage (ap_world p) (mkControls (Some n) (Some t) (Some v)) (ap_listeners p) (ap_pending p))
  /\ admin_step e p (ChangeEvent SearchBar) = Some p
  /\ admin_step e p (ChangeEvent TimeFilter)
     = Some (mkAdminPage (ap_world p) (ap_controls p) (ap_listeners p) (ap_pending p ++ [ReqFilter n t s]))
  /\ admin_step e p (ChangeEvent SpecialtyFilter)
     = Some (mkAdminPage (ap_world p) (ap_controls p) (ap_listeners p) (ap_pending p ++ [ReqFilter n t s])).
Proof.
  intros Hr Hc. pose proof (admin_reach_listeners p Hr) as Hl.
  destruct p as [w c ls pend]; simpl in *. subst c ls. repeat split.
Qed.

(** C34: [onload] attaches the search bar's listener whenever the
    search bar exists, but the listener reads [timeFilter.value]
    unconditionally: on a page without the time dropdown every
    keystroke in the search bar rejects with a [TypeError], sends no
    request and leaves the cards as they were. *)
Theorem search_without_time_filter_rejects (p : admin_page (Store := Store)) n v :
  admin_reach e p -> fc_search (ap_controls p) = Some n -> fc_time (ap_controls p) = None ->
  exists p', admin_step e p (InputEvent SearchBar v) = Some p'
    /\ ap_pending p' = ap_pending p /\ w_content (ap_world p') = w_content (ap_world p)
    /\ w_trace (ap_world p')
       = (w_trace (ap_world p) ++ [EvConsoleError ("Uncaught " ++ exn_message null_value_error)])%list.
Proof.
  intros Hr Hs Ht. pose proof (admin_reach_listeners p Hr) as Hl.
  destruct p as [w [s0 t0 sp] ls pend]; simpl in *. subst s0 t0 ls.
  destruct sp; eexists; cbn; (split; [reflexivity|]); destruct w; repeat split.
Qed.

(** C35: nothing orders a load against the filters: whenever the answer
    to a [loadDoctorCards()] in flight arrives, the cards show every
    listed doctor, whatever the filter controls say and whatever a
    filter's answer showed before; the controls keep their values and
    only that request leaves the queue. *)
Theorem stale_load_overwrites_filter (p : admin_page (Store := Store)) k r ps ds :
  ap_pending p !! k = Some ReqLoad ->
  server e (doctors_request (api_base e)) = Responded r -> ok r = true -> resp_body r = BodyJson (JObj ps) ->
  assoc_get "doctors" ps = Some (JArr ds) -> ds <> [] -> forallb listable ds = true ->
  exists p', admin_step e p (Answer k) = Some p' /\ ap_controls p' = ap_controls p
    /\ ap_pending p' = delete k (ap_pending p) /\ shown_names (ap_world p') = map card_title ds.
Proof.
  intros Hk Hs Hok Hb Hd Hne Hall.
  destruct (run_async_load (ap_world p) r ps ds Hs Hok Hb Hd Hne Hall) as (w' & Hr & Hn).
  eexists. simpl. rewrite Hk, Hr. split; [reflexivity|]. simpl. by rewrite app_nil_r.
Qed.

(** C36: submitting the add-doctor form with a stored token sends the
    save; when the server accepts it, the answer alerts, closes the
    modal and starts [loadDoctorCards()] without awaiting it: the reload
    joins the end of the queue, and [#content] is untouched until its
    own answer arrives. *)
Theorem add_doctor_queues_reload (p : admin_page (Store := Store)) name email phone password specialty times t r ps m :
  getItem (w_store (ap_world p)) "token" = Some t -> t <> "" ->
  let req := mkRequest POST (save_url (api_base e) (JStr t))
               (Some (doctor_object name email phone password specialty (parse_times times))) in
  server e req = Responded r -> ok r = true -> resp_body r = BodyJson (JObj ps) ->
  assoc_get "message" ps = Some (JStr m) -> m <> "" ->
  run_admin e p [SubmitAddDoctor name email phone password specialty times; Answer (List.length (ap_pending p))]
  = Some (mkAdminPage
            (with_event EvCloseModal (with_event (EvAlert ("Success! " ++ m)) (with_event (EvFetch req) (ap_world p))))
            (ap_controls p) (ap_listeners p) (ap_pending p ++ [ReqLoad])).
Proof.
  intros Ht Hne req Hs Hok Hb Hm Hmne.
  destruct p as [w c ls pend]; simpl in *.
  rewrite (adminAddDoctor_start_token _ _ _ _ _ _ e w t Ht Hne). simpl.
  rewrite lookup_snoc by done. unfold run_async, settle, request_handler.
  rewrite (try_catch_bind_normal _ _ _ _ _ _ _ (adminAddDoctor_saved_accepted _ _ e w r ps m Hs Hok Hb Hm Hmne)).
  simpl. by rewrite delete_snoc.
Qed.

(** C37: adding a doctor drops whatever filter the page shows: once the
    save is accepted and the reload it starts is answered, the cards
    show every listed doctor while the filter controls keep their
    values, and the queue is back to what it was before the submit. *)
Theorem add_doctor_drops_filter (p : admin_page (Store := Store)) name email phone password specialty times
    t r ps m r' ps' ds :
  getItem (w_store (ap_world p)) "token" = Some t -> t <> "" ->
  let req := mkRequest POST (save_url (api_base e) (JStr t))
               (Some (doctor_object name email phone password specialty (parse_times times))) in
  server e req = Responded r -> ok r = true -> resp_body r = BodyJson (JObj ps) ->
  assoc_get "message" ps = Some (JStr m) -> m <> "" ->
  server e (doctors_request (api_base e)) = Responded r' -> ok r' = true -> resp_body r' = BodyJson (JObj ps') ->
  assoc_get "doctors" ps' = Some (JArr ds) -> ds <> [] -> forallb listable ds = true ->
  exists p', run_admin e p [SubmitAddDoctor name email phone password specialty times;
                            Answer (List.length (ap_pending p)); Answer (List.length (ap_pending p))] = Some p'
    /\ ap_controls p' = ap_controls p /\ ap_pending p' = ap_pending p
    /\ shown_names (ap_world p') = map card_title ds.
Proof.
  intros Ht Hne req Hs Hok Hb Hm Hmne Hs' Hok' Hb' Hd Hdne Hall.
  destruct p as [w c ls pend]; simpl in *.
  rewrite (adminAddDoctor_start_token _ _ _ _ _ _ e w t Ht Hne). simpl.
  rewrite lookup_snoc by done.
  assert (Hsave : exists w1, run_async e (request_handler
            (ReqSave (doctor_object name email phone password specialty (parse_times times)) t)) w = (w1, [ReqLoad])).
  { eexists. apply run_async_normal. simpl.
    by rewrite (bind_normal _ _ _ _ _ _ (adminAddDoctor_saved_accepted _ _ e w r ps m Hs Hok Hb Hm Hmne)). }
  destruct Hsave as [w1 Hsave]. rewrite Hsave. simpl. rewrite delete_snoc, lookup_snoc by done.
  destruct (run_async_load w1 r' ps' ds Hs' Hok' Hb' Hd Hdne Hall) as (w' & Hr & Hn).
  rewrite Hr. eexists. split; [reflexivity|]. simpl. by rewrite delete_snoc, app_nil_r.
Qed.
End Properties.

(** ** Witnesses *)

Definition doctor_bo : jsval :=
  JObj [("doctorId", JNum 8); ("name", JStr "Bo"); ("specialization", JStr "Dermatology");
        ("email", JStr "bo@example.com"); ("availableTimes", JArr [JStr "11:00-12:00"])].

Definition directory_answer : response :=
  mkResponse 200 (BodyJson (JObj [("doctors", JArr [doctor_ann; doctor_bo])])).

(** A server that accepts every save, lists Ann and Bo, and answers
    every filter with Bo. *)
Definition directory_server (r : request) : fetch_outcome :=
  match req_method r with
  | POST => Responded (mkResponse 201 (BodyJson (JObj [("message", JStr "Doctor added")])))
  | _ => if String.eqb (req_url r) (DOCTOR_API "http://localhost:8080")
         then Responded directory_answer
         else Responded (mkResponse 200 (BodyJson (JObj [("doctors", JArr [doctor_bo])])))
  end.

Definition directory_env : env := example_env "http://localhost:8080" directory_server.

Definition all_controls : filter_controls := mkControls (Some "") (Some "") (Some "").

Lemma admin_dashboard_page_ok : content_ok admin_dashboard_page.
Proof. split; [split; constructor | reflexivity]. Qed.

Definition onload_page : admin_page (Store := gmap string string) :=
  admin_onload directory_env admin_dashboard_page all_controls.

Lemma onload_page_reach : admin_reach directory_env onload_page.
Proof. apply areach_init, admin_dashboard_page_ok. Qed.

(** The admin has typed "Bo" and the filter was answered before the
    initial load: the page shows Bo alone, the load still in flight. *)
Definition filtered_page : admin_page (Store := gmap string string) :=
  default onload_page (run_admin directory_env onload_page [InputEvent SearchBar "Bo"; Answer 1]).

Lemma admin_reach_inv_witness : content_ok (ap_world onload_page).
Proof. apply (admin_reach_inv directory_env), onload_page_reach. Defined.

Lemma filter_events_query_witness :
  admin_step directory_env onload_page (InputEvent SearchBar "Bo")
  = Some (mkAdminPage (ap_world onload_page) (mkControls (Some "Bo") (Some "") (Some "")) (ap_listeners onload_page)
            (ap_pending onload_page ++ [ReqFilter "Bo" "" ""]))
  /\ admin_step directory_env onload_page (InputEvent TimeFilter "Bo")
     = Some (mkAdminPage (ap_world onload_page) (mkControls (Some "") (Some "Bo") (Some "")) (ap_listeners onload_page)
               (ap_pending onload_page))
  /\ admin_step directory_env onload_page (InputEvent SpecialtyFilter "Bo")
     = Some (mkAdminPage (ap_world onload_page) (mkControls (Some "") (Some "") (Some "Bo")) (ap_listeners onload_page)
               (ap_pending onload_page))
  /\ admin_step directory_env onload_page (ChangeEvent SearchBar) = Some onload_page
  /\ admin_step directory_env onload_page (ChangeEvent TimeFilter)
     = Some (mkAdminPage (ap_world onload_page) (ap_controls onload_page) (ap_listeners onload_page)
               (ap_pending onload_page ++ [ReqFilter "" "" ""]))
  /\ admin_step directory_env onload_page (ChangeEvent SpecialtyFilter)
     = Some (mkAdminPage (ap_world onload_page) (ap_controls onload_page) (ap_listeners onload_page)
               (ap_pending onload_page ++ [ReqFilter "" "" ""])).
Proof. apply (filter_events_query directory_env); [apply onload_page_reach | reflexivity]. Defined.

Lemma search_without_time_filter_rejects_witness :
  let p0 := admin_onload directory_env admin_dashboard_page (mkControls (Some "") None (Some "")) in
  exists p', admin_step directory_env p0 (InputEvent SearchBar "Bo") = Some p'
    /\ ap_pending p' = ap_pending p0 /\ w_content (ap_world p') = w_content (ap_world p0)
    /\ w_trace (ap_world p')
       = (w_trace (ap_world p0) ++ [EvConsoleError ("Uncaught " ++ exn_message null_value_error)])%list.
Proof.
  apply (search_without_time_filter_rejects directory_env _ "");
    [apply areach_init, admin_dashboard_page_ok | reflexivity | reflexivity].
Defined.

Lemma stale_load_overwrites_filter_witness :
  shown_names (ap_world filtered_page) = ["Bo"] /\ fc_search (ap_controls filtered_page) = Some "Bo"
  /\ exists p', admin_step directory_env filtered_page (Answer 0) = Some p'
       /\ ap_controls p' = ap_controls filtered_page
       /\ ap_pending p' = delete 0 (ap_pending filtered_page) /\ shown_names (ap_world p') = ["Ann"; "Bo"].
Proof.
  split; [vm_compute; reflexivity|]. split; [vm_compute; reflexivity|].
  apply (stale_load_overwrites_filter directory_env filtered_page 0 directory_answer
           [("doctors", JArr [doctor_ann; doctor_bo])] [doctor_ann; doctor_bo]);
    first [vm_compute; reflexivity | discriminate].
Defined.

Lemma add_doctor_queues_reload_witness :
  let req := mkRequest POST (save_url (api_base directory_env) (JStr "jwt"))
               (Some (doctor_object "Cy" "cy@example.com" "555" "pw" "Cardiology" (parse_times "09:00"))) in
  run_admin directory_env onload_page [SubmitAddDoctor "Cy" "cy@example.com" "555" "pw" "Cardiology" "09:00";
                  Answer (List.length (ap_pending onload_page))]
  = Some (mkAdminPage
            (with_event EvCloseModal (with_event (EvAlert ("Success! " ++ "Doctor added"))
               (with_event (EvFetch req) (ap_world onload_page))))
            (ap_controls onload_page) (ap_listeners onload_page) (ap_pending onload_page ++ [ReqLoad])).
Proof.
  intros req.
  apply (add_doctor_queues_reload directory_env onload_page _ _ _ _ _ _ "jwt"
           (mkResponse 201 (BodyJson (JObj [("message", JStr "Doctor added")])))
           [("message", JStr "Doctor added")] "Doctor added");
    first [reflexivity | discriminate].
Defined.

Lemma add_doctor_drops_filter_witness :
  let p1 := default filtered_page (run_admin directory_env filtered_page [Answer 0]) in
  shown_names (ap_world p1) = ["Ann"; "Bo"] /\
  let p2 := default p1 (run_admin directory_env p1 [InputEvent SearchBar "Bo"; Answer 0]) in
  shown_names (ap_world p2) = ["Bo"] /\ fc_search (ap_controls p2) = Some "Bo"
  /\ exists p', run_admin directory_env p2 [SubmitAddDoctor "Cy" "cy@example.com" "555" "pw" "Cardiology" "09:00";
                                           Answer (List.length (ap_pending p2)); Answer (List.length (ap_pending p2))]
                = Some p'
       /\ ap_controls p' = ap_controls p2 /\ ap_pending p' = ap_pending p2 /\ shown_names (ap_world p') = ["Ann"; "Bo"].
Proof.
  split; [vm_compute; reflexivity|]. intros p2. split; [vm_compute; reflexivity|]. split; [vm_compute; reflexivity|].
  apply (add_doctor_drops_filter directory_env p2 _ _ _ _ _ _ "jwt"
           (mkResponse 201 (BodyJson (JObj [("message", JStr "Doctor added")])))
           [("message", JStr "Doctor added")] "Doctor added" directory_answer
           [("doctors", JArr [doctor_ann; doctor_bo])] [doctor_ann; doctor_bo]);
    first [vm_compute; reflexivity | discriminate].
Defined.
