(* ===== verification/DoctorDashboard.v ===== *)
(** doctorDashboard.js: the doctor's appointment table. The module's
    top-level [const]s and [let]s are the record [dashboard];
    [loadAppointments] is split at its [await] into [load_start] (token
    check, loading row, the query) and [load_finish] (the continuation,
    which reads the module state current when the answer arrives). A
    page is the dashboard, the browser world and the queue of queries in
    flight; [dash_step] runs one event, and [Resolve i] lets the network
    answer the i-th query in flight, so every order of answers is a run.
    [getAllAppointments] (appointmentServices.js, not in the repository)
    is a section parameter: the settled value of its promise for each
    query. *)
From S2P Require Import Prelude JsValue JsString Storage Dom Client.

(** The arguments of one [getAllAppointments(doctorId, selectedDate,
    patientName, token)] call. *)
Record query : Type := mkQuery {
  q_doctorId : option string;
  q_date : string;
  q_patientName : option string;
  q_token : string
}.

(** [#datePicker]: its [value] and [max]. *)
Record date_picker : Type := mkDatePicker { dp_value : string; dp_max : string }.

(** The module's state: [doctorId] and [token] read once from
    [localStorage] when the module runs, [today], the [let]s
    [selectedDate] and [patientName], and the elements found. *)
Record dashboard : Type := mkDashboard {
  d_doctorId : option string;
  d_today : string;
  d_selectedDate : string;
  d_token : option string;
  d_patientName : option string;
  d_datePicker : option date_picker;
  d_searchBar : bool;
  d_todayButton : bool
}.

Definition set_selectedDate (v : string) (d : dashboard) : dashboard :=
  mkDashboard (d_doctorId d) (d_today d) v (d_token d) (d_patientName d) (d_datePicker d)
    (d_searchBar d) (d_todayButton d).
Definition set_patientName (n : option string) (d : dashboard) : dashboard :=
  mkDashboard (d_doctorId d) (d_today d) (d_selectedDate d) (d_token d) n (d_datePicker d)
    (d_searchBar d) (d_todayButton d).
(** [datePicker.value = v], when the element exists. *)
Definition set_picker_value (v : string) (d : dashboard) : dashboard :=
  mkDashboard (d_doctorId d) (d_today d) (d_selectedDate d) (d_token d) (d_patientName d)
    (option_map (fun dp => mkDatePicker v (dp_max dp)) (d_datePicker d)) (d_searchBar d) (d_todayButton d).

(** The module body up to the listeners: [today] is
    [new Date().toISOString().slice(0, 10)], a parameter here. *)
Definition dashboard_init {Store} `{!WebStorage Store} (s : Store) (today : string)
    (searchBar todayButton datePicker : bool) : dashboard :=
  let doctorId := getItem s "doctorId" in
  let selectedDate := today in
  let token := getItem s "token" in
  mkDashboard doctorId today selectedDate token None
    (if datePicker then Some (mkDatePicker selectedDate today) else None) searchBar todayButton.

Definition query_of (d : dashboard) (t : string) : query :=
  mkQuery (d_doctorId d) (d_selectedDate d) (d_patientName d) t.

Definition token_row : table_row :=
  RowMessage "" "Authentication token missing. Please log in again.".
Definition loading_row : table_row := RowMessage "" "Loading appointments...".
Definition error_row : table_row :=
  RowMessage "noPatientRecord error" "Error loading appointments. Try again later.".

(** [selectedDate === today ? "today" : selectedDate]. *)
Definition date_display (d : dashboard) : string :=
  if String.eqb (d_selectedDate d) (d_today d) then "today" else d_selectedDate d.

Definition no_appointments_row (d : dashboard) : table_row :=
  RowMessage "noPatientRecord" ("No appointments found for " ++ date_display d ++ ".").

(** [v === 0] for the value of a [length] read. *)
Definition strict_zero (v : jsval) : bool :=
  match v with JNum n => Z.eqb n 0 | _ => false end.

(** [searchBar.value.trim()], then [searchValue || null]. *)
Definition search_filter (value : string) : option string :=
  let searchValue := trim value in
  if String.eqb searchValue "" then None else Some searchValue.

(** The token when [!token] is false. *)
Definition live_token (d : dashboard) : option string :=
  match d_token d with Some t => if String.eqb t "" then None else Some t | None => None end.

Section Dashboard.
Context {Store : Type} `{!WebStorage Store}.

Definition set_table (rows : list table_row) : M Store unit := modify (with_table rows).

(** [patientTableBody.appendChild(row)]. *)
Definition append_row (r : table_row) : M Store unit :=
  modify (fun w => with_table (w_table w ++ [r]) w).

(** [await p]: the settled value, or the rejection thrown. *)
Definition await_result {A} (c : completion A) : M Store A :=
  match c with Normal a => ret a | Thrown x => throw x end.

(** The [patient] object built from one appointment. *)
Definition patient_of (appt : jsval) : M Store jsval :=
  id <- prop appt "patientId" ;;
  name <- prop appt "patientName" ;;
  phone <- prop appt "patientPhone" ;;
  email <- prop appt "patientEmail" ;;
  link <- prop appt "prescriptionLink" ;;
  ret (JObj [("id", id); ("name", name); ("phone", phone); ("email", email);
             ("prescriptionLink", js_or link (JStr "#"))]).

(** [appointments.forEach(appt => ...)] on a truthy value: only arrays
    have [forEach]; [createPatientRow(patient)] (patientRowComponent.js)
    is the row [RowPatient patient]. *)
Definition render_rows (appointments : jsval) : M Store unit :=
  match appointments with
  | JArr appts => for_each (fun appt => patient <- patient_of appt ;; append_row (RowPatient patient)) appts
  | _ => throw (mkExn TypeError "appointments.forEach is not a function")
  end.

(** [loadAppointments] up to its [await]: [None] when it returns early. *)
Definition load_start (d : dashboard) : M Store (option query) :=
  match d_token d with
  | Some t =>
      if String.eqb t "" then set_table [token_row] ;; ret None
      else set_table [loading_row] ;; ret (Some (query_of d t))
  | None => set_table [token_row] ;; ret None
  end.

(** [loadAppointments] after its [await], with the module state [d] of
    the moment the answer [res] arrives. *)
Definition load_finish (d : dashboard) (res : completion jsval) : M Store unit :=
  try_catch
    (appointments <- await_result res ;;
     set_table [] ;;
     empty <- (if negb (truthy appointments) then ret true
               else len <- prop appointments "length" ;; ret (strict_zero len)) ;;
     if empty then set_table [no_appointments_row d]
     else render_rows appointments)
    (fun _ =>
       console_error "Error loading appointments:" ;;
       set_table [error_row]).
End Dashboard.

(** ** The page: listeners and the answers of the network *)

(** The search bar's [input] listener (lines 93-107) before its call. *)
Definition on_search_input (value : string) (d : dashboard) : dashboard :=
  set_patientName (search_filter value) d.

(** The Today button's [click] listener before its call. *)
Definition on_today_click (d : dashboard) : dashboard :=
  let d1 := set_selectedDate (d_today d) d in
  set_picker_value (d_selectedDate d1) d1.

(** The date picker's [change] listener; the browser has already set the
    picker's value to [event.target.value]. *)
Definition on_date_change (value : string) (d : dashboard) : dashboard :=
  set_selectedDate value (set_picker_value value d).

Inductive dash_event : Type :=
| SearchInput (value : string)
| TodayClick
| DateChange (value : string)
| DOMContentLoaded
| Resolve (i : nat).

Section Page.
Context {Store : Type} `{!WebStorage Store}.
Variable e : env.
Variable getAllAppointments : query -> completion jsval.

Record page : Type := mkPage {
  pg_dash : dashboard;
  pg_world : world Store;
  pg_pending : list query;       (** the [getAllAppointments] calls in flight *)
  pg_loaded : bool               (** DOMContentLoaded has fired *)
}.

Definition with_dash (d : dashboard) (p : page) : page :=
  mkPage d (pg_world p) (pg_pending p) (pg_loaded p).

(** A call [loadAppointments()] that is not awaited: its synchronous
    part runs, and its query joins the ones in flight. *)
Definition loadAppointments (p : page) : page :=
  match load_start (pg_dash p) e (pg_world p) with
  | (Normal (Some q), w') => mkPage (pg_dash p) w' (pg_pending p ++ [q]) (pg_loaded p)
  | (_, w') => mkPage (pg_dash p) w' (pg_pending p) (pg_loaded p)
  end.

(** The DOMContentLoaded listener before its call. *)
Definition on_dom_loaded (p : page) : page :=
  let w' := snd (if_global "renderContent" (emit EvRenderContent) (ret tt) e (pg_world p)) in
  mkPage (pg_dash p) w' (pg_pending p) true.

(** One event; [None] when it cannot happen (no such element, a second
    DOMContentLoaded, no i-th query in flight). *)
Definition dash_step (p : page) (ev : dash_event) : option page :=
  let d := pg_dash p in
  match ev with
  | SearchInput v => if d_searchBar d then Some (loadAppointments (with_dash (on_search_input v d) p)) else None
  | TodayClick => if d_todayButton d then Some (loadAppointments (with_dash (on_today_click d) p)) else None
  | DateChange v =>
      match d_datePicker d with
      | Some _ => Some (loadAppointments (with_dash (on_date_change v d) p))
      | None => None
      end
  | DOMContentLoaded => if pg_loaded p then None else Some (loadAppointments (on_dom_loaded p))
  | Resolve i =>
      match pg_pending p !! i with
      | Some q =>
          Some (mkPage d (snd (load_finish d (getAllAppointments q) e (pg_world p)))
                  (delete i (pg_pending p)) (pg_loaded p))
      | None => None
      end
  end.

Fixpoint run_events (p : page) (evs : list dash_event) : option page :=
  match evs with
  | [] => Some p
  | ev :: evs' => match dash_step p ev with Some p' => run_events p' evs' | None => None end
  end.

(** The page after the module has run, on a document whose table is
    empty. *)
Definition page_init (w : world Store) (today : string) (searchBar todayButton datePicker : bool) : page :=
  mkPage (dashboard_init (w_store w) today searchBar todayButton datePicker) w [] false.

Inductive dash_reach : page -> Prop :=
| reach_init w today sb tb dp :
    w_table w = [] -> dash_reach (page_init w today sb tb dp)
| reach_step p ev p' :
    dash_reach p -> dash_step p ev = Some p' -> dash_reach p'.
End Page.

Arguments mkPage {Store} _ _ _ _.

(** ** What the table can show *)

Definition is_patient_row (r : table_row) : bool :=
  match r with RowPatient _ => true | RowMessage _ _ => false end.

(** The table shows one message row, or patient rows only. *)
Definition table_ok (t : list table_row) : bool :=
  match t with [RowMessage _ _] => true | _ => forallb is_patient_row t end.

(** The tables [load_finish] can leave with the module state [d]. *)
Definition finish_shape (d : dashboard) (t : list table_row) : Prop :=
  t = [error_row] \/ t = [no_appointments_row d] \/ forallb is_patient_row t = true.

(** ** Runs of [loadAppointments] *)

Section Runs.
Context {Store : Type} `{!WebStorage Store}.

Lemma with_table_eta (w : world Store) : with_table (w_table w) w = w.
Proof. by destruct w. Qed.

Lemma with_table_twice t1 t2 (w : world Store) : with_table t1 (with_table t2 w) = with_table t1 w.
Proof. reflexivity. Qed.

(** Building the patient object reads only the appointment. *)
Lemma patient_of_pure appt : exists c, forall e (w : world Store), patient_of appt e w = (c, w).
Proof. unfold patient_of. unfold_client. destruct appt; simpl; eexists; intros; reflexivity. Qed.

(** Rendering appends the same rows, patient rows only, from every
    world, and stops at the same place. *)
Lemma render_rows_run v :
  exists c r, forallb is_patient_row r = true
    /\ forall e (w : world Store), render_rows v e w = (c, with_table (w_table w ++ r) w).
Proof.
  destruct v as [| | | | |vs|];
    try (eexists _, []; split; [done | intros; by rewrite app_nil_r, with_table_eta]).
  unfold render_rows. induction vs as [|a vs IH].
  - exists (Normal tt), []. split; [done|]. intros. by rewrite app_nil_r, with_table_eta.
  - destruct (patient_of_pure a) as [c0 Hc]. destruct c0 as [pt|x].
    + destruct IH as (c & r & Hr & Hrun). exists c, (RowPatient pt :: r). split; [done|].
      intros e w. simpl. unfold bind at 1. unfold bind at 1. rewrite Hc. simpl.
      rewrite Hrun. simpl. by rewrite <- app_assoc.
    + exists (Thrown x), []. split; [done|]. intros e w. simpl. unfold bind at 1. unfold bind at 1.
      rewrite Hc. by rewrite app_nil_r, with_table_eta.
Qed.

(** The continuation always completes, and what it leaves in the table
    depends on the module state and the answer only. *)
Lemma load_finish_run d res :
  exists t evs, finish_shape d t
    /\ forall e (w : world Store), load_finish d res e w = (Normal tt, with_table t (extend_trace w evs)).
Proof.
  destruct (render_rows_run (match res with Normal v => v | Thrown _ => JUndefined end))
    as (c & r & Hr & Hrun).
  destruct res as [v|x].
  2: { exists [error_row], [EvConsoleError "Error loading appointments:"]. split; [by left|]. done. }
  unfold load_finish, set_table. unfold_client. simpl.
  destruct (truthy v) eqn:Ht; simpl.
  2: { exists [no_appointments_row d], []. split; [by right; left|]. intros ? []. simpl. by rewrite app_nil_r. }
  destruct (get_prop v "length") as [len|] eqn:Hl; simpl.
  2: { exists [error_row], [EvConsoleError "Error loading appointments:"]. split; [by left|]. done. }
  destruct (strict_zero len); simpl.
  { exists [no_appointments_row d], []. split; [by right; left|]. intros ? []. simpl. by rewrite app_nil_r. }
  destruct c as [[]|x].
  - exists r, []. split; [by right; right|]. intros ? w. rewrite Hrun. destruct w. simpl. by rewrite !app_nil_r.
  - exists [error_row], [EvConsoleError "Error loading appointments:"]. split; [by left|].
    intros. by rewrite Hrun.
Qed.
End Runs.

Section PageRuns.
Context {Store : Type} `{!WebStorage Store}.
Variable e : env.
Variable getAllAppointments : query -> completion jsval.

Lemma load_start_run d (w : world Store) :
  load_start d e w
  = match live_token d with
    | Some t => (Normal (Some (query_of d t)), with_table [loading_row] w)
    | None => (Normal None, with_table [token_row] w)
    end.
Proof. unfold load_start, live_token, set_table. destruct (d_token d) as [t|]; [destruct (String.eqb t "")|]; done. Qed.

Lemma loadAppointments_run (p : page (Store := Store)) :
  loadAppointments e p
  = match live_token (pg_dash p) with
    | Some t => mkPage (pg_dash p) (with_table [loading_row] (pg_world p))
                  (pg_pending p ++ [query_of (pg_dash p) t]) (pg_loaded p)
    | None => mkPage (pg_dash p) (with_table [token_row] (pg_world p)) (pg_pending p) (pg_loaded p)
    end.
Proof. unfold loadAppointments. rewrite load_start_run. by destruct (live_token (pg_dash p)). Qed.

Lemma resolve_run (p : page (Store := Store)) i q :
  pg_pending p !! i = Some q ->
  exists t evs, finish_shape (pg_dash p) t
    /\ dash_step e getAllAppointments p (Resolve i)
       = Some (mkPage (pg_dash p) (with_table t (extend_trace (pg_world p) evs)) (delete i (pg_pending p)) (pg_loaded p)).
Proof.
  intros Hq. destruct (load_finish_run (Store := Store) (pg_dash p) (getAllAppointments q)) as (t & evs & Hs & Hrun).
  exists t, evs. split; [done|]. simpl. by rewrite Hq, Hrun.
Qed.

(** The listeners change neither the token nor the elements. *)
Lemma live_token_listeners d v :
  live_token (on_search_input v d) = live_token d /\ live_token (on_today_click d) = live_token d
  /\ live_token (on_date_change v d) = live_token d.
Proof. by destruct d. Qed.

Lemma finish_shape_ok d t : finish_shape d t -> table_ok t = true.
Proof. intros [->|[->|Ht]]; [done|done|]. destruct t as [|[] [|]]; done. Qed.

(** The invariant of every reachable page: the table is well formed,
    and without a token nothing is in flight and the table shows at most
    the token row. *)
Definition dash_inv (p : page (Store := Store)) : Prop :=
  table_ok (w_table (pg_world p)) = true
  /\ (live_token (pg_dash p) = None ->
      pg_pending p = [] /\ (w_table (pg_world p) = [] \/ w_table (pg_world p) = [token_row])).

Lemma loadAppointments_inv (p : page (Store := Store)) :
  (live_token (pg_dash p) = None -> pg_pending p = []) -> dash_inv (loadAppointments e p).
Proof.
  intros Hp. rewrite loadAppointments_run. unfold dash_inv.
  destruct (live_token (pg_dash p)) eqn:Ht; simpl; rewrite ?Ht; [split; [done | discriminate]|].
  split; [done|]. intros _. split; [by apply Hp | by right].
Qed.

Lemma dash_step_inv p ev p' :
  dash_inv p -> dash_step e getAllAppointments p ev = Some p' -> dash_inv p'.
Proof.
  intros [Hok Hnt] Hs. pose proof (live_token_listeners (pg_dash p)) as Hl.
  destruct ev as [v| |v| |i]; simpl in Hs.
  - destruct (d_searchBar (pg_dash p)); simplify_eq. apply loadAppointments_inv. simpl.
    rewrite (proj1 (Hl v)). intros H'. by apply Hnt.
  - destruct (d_todayButton (pg_dash p)); simplify_eq. apply loadAppointments_inv. simpl.
    rewrite (proj1 (proj2 (Hl ""))). intros H'. by apply Hnt.
  - destruct (d_datePicker (pg_dash p)); simplify_eq. apply loadAppointments_inv. simpl.
    rewrite (proj2 (proj2 (Hl v))). intros H'. by apply Hnt.
  - destruct (pg_loaded p); simplify_eq. apply loadAppointments_inv. simpl. intros H'. by apply Hnt.
  - destruct (pg_pending p !! i) as [q|] eqn:Hq; [|done].
    destruct (load_finish_run (Store := Store) (pg_dash p) (getAllAppointments q)) as (t & evs & Hsh & Hr).
    rewrite Hr in Hs. simplify_eq.
    split; [by apply (finish_shape_ok (pg_dash p))|]. simpl. intros Hn.
    destruct (Hnt Hn) as [Hnil _]. by rewrite Hnil in Hq.
Qed.

Lemma dash_reach_inv p : dash_reach e getAllAppointments p -> dash_inv p.
Proof.
  induction 1 as [w today sb tb dp Hw|p ev p' _ IH Hs].
  - split; simpl; rewrite Hw; [done|]. intros _. split; [done | by left].
  - by apply (dash_step_inv p ev).
Qed.

Lemma run_events_reach p evs p' :
  dash_reach e getAllAppointments p -> run_events e getAllAppointments p evs = Some p' ->
  dash_reach e getAllAppointments p'.
Proof.
  revert p. induction evs as [|ev evs IH]; simpl; intros p Hp Hr; [by simplify_eq|].
  destruct (dash_step e getAllAppointments p ev) as [p1|] eqn:Hs; [|done].
  apply (IH p1); [by apply (reach_step _ _ p ev) | done].
Qed.
End PageRuns.

(** ** Properties *)

Section Properties.
Context {Store : Type} `{!WebStorage Store}.
Variable e : env.
Variable getAllAppointments : query -> completion jsval.

Lemma live_token_some d t : d_token d = Some t -> t <> "" -> live_token d = Some t.
Proof. intros Ht Hne. unfold live_token. rewrite Ht. by rewrite streqb_false. Qed.

(** The world after a continuation, whatever the world before. *)
Lemma run_events_cons (p p1 : page (Store := Store)) ev evs :
  dash_step e getAllAppointments p ev = Some p1 ->
  run_events e getAllAppointments p (ev :: evs) = run_events e getAllAppointments p1 evs.
Proof. simpl. by intros ->. Qed.

(** A load triggered with a token shows the loading row and puts its
    query in flight. *)
Definition loading_page (d : dashboard) (p : page (Store := Store)) (t : string) : page :=
  mkPage d (with_table [loading_row] (pg_world p)) (pg_pending p ++ [query_of d t]) (pg_loaded p).

Lemma step_search (p : page (Store := Store)) v t :
  d_searchBar (pg_dash p) = true -> live_token (pg_dash p) = Some t ->
  dash_step e getAllAppointments p (SearchInput v) = Some (loading_page (on_search_input v (pg_dash p)) p t).
Proof.
  intros Hs Ht. unfold dash_step. rewrite Hs, loadAppointments_run. simpl pg_dash.
  by rewrite (proj1 (live_token_listeners _ v)), Ht.
Qed.

Lemma step_today (p : page (Store := Store)) t :
  d_todayButton (pg_dash p) = true -> live_token (pg_dash p) = Some t ->
  dash_step e getAllAppointments p TodayClick = Some (loading_page (on_today_click (pg_dash p)) p t).
Proof.
  intros Hs Ht. unfold dash_step. rewrite Hs, loadAppointments_run. simpl pg_dash.
  by rewrite (proj1 (proj2 (live_token_listeners _ ""))), Ht.
Qed.

Lemma step_date (p : page (Store := Store)) v dp t :
  d_datePicker (pg_dash p) = Some dp -> live_token (pg_dash p) = Some t ->
  dash_step e getAllAppointments p (DateChange v) = Some (loading_page (on_date_change v (pg_dash p)) p t).
Proof.
  intros Hs Ht. unfold dash_step. rewrite Hs, loadAppointments_run. simpl pg_dash.
  by rewrite (proj2 (proj2 (live_token_listeners _ v))), Ht.
Qed.

Lemma step_resolve (p : page (Store := Store)) i q :
  pg_pending p !! i = Some q ->
  dash_step e getAllAppointments p (Resolve i)
  = Some (mkPage (pg_dash p) (snd (load_finish (pg_dash p) (getAllAppointments q) e (pg_world p)))
            (delete i (pg_pending p)) (pg_loaded p)).
Proof. simpl. by intros ->. Qed.

Lemma finish_shape_not_loading d t : finish_shape d t -> t <> [loading_row].
Proof. intros [->|[->|Ht]] Hl; [done|done|]. by rewrite Hl in Ht. Qed.

(** Answering the oldest query [n] times, when [n] are in flight. *)
Lemma resolve_all_run n (p : page (Store := Store)) :
  List.length (pg_pending p) = n ->
  exists p', run_events e getAllAppointments p (repeat (Resolve 0) n) = Some p'
    /\ pg_pending p' = [] /\ pg_dash p' = pg_dash p
    /\ (n <> 0%nat -> finish_shape (pg_dash p) (w_table (pg_world p'))).
Proof.
  revert p. induction n as [|n IH]; intros p Hn.
  - exists p. destruct (pg_pending p); [|done]. repeat split; done.
  - destruct (pg_pending p) as [|q rest] eqn:Hp; [done|]. simpl in Hn.
    destruct (load_finish_run (Store := Store) (pg_dash p) (getAllAppointments q)) as (t & evs & Hs & Hr).
    simpl repeat. erewrite run_events_cons by (apply step_resolve; by rewrite Hp).
    rewrite Hr, Hp. simpl delete.
    destruct (IH (mkPage (pg_dash p) (with_table t (extend_trace (pg_world p) evs)) rest (pg_loaded p)))
      as (p' & Hrun & Hnil & Hd & Hsh); [simpl; lia|].
    exists p'. simpl in Hd. repeat split; [done|done|done|]. intros _.
    destruct n as [|n]; [|by apply Hsh]. simpl in Hrun. by simplify_eq.
Qed.

Lemma load_finish_table d res (w w0 : world Store) :
  w_table (snd (load_finish d res e w)) = w_table (snd (load_finish d res e w0)).
Proof. destruct (load_finish_run (Store := Store) d res) as (t & evs & _ & Hr). by rewrite !Hr. Qed.

(** C24: the stale-response race. Two keystrokes issue two queries;
    when the answer to the first arrives last, the table shows that
    stale answer (exactly what the first query alone would show) while
    the search bar holds the second filter. *)
Theorem stale_response_shown (p : page (Store := Store)) v1 v2 t :
  d_searchBar (pg_dash p) = true -> d_token (pg_dash p) = Some t -> t <> "" ->
  let n := List.length (pg_pending p) in
  let q1 := query_of (on_search_input v1 (pg_dash p)) t in
  exists p', run_events e getAllAppointments p
               [SearchInput v1; SearchInput v2; Resolve (Datatypes.S n); Resolve n] = Some p'
    /\ pg_pending p' = pg_pending p
    /\ d_patientName (pg_dash p') = search_filter v2 /\ q_patientName q1 = search_filter v1
    /\ forall w0 : world Store,
         w_table (pg_world p') = w_table (snd (load_finish (pg_dash p') (getAllAppointments q1) e w0)).
Proof.
  intros Hsb Ht Hne n q1. pose proof (live_token_some _ _ Ht Hne) as Hlt.
  erewrite run_events_cons by (apply step_search; [exact Hsb | exact Hlt]).
  erewrite run_events_cons by (apply step_search; [exact Hsb | exact Hlt]).
  unfold loading_page; simpl pg_pending; simpl pg_dash.
  erewrite run_events_cons by (apply step_resolve; apply lookup_snoc; rewrite length_app; simpl; unfold n; lia).
  cbn [pg_dash pg_world pg_pending pg_loaded].
  rewrite (delete_snoc _ _ (Datatypes.S n)) by (rewrite length_app; simpl; unfold n; lia).
  erewrite run_events_cons by (apply step_resolve; by apply lookup_snoc).
  cbn [run_events pg_dash pg_world pg_pending pg_loaded].
  eexists; split; [reflexivity|]. rewrite (delete_snoc _ _ n) by done.
  do 3 (split; [done|]). intros w0. apply load_finish_table.
Qed.

(** C25: in every reachable page the table shows a single message row
    or patient rows only: a loading, error or empty message never sits
    beside rows, and rows of two answers never mix, whatever the order
    in which answers arrive. *)
Theorem reachable_table_ok (p : page (Store := Store)) :
  dash_reach e getAllAppointments p -> table_ok (w_table (pg_world p)) = true.
Proof. intros Hr. apply (dash_reach_inv e getAllAppointments p Hr). Qed.

(** C26: without a token no [getAllAppointments] call is ever in flight,
    and the table shows nothing or the token-missing row, in every
    reachable page. *)
Theorem no_token_no_query (p : page (Store := Store)) :
  dash_reach e getAllAppointments p -> item_falsy (d_token (pg_dash p)) = true ->
  pg_pending p = [] /\ (w_table (pg_world p) = [] \/ w_table (pg_world p) = [token_row]).
Proof.
  intros Hr Hf. apply (dash_reach_inv e getAllAppointments p Hr).
  unfold live_token. destruct (d_token (pg_dash p)) as [t|]; simpl in Hf; [by rewrite Hf|done].
Qed.

(** each keystroke in the search bar shows the loading row and
    issues one query with the current date and the trimmed name, or
    [null] when the trimmed value is empty. *)
Theorem search_input_issues_query (p : page (Store := Store)) v t :
  d_searchBar (pg_dash p) = true -> d_token (pg_dash p) = Some t -> t <> "" ->
  exists p', dash_step e getAllAppointments p (SearchInput v) = Some p'
    /\ pg_pending p' = (pg_pending p
         ++ [mkQuery (d_doctorId (pg_dash p)) (d_selectedDate (pg_dash p))
               (if String.eqb (trim v) "" then None else Some (trim v)) t])%list
    /\ w_table (pg_world p') = [loading_row]
    /\ w_trace (pg_world p') = w_trace (pg_world p).
Proof.
  intros Hsb Ht Hne. eexists. split; [exact (step_search p v t Hsb (live_token_some _ _ Ht Hne))|]. done.
Qed.

(** C27: the empty-answer message names the date selected when the
    answer arrives, not the date asked: after a date change and a click
    on Today, an empty answer to the earlier date's query reads
    "No appointments found for today.". *)
Theorem stale_date_message (p : page (Store := Store)) d1 dp t :
  d_datePicker (pg_dash p) = Some dp -> d_todayButton (pg_dash p) = true ->
  d_token (pg_dash p) = Some t -> t <> "" ->
  let q := query_of (on_date_change d1 (pg_dash p)) t in
  getAllAppointments q = Normal (JArr []) ->
  exists p', run_events e getAllAppointments p [DateChange d1; TodayClick; Resolve (List.length (pg_pending p))] = Some p'
    /\ q_date q = d1
    /\ w_table (pg_world p') = [RowMessage "noPatientRecord" "No appointments found for today."].
Proof.
  intros Hdp Htb Ht Hne q Hq. pose proof (live_token_some _ _ Ht Hne) as Hlt.
  erewrite run_events_cons by (apply (step_date _ _ dp); [exact Hdp | exact Hlt]).
  erewrite run_events_cons by (apply step_today; [exact Htb | exact Hlt]).
  unfold loading_page. cbn [pg_dash pg_world pg_pending pg_loaded].
  erewrite run_events_cons by (apply step_resolve; rewrite <- app_assoc; by apply list_lookup_middle).
  cbn [run_events pg_dash pg_world pg_pending pg_loaded]. fold q. rewrite Hq.
  eexists; split; [reflexivity|]. split; [done|].
  unfold load_finish, set_table, no_appointments_row, date_display. unfold_client. simpl. by rewrite streqb_refl.
Qed.

(** every load settles: once the network has answered every query
    in flight, none is left and the loading row is gone, replaced by an
    answer's rows or a message. *)
Theorem all_answers_settle (p : page (Store := Store)) :
  pg_pending p <> [] ->
  exists p', run_events e getAllAppointments p (repeat (Resolve 0) (List.length (pg_pending p))) = Some p'
    /\ pg_pending p' = [] /\ w_table (pg_world p') <> [loading_row].
Proof.
  intros Hne. destruct (resolve_all_run _ p eq_refl) as (p' & Hr & Hnil & _ & Hsh).
  exists p'. do 2 (split; [done|]). apply (finish_shape_not_loading (pg_dash p)), Hsh.
  by destruct (pg_pending p).
Qed.
End Properties.

(** ** Witnesses *)

Definition doctor_store : gmap string string :=
  <["token" := "jwt"]> (<["doctorId" := "4"]> (<["userRole" := "doctor"]> ∅)).

Definition doctor_world (s : gmap string string) : world (gmap string string) :=
  page_world s "/pages/doctorDashboard.html".

Definition doctor_page (s : gmap string string) : page (Store := gmap string string) :=
  page_init (doctor_world s) "2026-11-09" true true true.

Definition ann_appointment : jsval :=
  JObj [("patientId", JNum 12); ("patientName", JStr "Ann"); ("patientPhone", JStr "555");
        ("patientEmail", JStr "ann@example.com")].

(** The server knows one appointment, Ann's. *)
Definition appointments_answer (q : query) : completion jsval :=
  match q_patientName q with
  | Some n => if String.eqb n "Ann" then Normal (JArr [ann_appointment]) else Normal (JArr [])
  | None => Normal (JArr [])
  end.

Definition doctor_env : env := example_env "http://localhost:8080" (fun _ => NetworkFailure "offline").

Lemma stale_response_shown_witness :
  let p := doctor_page doctor_store in
  let n := List.length (pg_pending p) in
  let q1 := query_of (on_search_input "Ann" (pg_dash p)) "jwt" in
  exists p', run_events doctor_env appointments_answer p
               [SearchInput "Ann"; SearchInput "Bo"; Resolve (Datatypes.S n); Resolve n] = Some p'
    /\ pg_pending p' = pg_pending p
    /\ d_patientName (pg_dash p') = search_filter "Bo" /\ q_patientName q1 = search_filter "Ann"
    /\ forall w0 : world (gmap string string),
         w_table (pg_world p') = w_table (snd (load_finish (pg_dash p') (appointments_answer q1) doctor_env w0)).
Proof. apply stale_response_shown; [reflexivity | reflexivity | discriminate]. Defined.

(** The page after loading, a search for Ann and its answer. *)
Definition doctor_page_after : page (Store := gmap string string) :=
  default (doctor_page doctor_store)
    (run_events doctor_env appointments_answer (doctor_page doctor_store)
       [DOMContentLoaded; SearchInput " Ann "; Resolve 1]).

Lemma reachable_table_ok_witness : table_ok (w_table (pg_world doctor_page_after)) = true.
Proof.
  apply (reachable_table_ok doctor_env appointments_answer).
  apply (run_events_reach doctor_env appointments_answer (doctor_page doctor_store)
           [DOMContentLoaded; SearchInput " Ann "; Resolve 1]); [apply reach_init; reflexivity | reflexivity].
Defined.

Lemma no_token_no_query_witness :
  let p := doctor_page (<["userRole" := "doctor"]> ∅) in
  pg_pending p = [] /\ (w_table (pg_world p) = [] \/ w_table (pg_world p) = [token_row]).
Proof.
  apply (no_token_no_query doctor_env appointments_answer); [apply reach_init; reflexivity | reflexivity].
Defined.

Lemma search_input_issues_query_witness :
  let p := doctor_page doctor_store in
  exists p', dash_step doctor_env appointments_answer p (SearchInput " Ann ") = Some p'
    /\ pg_pending p' = (pg_pending p
         ++ [mkQuery (d_doctorId (pg_dash p)) (d_selectedDate (pg_dash p))
               (if String.eqb (trim " Ann ") "" then None else Some (trim " Ann ")) "jwt"])%list
    /\ w_table (pg_world p') = [loading_row]
    /\ w_trace (pg_world p') = w_trace (pg_world p).
Proof. apply search_input_issues_query; [reflexivity | reflexivity | discriminate]. Defined.

Lemma stale_date_message_witness :
  let p := doctor_page doctor_store in
  let q := query_of (on_date_change "2026-11-01" (pg_dash p)) "jwt" in
  exists p', run_events doctor_env appointments_answer p
               [DateChange "2026-11-01"; TodayClick; Resolve (List.length (pg_pending p))] = Some p'
    /\ q_date q = "2026-11-01"
    /\ w_table (pg_world p') = [RowMessage "noPatientRecord" "No appointments found for today."].
Proof.
  apply (stale_date_message _ _ _ _ (mkDatePicker "2026-11-09" "2026-11-09"));
    [reflexivity | reflexivity | reflexivity | discriminate | reflexivity].
Defined.

Lemma all_answers_settle_witness :
  exists p', run_events doctor_env appointments_answer doctor_page_after
               (repeat (Resolve 0) (List.length (pg_pending doctor_page_after))) = Some p'
    /\ pg_pending p' = [] /\ w_table (pg_world p') <> [loading_row].
Proof. apply all_answers_settle. vm_compute. discriminate. Defined.
