(* ===== verification/Browser.v ===== *)
(** The browser around the scripts: the session state machine of the
    specification as an abstract machine ([SessionSpec]), the
    abstraction of a store to its session, and the page life cycle as a
    step relation on worlds - load a URL (header.js renders the header,
    and an expiry redirect loads "/"), click a header item, choose a role
    or log in on the role page, and follow the navigation a handler
    asks for. *)
From S2P Require Import Prelude JsValue JsString Storage Dom Client DoctorServices Session.

(** ** The session machine of the specification *)

Module SessionSpec.

Inductive arole : Type := Anonymous | Admin | Doctor | Patient | LoggedPatient.

#[export] Instance arole_eq_dec : EqDecision arole.
Proof. solve_decision. Defined.

Record asession : Type := mkASession { a_role : arole; a_token : option string }.

(** The roles that imply an authenticated user. *)
Definition authenticated (r : arole) : bool :=
  match r with Admin | Doctor | LoggedPatient => true | Anonymous | Patient => false end.

(** "token present only if role implies an authenticated user". *)
Definition spec_inv (a : asession) : bool :=
  match a_token a with Some _ => authenticated (a_role a) | None => true end.

Inductive alabel : Type :=
| ASelect (r : arole)
| ALogin (r : arole) (t : string)
| ALogout
| ALogoutPatient
| AExpire.

Inductive astep : asession -> alabel -> asession -> Prop :=
| as_select r t :
    r = Admin \/ r = Doctor \/ r = Patient ->
    astep (mkASession Anonymous t) (ASelect r) (mkASession r t)
| as_login r t0 t :
    r = Admin \/ r = Doctor ->
    astep (mkASession r t0) (ALogin r t) (mkASession r (Some t))
| as_logout a :
    astep a ALogout (mkASession Anonymous None)
| as_logoutPatient t :
    astep (mkASession LoggedPatient t) ALogoutPatient (mkASession Patient None)
| as_expire r :
    authenticated r = true -> astep (mkASession r None) AExpire (mkASession Anonymous None).

(** The machine keeps its invariant. *)
Lemma astep_inv a l a' : spec_inv a = true -> astep a l a' -> spec_inv a' = true.
Proof.
  intros Hi Hs. destruct Hs as [r t Hr|r t0 t Hr| | |r Hr]; simpl in *; try done.
  - by destruct t.
  - by destruct Hr as [->| ->].
Qed.

End SessionSpec.
Import SessionSpec.

(** ** The session a store holds *)

Definition abs_role (role : option string) : arole :=
  if role_is role "admin" then Admin
  else if role_is role "doctor" then Doctor
  else if role_is role "patient" then Patient
  else if role_is role "loggedPatient" then LoggedPatient
  else Anonymous.

(** A token as [!token] sees it: the empty string is no token. *)
Definition abs_token (token : option string) : option string :=
  match token with Some t => if String.eqb t "" then None else Some t | None => None end.

Definition abs {Store} `{!WebStorage Store} (s : Store) : asession :=
  mkASession (abs_role (getItem s "userRole")) (abs_token (getItem s "token")).

(** ** The page life cycle *)

(** What a page shows of the session: the token and the header. *)
Definition session_view {Store} `{!WebStorage Store} (w : world Store) : option string * option header_view :=
  (getItem (w_store w) "token", w_header w).

(** The header shows a role-specific control only with a token stored. *)
Definition header_backed {Store} `{!WebStorage Store} (w : world Store) : bool :=
  match w_header w with
  | Some (HeaderNav items) => negb (existsb role_control items) || negb (item_falsy (getItem (w_store w) "token"))
  | _ => true
  end.

Inductive bevent : Type :=
| BVisit (url : string)                 (** type a URL, follow a link, reload *)
| BClick (item : nav_item)              (** click an item of the header *)
| BSelectRole (role : string)           (** a role button of the role page *)
| BAdminLogin (username password : string)
| BDoctorLogin (email password : string).

(** The URLs assigned to [window.location.href] since the trace [tr]. *)
Definition new_navigations (tr tr' : list event) : list string :=
  drop (List.length (navigations tr)) (navigations tr').

Section Operations.
Context {Store : Type} `{!WebStorage Store}.
(** The environment of each page: its server, dialogs and globals. *)
Variable env_at : string -> env.
(** The role buttons of the role page. *)
Variable btns : role_buttons.

(** A fresh document at [url] with the header placeholder, and
    header.js's [renderHeader] run on it. *)
Definition load_page (s : Store) (tr : list event) (url : string) : world Store :=
  snd (renderHeader (env_at url) (mkWorld s url (Some HeaderBlank) [] [] [] 0 (Some None) tr)).

(** Loading a URL; the header's expiry redirect loads the root page,
    whose header never redirects ([load_root_settles]). *)
Definition visit (s : Store) (tr : list event) (url : string) : world Store :=
  let w := load_page s tr url in
  match last (new_navigations tr (w_trace w)) with
  | Some u => load_page (w_store w) (w_trace w) u
  | None => w
  end.

(** After a handler: the last URL it assigned is loaded. *)
Definition after (w w' : world Store) : world Store :=
  match last (new_navigations (w_trace w) (w_trace w')) with
  | Some u => visit (w_store w') (w_trace w') u
  | None => w'
  end.

Definition on_role_page (w : world Store) : bool := String.eqb (w_path w) "/".

Definition bstep (w : world Store) (ev : bevent) : option (world Store) :=
  let e := env_at (w_path w) in
  match ev with
  | BVisit u => Some (visit (w_store w) (w_trace w) u)
  | BClick item =>
      match w_header w with
      | Some (HeaderNav items) =>
          if bool_decide (item ∈ items) then Some (after w (snd (click_nav btns item e w))) else None
      | _ => None
      end
  | BSelectRole r =>
      if on_role_page w then Some (after w (snd (dispatch (selectRole btns r) e w))) else None
  | BAdminLogin u p =>
      if on_role_page w then Some (after w (snd (dispatch (adminLoginHandler u p) e w))) else None
  | BDoctorLogin m p =>
      if on_role_page w then Some (after w (snd (dispatch (doctorLoginHandler m p) e w))) else None
  end.

Fixpoint brun (w : world Store) (evs : list bevent) : option (world Store) :=
  match evs with
  | [] => Some w
  | ev :: evs' => match bstep w ev with Some w' => brun w' evs' | None => None end
  end.

(** The worlds a browser reaches from a first visit, whatever the store
    held. *)
Inductive breach : world Store -> Prop :=
| breach_init s u : breach (visit s [] u)
| breach_step w ev w' : breach w -> bstep w ev = Some w' -> breach w'.
End Operations.

(** ** Runs of the browser *)

Section BrowserRuns.
Context {Store : Type} `{WebStorageLaws Store}.
Variable env_at : string -> env.
Variable btns : role_buttons.

Lemma new_navigations_app tr evs : new_navigations tr (tr ++ evs) = navigations evs.
Proof. unfold new_navigations, navigations. by rewrite omap_app, drop_app_length. Qed.

Lemma new_navigations_same tr : new_navigations tr tr = [].
Proof. apply drop_all. Qed.

(** A handler that, unless it navigates, leaves the token and the
    header as they were. *)
Definition keeps_unless_navigates (m : M Store unit) : Prop :=
  forall e w, new_navigations (w_trace w) (w_trace (snd (m e w))) = [] ->
              session_view (snd (m e w)) = session_view w.

(** [solve_keeps] runs every branch: a branch either assigns a URL or
    changes neither token nor header. *)
Ltac solve_keeps :=
  intros ??; run_cases;
  repeat (match goal with |- context [if ?b then _ else _] => destruct b eqn:? end; simpl);
  rewrite <-?app_assoc, ?new_navigations_app, ?new_navigations_same; simpl;
  unfold session_view; simpl; intros Hn; first [discriminate Hn | by store_rw | done].

Lemma selectRole_keeps r : keeps_unless_navigates (dispatch (selectRole btns r)).
Proof. unfold selectRole. solve_keeps. Qed.

Lemma credential_login_keeps endpoint k1 v1 k2 v2 role dashboard dm ll fm :
  keeps_unless_navigates (dispatch (credential_login endpoint k1 v1 k2 v2 role dashboard dm ll fm)).
Proof. unfold credential_login. solve_keeps. Qed.

Definition is_navigation (ev : event) : bool := match ev with EvNavigate _ => true | _ => false end.

Lemma navigations_quiet evs : Forall (fun ev => is_navigation ev = false) evs -> navigations evs = [].
Proof. induction 1 as [|[] evs Hx _ IH]; by try discriminate. Qed.

(** A handler that keeps the view unless it navigates, followed by one
    that keeps the view and never navigates. *)
Lemma keeps_then_quiet (m1 m2 : M Store unit) :
  keeps_unless_navigates m1 -> preserves session_view m2 ->
  appends_with (fun ev => is_navigation ev = false) m2 ->
  keeps_unless_navigates (m1 ;; m2).
Proof.
  intros H1 Hp Ha e w. specialize (H1 e w). unfold bind.
  destruct (m1 e w) as [[[]|x] w1] eqn:Hm; simpl in *; [|done].
  destruct (Ha e w1) as (evs & Hevs & ->). rewrite Hp. intros Hn. apply H1. revert Hn.
  unfold new_navigations, navigations. rewrite omap_app. fold (navigations evs).
  by rewrite (navigations_quiet evs Hevs), app_nil_r.
Qed.

Lemma click_nav_keeps item : keeps_unless_navigates (click_nav btns item).
Proof.
  unfold click_nav. apply keeps_then_quiet.
  - unfold inline_onclick, logout, logoutPatient, selectRole. destruct item; solve_keeps.
  - unfold run_listeners. solve_preserves.
  - unfold run_listeners. solve_appends.
Qed.
Lemma header_backed_view (w w' : world Store) :
  session_view w' = session_view w -> header_backed w' = header_backed w.
Proof. unfold session_view, header_backed. by intros [= -> ->]. Qed.

(** A freshly loaded page shows role controls only with a token. *)
Lemma load_page_backed s tr u : header_backed (load_page env_at s tr u) = true.
Proof.
  unfold load_page, renderHeader, attachHeaderButtonListeners. unfold_client. simpl.
  destruct (ends_with "/" u); simpl; [done|].
  destruct (privileged (getItem s "userRole") && item_falsy (getItem s "token")) eqn:Hpt; simpl; [done|].
  unfold header_backed. simpl.
  destruct (existsb role_control (nav_items (getItem s "userRole"))) eqn:Hc; [|done].
  apply nav_items_role_control in Hc. rewrite Hc in Hpt. simpl in Hpt. by rewrite Hpt.
Qed.

Lemma visit_backed s tr u : header_backed (visit env_at s tr u) = true.
Proof. unfold visit. destruct (last _); apply load_page_backed. Qed.

(** The root page's header never redirects: one redirect is all a
    visit follows. *)
Lemma load_root_settles s tr : new_navigations tr (w_trace (load_page env_at s tr "/")) = [].
Proof. unfold load_page, renderHeader. unfold_client. simpl. apply new_navigations_same. Qed.

Lemma after_backed (w w' : world Store) :
  header_backed w = true ->
  (new_navigations (w_trace w) (w_trace w') = [] -> session_view w' = session_view w) ->
  header_backed (after env_at w w') = true.
Proof.
  intros Hb Hk. unfold after. destruct (last _) as [u|] eqn:Hl; [apply visit_backed|].
  apply last_None in Hl. by rewrite (header_backed_view w w' (Hk Hl)).
Qed.

Lemma bstep_backed w ev w' :
  header_backed w = true -> bstep env_at btns w ev = Some w' -> header_backed w' = true.
Proof.
  intros Hb Hs. destruct ev as [u|item|r|u p|m p]; simpl in Hs.
  - simplify_eq. apply visit_backed.
  - destruct (w_header w) as [[| |items]|]; try done.
    case_bool_decide; simplify_eq. apply after_backed; [done | apply click_nav_keeps].
  - destruct (on_role_page w); simplify_eq. apply after_backed; [done | apply selectRole_keeps].
  - destruct (on_role_page w); simplify_eq. apply after_backed; [done | apply credential_login_keeps].
  - destruct (on_role_page w); simplify_eq. apply after_backed; [done | apply credential_login_keeps].
Qed.

Lemma brun_reach w evs w' :
  breach env_at btns w -> brun env_at btns w evs = Some w' -> breach env_at btns w'.
Proof.
  revert w. induction evs as [|ev evs IH]; simpl; intros w Hw Hr; [by simplify_eq|].
  destruct (bstep env_at btns w ev) as [w1|] eqn:Hs; [|done].
  apply (IH w1); [by apply (breach_step _ _ w ev) | done].
Qed.
End BrowserRuns.


Lemma privileged_authenticated role : privileged role = true -> authenticated (abs_role role) = true.
Proof.
  unfold privileged, abs_role, role_is. destruct role as [r|]; [|done].
  repeat (destruct_streqb; simpl); done.
Qed.

Lemma item_falsy_abs_token o : item_falsy o = true -> abs_token o = None.
Proof. destruct o as [t|]; simpl; [by intros ->|done]. Qed.

Lemma abs_token_some t : t <> "" -> abs_token (Some t) = Some t.
Proof. intros Hne. simpl. by rewrite streqb_false. Qed.

(** ** Properties *)

Section Properties.
Context {Store : Type} `{WebStorageLaws Store}.
Variable env_at : string -> env.
Variable btns : role_buttons.

(** C28: in every state a browser reaches (pages loaded, header items
    clicked, roles chosen, logins accepted or refused, redirects
    followed), the header shows a role-specific control only while a
    non-empty token is stored. *)
Theorem reachable_header_backed (w : world Store) :
  breach env_at btns w -> header_backed w = true.
Proof. induction 1 as [s u|w ev w' _ IH Hs]; [apply visit_backed | by apply (bstep_backed env_at btns w ev)]. Qed.

(** The session after [logout]: anonymous, without a token. *)
Lemma logout_abs (e : env) (w : world Store) : abs (w_store (snd (logout e w))) = mkASession Anonymous None.
Proof. unfold logout, abs. unfold_client. simpl. by store_rw. Qed.

Lemma logoutPatient_abs (e : env) (w : world Store) :
  abs (w_store (snd (logoutPatient e w))) = mkASession Patient None.
Proof. unfold logoutPatient, abs. unfold_client. simpl. by store_rw. Qed.

Lemma selectRole_store r (e : env) (w : world Store) :
  w_store (snd (selectRole btns r e w)) = setItem "userRole" r (w_store w).
Proof.
  unfold selectRole. unfold_client. simpl.
  by destruct (admin_btn btns), (doctor_btn btns), (patient_btn btns).
Qed.

Lemma abs_eta (a : asession) : a = mkASession (a_role a) (a_token a).
Proof. by destruct a. Qed.

(** A non-root header either expires the session or leaves it as it was. *)
Lemma renderHeader_abs (e : env) (w : world Store) :
  ends_with "/" (w_path w) = false ->
  let s' := w_store (snd (renderHeader e w)) in
  abs s' = abs (w_store w)
  \/ (privileged (getItem (w_store w) "userRole") = true /\ item_falsy (getItem (w_store w) "token") = true
      /\ abs s' = mkASession Anonymous (abs_token (getItem (w_store w) "token"))).
Proof.
  intros Hp. unfold renderHeader, attachHeaderButtonListeners. unfold_client.
  destruct (w_header w) as [h|]; simpl; [|by left]. rewrite Hp.
  destruct (privileged (getItem (w_store w) "userRole")) eqn:Hr,
    (item_falsy (getItem (w_store w) "token")) eqn:Ht; simpl;
    [right; unfold abs; simpl; by store_rw | ..]; left; by repeat case_match.
Qed.

(** The root page: the role is dropped, and nothing redirects. *)
Lemma visit_root s tr :
  w_path (visit env_at s tr "/") = "/" /\ w_store (visit env_at s tr "/") = removeItem "userRole" s.
Proof.
  unfold visit. rewrite load_root_settles. simpl.
  unfold load_page, renderHeader. unfold_client. simpl. done.
Qed.

(** Any other page whose session has not expired: the store is kept. *)
Lemma visit_settled s tr u :
  ends_with "/" u = false -> privileged (getItem s "userRole") && item_falsy (getItem s "token") = false ->
  w_store (visit env_at s tr u) = s.
Proof.
  intros Hu Hp. unfold visit, load_page, renderHeader, attachHeaderButtonListeners. unfold_client.
  simpl. rewrite Hu. cbn [w_store w_path w_header w_trace w_listeners]. rewrite Hp.
  simpl. repeat case_match; simpl; rewrite ?new_navigations_same in *; done.
Qed.

Lemma bstep_admin_login (w : world Store) u p resp ps t :
  let e := env_at (w_path w) in
  on_role_page w = true ->
  server e (admin_login_request (api_base e) u p) = Responded resp -> ok resp = true ->
  resp_body resp = BodyJson (JObj ps) -> assoc_get "token" ps = Some (JStr t) -> t <> "" ->
  exists w', bstep env_at btns w (BAdminLogin u p) = Some w'
    /\ w_store w' = setItem "userRole" "admin" (setItem "token" t (w_store w)).
Proof.
  intros e Hr Hs Hok Hb Ht Hne. simpl. rewrite Hr. eexists. split; [reflexivity|].
  unfold dispatch, try_catch, adminLoginHandler.
  rewrite (credential_login_accepted _ _ _ _ _ _ _ _ _ _ _ _ resp (JObj ps) (JStr t)) by (simpl; rewrite ?Ht; done).
  unfold after. simpl. rewrite <-!app_assoc, new_navigations_app. simpl.
  apply visit_settled; [done|]. store_rw. simpl. by rewrite streqb_false.
Qed.

Lemma bstep_select_patient (w : world Store) :
  on_role_page w = true ->
  exists w', bstep env_at btns w (BSelectRole "patient") = Some w'
    /\ w_store w' = setItem "userRole" "patient" (w_store w).
Proof.
  intros Hr. simpl. rewrite Hr. eexists. split; [reflexivity|].
  unfold after, dispatch, try_catch, selectRole. unfold_client. simpl.
  destruct (admin_btn btns), (doctor_btn btns), (patient_btn btns); simpl;
    rewrite <-?app_assoc, ?new_navigations_app, ?new_navigations_same; simpl; try done.
  apply visit_settled; [done | by store_rw].
Qed.

(** C29: the session handlers refine the session machine of the
    specification. [logout] is its logout step from every session;
    [logoutPatient] from a signed-in patient its demotion step; choosing
    admin, doctor or patient from the anonymous session its selection
    step; an accepted admin or doctor login, with that role pending and
    a non-empty token in the answer, its login step; and the header of
    every page but the root either its expiry step or no step at all. *)
Theorem session_handlers_refine (e : env) (w : world Store) :
  let a := abs (w_store w) in
  astep a ALogout (abs (w_store (snd (logout e w))))
  /\ (a_role a = LoggedPatient -> astep a ALogoutPatient (abs (w_store (snd (logoutPatient e w)))))
  /\ (forall r, a = mkASession Anonymous None -> r = "admin" \/ r = "doctor" \/ r = "patient" ->
        astep a (ASelect (abs_role (Some r))) (abs (w_store (snd (selectRole btns r e w)))))
  /\ (forall username password resp ps t, a_role a = Admin ->
        server e (admin_login_request (api_base e) username password) = Responded resp -> ok resp = true ->
        resp_body resp = BodyJson (JObj ps) -> assoc_get "token" ps = Some (JStr t) -> t <> "" ->
        astep a (ALogin Admin t) (abs (w_store (snd (adminLoginHandler username password e w)))))
  /\ (forall email password resp ps t, a_role a = Doctor ->
        server e (mkRequest POST (api_base e ++ "/doctor/login")
                    (Some (JObj [("email", JStr email); ("password", JStr password)]))) = Responded resp ->
        ok resp = true -> resp_body resp = BodyJson (JObj ps) -> assoc_get "token" ps = Some (JStr t) -> t <> "" ->
        astep a (ALogin Doctor t) (abs (w_store (snd (doctorLoginHandler email password e w)))))
  /\ (ends_with "/" (w_path w) = false ->
        abs (w_store (snd (renderHeader e w))) = a \/ astep a AExpire (abs (w_store (snd (renderHeader e w))))).
Proof.
  intros a. split; [|split; [|split; [|split; [|split]]]].
  - rewrite logout_abs. apply as_logout.
  - intros Hr. rewrite logoutPatient_abs, (abs_eta a), Hr. apply as_logoutPatient.
  - intros r Ha Hr. rewrite Ha, selectRole_store. unfold abs. store_rw.
    assert (Ht : abs_token (getItem (w_store w) "token") = None) by (unfold a in Ha; by inversion Ha).
    rewrite Ht. apply as_select. destruct Hr as [->|[->| ->]]; auto.
  - intros u p resp ps t Hr Hs Hok Hb Ht Hne. unfold adminLoginHandler.
    rewrite (credential_login_accepted _ _ _ _ _ _ _ _ _ _ _ _ resp (JObj ps) (JStr t)) by (simpl; rewrite ?Ht; done).
    unfold abs. simpl. store_rw. rewrite abs_token_some by done.
    rewrite (abs_eta a), Hr. apply as_login. by left.
  - intros m p resp ps t Hr Hs Hok Hb Ht Hne. unfold doctorLoginHandler.
    rewrite (credential_login_accepted _ _ _ _ _ _ _ _ _ _ _ _ resp (JObj ps) (JStr t)) by (simpl; rewrite ?Ht; done).
    unfold abs. simpl. store_rw. rewrite abs_token_some by done.
    rewrite (abs_eta a), Hr. apply as_login. by right.
  - intros Hp. destruct (renderHeader_abs e w Hp) as [Heq|(Hr & Ht & Heq)]; [by left|right].
    rewrite Heq, (item_falsy_abs_token _ Ht). unfold a, abs. rewrite (item_falsy_abs_token _ Ht).
    apply as_expire. by apply privileged_authenticated.
Qed.

(** C30: the composed system does not keep the specification's session
    invariant. From a first visit of the role page, an accepted admin
    login, a return to "/" and the choice of the patient role reach a
    state whose session is "patient" with the admin's token still
    stored: a token without an authenticated role. *)
Theorem reachable_spec_violation (s : Store) username password resp ps t :
  let e := env_at "/" in
  server e (admin_login_request (api_base e) username password) = Responded resp -> ok resp = true ->
  resp_body resp = BodyJson (JObj ps) -> assoc_get "token" ps = Some (JStr t) -> t <> "" ->
  exists w, breach env_at btns w
    /\ abs (w_store w) = mkASession Patient (Some t) /\ spec_inv (abs (w_store w)) = false.
Proof.
  intros e Hs Hok Hb Ht Hne.
  set (w0 := visit env_at s [] "/"). destruct (visit_root s []) as [Hp0 Hs0]. fold w0 in Hp0, Hs0.
  assert (Hr0 : on_role_page w0 = true) by (unfold on_role_page; by rewrite Hp0).
  destruct (bstep_admin_login w0 username password resp ps t Hr0) as (w1 & Hst1 & Hs1);
    rewrite ?Hp0; try done.
  set (w2 := visit env_at (w_store w1) (w_trace w1) "/").
  destruct (visit_root (w_store w1) (w_trace w1)) as [Hp2 Hs2]. fold w2 in Hp2, Hs2.
  assert (Hr2 : on_role_page w2 = true) by (unfold on_role_page; by rewrite Hp2).
  destruct (bstep_select_patient w2 Hr2) as (w3 & Hst3 & Hs3).
  exists w3. split.
  - apply (breach_step _ _ w2 (BSelectRole "patient")); [|done].
    apply (breach_step _ _ w1 (BVisit "/")); [|done].
    apply (breach_step _ _ w0 (BAdminLogin username password)); [apply breach_init | done].
  - assert (Ha : abs (w_store w3) = mkASession Patient (Some t)).
    { unfold abs. rewrite Hs3, Hs2, Hs1, Hs0. store_rw. by rewrite abs_token_some. }
    by rewrite Ha.
Qed.
End Properties.

(** ** Witnesses *)

(** Every page talks to a server that accepts every login with the
    token "jwt". *)
Definition jwt_env (url : string) : env :=
  example_env "http://localhost:8080" (fun _ => Responded (token_answer "jwt")).

Definition all_buttons : role_buttons := mkRoleButtons true true true.

Definition first_visit : world (gmap string string) := visit jwt_env ∅ [] "/".

(** An admin signs in, lands on the dashboard and logs out. *)
Definition admin_session_run : world (gmap string string) :=
  default first_visit (brun jwt_env all_buttons first_visit [BAdminLogin "admin" "secret"; BClick NavLogout]).

Lemma reachable_header_backed_witness : header_backed admin_session_run = true.
Proof.
  apply (reachable_header_backed jwt_env all_buttons).
  apply (brun_reach jwt_env all_buttons first_visit [BAdminLogin "admin" "secret"; BClick NavLogout]);
    [apply breach_init | vm_compute; reflexivity].
Defined.

Lemma session_handlers_refine_witness :
  let e := jwt_env "/" in
  let w := page_world admin_store "/pages/adminDashboard.html" in
  let a := abs (w_store w) in
  astep a ALogout (abs (w_store (snd (logout e w))))
  /\ (a_role a = LoggedPatient -> astep a ALogoutPatient (abs (w_store (snd (logoutPatient e w)))))
  /\ (forall r, a = mkASession Anonymous None -> r = "admin" \/ r = "doctor" \/ r = "patient" ->
        astep a (ASelect (abs_role (Some r))) (abs (w_store (snd (selectRole all_buttons r e w)))))
  /\ (forall username password resp ps t, a_role a = Admin ->
        server e (admin_login_request (api_base e) username password) = Responded resp -> ok resp = true ->
        resp_body resp = BodyJson (JObj ps) -> assoc_get "token" ps = Some (JStr t) -> t <> "" ->
        astep a (ALogin Admin t) (abs (w_store (snd (adminLoginHandler username password e w)))))
  /\ (forall email password resp ps t, a_role a = Doctor ->
        server e (mkRequest POST (api_base e ++ "/doctor/login")
                    (Some (JObj [("email", JStr email); ("password", JStr password)]))) = Responded resp ->
        ok resp = true -> resp_body resp = BodyJson (JObj ps) -> assoc_get "token" ps = Some (JStr t) -> t <> "" ->
        astep a (ALogin Doctor t) (abs (w_store (snd (doctorLoginHandler email password e w)))))
  /\ (ends_with "/" (w_path w) = false ->
        abs (w_store (snd (renderHeader e w))) = a \/ astep a AExpire (abs (w_store (snd (renderHeader e w))))).
Proof. intros e w. apply session_handlers_refine. Defined.

Lemma reachable_spec_violation_witness :
  exists w, breach jwt_env all_buttons w
    /\ abs (w_store w) = mkASession Patient (Some "jwt") /\ spec_inv (abs (w_store w)) = false.
Proof.
  apply (reachable_spec_violation jwt_env all_buttons ∅ "admin" "secret" (token_answer "jwt") [("token", JStr "jwt")]);
    [reflexivity .. | discriminate].
Defined.
